(** * Focus Lock: the pattern engine, the lock policy and the session timers

    A shallow embedding of the logic of the Focus Lock application
    (lib/storage.ts, HomeScreen.tsx, FocusSessionScreen.tsx and
    ReplacementActionScreen.tsx) and the properties its specification
    states about it.

    JavaScript numbers that hold integers (epoch milliseconds, counts,
    hours, seconds) are [Z]; [Math.floor (a / b)] for a positive [b] is
    [Z.div], which rounds towards minus infinity as [Math.floor] does.
    The wall clock ([Date.now ()], [new Date ()]) is an explicit argument
    [now] of every function that reads it. *)

From Stdlib Require Import ZArith QArith List String Ascii Bool Lia.
From Stdlib Require Import DecimalString Permutation Sorted.
From Stdlib Require Import Qround.
Import ListNotations.
Open Scope Z_scope.

(* ================================================================== *)
(** * Part I: the program                                              *)
(* ================================================================== *)

(** ** The host's [Date] object *)

Module JsDate.

Definition msPerSecond : Z := 1000.
Definition msPerHour : Z := 60 * 60 * 1000.
Definition msPerDay : Z := 24 * 60 * 60 * 1000.

(** The local time zone of the host, as ECMAScript's two abstract
    operations: [toLocal] is LocalTime (an instant, in epoch ms, to the
    local time value [t + offset]) and [fromLocal] is UTC (a local time
    value back to the instant it names). *)
Record TimeZone : Type := mkZone {
  toLocal : Z -> Z;
  fromLocal : Z -> Z
}.

(** The calendar day an instant falls on in zone [z], as a day number.
    It stands for the triple [getFullYear ()], [getMonth ()],
    [getDate ()], which ECMAScript derives from Day (LocalTime t). *)
Definition localDay (z : TimeZone) (t : Z) : Z := toLocal z t / msPerDay.

(** [new Date (y, m, d).getTime ()]: the instant of local midnight of
    calendar day [d] (MakeDay, MakeDate with time 0, then UTC).  A day
    argument such as [getDate () - k] is day number [d - k]. *)
Definition dateOf (z : TimeZone) (d : Z) : Z := fromLocal z (d * msPerDay).

(** [new Date (t).getHours ()]. *)
Definition getHours (z : TimeZone) (t : Z) : Z :=
  (toLocal z t / msPerHour) mod 24.

(** A zone whose offset from UTC never changes. *)
Definition fixedZone (offset : Z) : TimeZone :=
  mkZone (fun t => t + offset) (fun l => l - offset).

Definition utc : TimeZone := fixedZone 0.

(** A zone that moves its clocks forward by one hour at instant
    [change]: offset [before] until then, [before + msPerHour] from then
    on.  Local times the jump skips are read with the earlier offset. *)
Definition springForward (before change : Z) : TimeZone :=
  mkZone
    (fun t => if t <? change then t + before else t + before + msPerHour)
    (fun l => if l <? change + before + msPerHour
              then l - before else l - before - msPerHour).

(** US Eastern time around 9 March 2025: UTC-5 until 07:00 UTC of that
    day (02:00 local), UTC-4 afterwards. *)
Definition usEastern2025 : TimeZone :=
  springForward (-5 * msPerHour) 1741503600000.

(** A zone that moves its clocks back by one hour at instant [change]:
    offset [before] until then, [before - msPerHour] from then on.  Local
    times the hour repeats are read with the earlier offset. *)
Definition fallBack (before change : Z) : TimeZone :=
  mkZone
    (fun t => if t <? change then t + before else t + before - msPerHour)
    (fun l => if l <? change + before
              then l - before else l - before + msPerHour).

(** US Eastern time around 2 November 2025: UTC-4 until 06:00 UTC of
    that day (02:00 local), UTC-5 afterwards. *)
Definition usEasternAutumn2025 : TimeZone :=
  fallBack (-4 * msPerHour) 1762063200000.

(** Successive local midnights are successive instants. *)
Definition midnights_increase (z : TimeZone) : Prop :=
  forall d1 d2, d1 < d2 -> dateOf z d1 < dateOf z d2.

(** An instant is not earlier than the midnight that starts its day. *)
Definition midnight_before (z : TimeZone) : Prop :=
  forall t, dateOf z (localDay z t) <= t.

(** Instants in order fall on days in order. *)
Definition days_monotone (z : TimeZone) : Prop :=
  forall t1 t2, t1 <= t2 -> localDay z t1 <= localDay z t2.

End JsDate.

(** ** [Array.prototype.sort] and number formatting *)

Module JsArray.

Section Sort.
Context {A : Type}.
(** The comparator: negative when its first argument goes first. *)
Variable cmp : A -> A -> Z.

(** [sort] is stable: an element moves past another only when the
    comparator puts it strictly after. *)
Fixpoint insert (x : A) (l : list A) : list A :=
  match l with
  | [] => [x]
  | y :: l' => if 0 <? cmp x y then y :: insert x l' else x :: y :: l'
  end.

Definition sort (l : list A) : list A := fold_right insert [] l.
End Sort.

(** [`${n}`] for an integer [n]. *)
Definition toString (n : Z) : string := NilZero.string_of_int (Z.to_int n).

(** [arr.filter (p).length]. *)
Definition countIf {A : Type} (p : A -> bool) (l : list A) : Z :=
  Z.of_nat (List.length (filter p l)).

End JsArray.

(** ** lib/storage.ts *)

Module Storage.
Import JsDate JsArray.

Inductive ActionType : Type := physical | writing | breathing.

Record RelapseLog : Type := mkRelapseLog {
  id : string;
  timestamp : Z;
  replacementAction : ActionType;
  journalEntry : option string
}.

Record Settings : Type := mkSettings {
  focusDuration : Z;
  unlockThreshold : Z;
  isFirstSetup : bool
}.

Record FocusSession : Type := mkFocusSession {
  sessionId : string;
  startTime : Z;
  endTime : Z;
  duration : Z;
  completed : bool;
  presetId : option string
}.

Record JournalEntry : Type := mkJournalEntry {
  entryId : string;
  entryTimestamp : Z;
  content : string;
  relapseLogId : string
}.

Definition DEFAULT_SETTINGS : Settings := mkSettings 30 7 true.

(** *** The key-value store

    The text kept under a key is described by what the code can do
    with it: the empty string (falsy), a text [JSON.parse] rejects, or
    the text [JSON.stringify] made of an array of records, which
    [JSON.parse] turns back into that array.  Texts that parse to
    something else are never written by the application and are left
    out. *)
Inductive Text (A : Type) : Type :=
| Blank
| Garbled
| Encoded (v : list A).
Arguments Blank {A}.
Arguments Garbled {A}.
Arguments Encoded {A} v.

(** What [AsyncStorage.getItem] does for a key: the promise rejects, or
    resolves to [null] or to the stored text. *)
Inductive Cell (A : Type) : Type :=
| Faulty
| Holds (item : option (Text A)).
Arguments Faulty {A}.
Arguments Holds {A} item.

Record AsyncStorage : Type := mkStorage {
  relapse_logs : Cell RelapseLog;
  focus_sessions : Cell FocusSession;
  journal_entries : Cell JournalEntry
}.

(** A storage key, typed by the records kept under it. *)
Record Key (A : Type) : Type := mkKey {
  cellOf : AsyncStorage -> Cell A;
  withCell : Cell A -> AsyncStorage -> AsyncStorage
}.
Arguments cellOf {A} k s.
Arguments withCell {A} k c s.

Definition RELAPSE_LOGS : Key RelapseLog :=
  mkKey _ relapse_logs
    (fun c s => mkStorage c (focus_sessions s) (journal_entries s)).
Definition FOCUS_SESSIONS : Key FocusSession :=
  mkKey _ focus_sessions
    (fun c s => mkStorage (relapse_logs s) c (journal_entries s)).
Definition JOURNAL_ENTRIES : Key JournalEntry :=
  mkKey _ journal_entries
    (fun c s => mkStorage (relapse_logs s) (focus_sessions s) c).

(** *** Effects: the store, the clock and the random source

    An asynchronous function is a function of the world that returns
    or throws.  [ticks] and [draws] count the readings of [Date.now ()]
    and [Math.random ()] made so far. *)
Record World : Type := mkWorld {
  storage : AsyncStorage;
  ticks : nat;
  draws : nat
}.

Inductive Outcome (A : Type) : Type :=
| Returned (a : A)
| Thrown.
Arguments Returned {A} a.
Arguments Thrown {A}.

Definition M (A : Type) : Type := World -> Outcome A * World.

Definition ret {A : Type} (a : A) : M A := fun w => (Returned a, w).

Definition bind {A B : Type} (m : M A) (k : A -> M B) : M B :=
  fun w => match m w with
           | (Returned a, w') => k a w'
           | (Thrown, w') => (Thrown, w')
           end.

Definition throw {A : Type} : M A := fun w => (Thrown, w).

(** [try { body } catch { handler }]. *)
Definition try_catch {A : Type} (body handler : M A) : M A :=
  fun w => match body w with
           | (Returned a, w') => (Returned a, w')
           | (Thrown, w') => handler w'
           end.

Declare Scope js_scope.
Delimit Scope js_scope with js.
Notation "x <- m ;; k" := (bind m (fun x => k))
  (at level 61, m at next level, right associativity) : js_scope.
Notation "m ;;; k" := (bind m (fun _ => k))
  (at level 61, right associativity) : js_scope.
Local Open Scope js_scope.

Definition getItem {A : Type} (key : Key A) : M (option (Text A)) :=
  fun w => match cellOf key (storage w) with
           | Faulty => (Thrown, w)
           | Holds item => (Returned item, w)
           end.

(** [setItem] stores the text; writes are taken to succeed. *)
Definition setItem {A : Type} (key : Key A) (text : Text A) : M unit :=
  fun w => (Returned tt,
            mkWorld (withCell key (Holds (Some text)) (storage w))
                    (ticks w) (draws w)).

Definition JSON_parse {A : Type} (text : Text A) : M (list A) :=
  match text with
  | Encoded v => ret v
  | Blank | Garbled => throw
  end.

Definition JSON_stringify {A : Type} (v : list A) : Text A := Encoded v.

Section Host.
(** The successive values of [Date.now ()] and of
    [Math.random ().toString (36).substr (2, 9)]. *)
Variable clockAt : nat -> Z.
Variable randomAt : nat -> string.

Definition Date_now : M Z :=
  fun w => (Returned (clockAt (ticks w)),
            mkWorld (storage w) (S (ticks w)) (draws w)).

Definition Math_random_suffix : M string :=
  fun w => (Returned (randomAt (draws w)),
            mkWorld (storage w) (ticks w) (S (draws w))).

(** [`${Date.now ()}-${Math.random ().toString (36).substr (2, 9)}`] *)
Definition freshId : M string :=
  t <- Date_now ;;
  r <- Math_random_suffix ;;
  ret (toString t ++ "-" ++ r)%string.

(** [data ? JSON.parse (data) : []] inside [try], [[]] in [catch]. *)
Definition getList {A : Type} (key : Key A) : M (list A) :=
  try_catch
    (data <- getItem key ;;
     match data with
     | Some Blank | None => ret []
     | Some text => JSON_parse text
     end)
    (ret []).

Definition getRelapseLogs : M (list RelapseLog) := getList RELAPSE_LOGS.
Definition getFocusSessions : M (list FocusSession) :=
  getList FOCUS_SESSIONS.
Definition getJournalEntries : M (list JournalEntry) :=
  getList JOURNAL_ENTRIES.

Definition addJournalEntry (content : string) (relapseLogId : string)
  : M JournalEntry :=
  entries <- getJournalEntries ;;
  newId <- freshId ;;
  ts <- Date_now ;;
  let newEntry := mkJournalEntry newId ts content relapseLogId in
  setItem JOURNAL_ENTRIES (JSON_stringify (entries ++ [newEntry])) ;;;
  ret newEntry.

(** A string is truthy when it is defined and not empty. *)
Definition truthy (s : option string) : bool :=
  match s with
  | Some (String _ _) => true
  | Some EmptyString | None => false
  end.

Definition addRelapseLog (action : ActionType)
  (journal : option string) : M RelapseLog :=
  logs <- getRelapseLogs ;;
  newId <- freshId ;;
  ts <- Date_now ;;
  let newLog := mkRelapseLog newId ts action journal in
  setItem RELAPSE_LOGS (JSON_stringify (logs ++ [newLog])) ;;;
  (if truthy journal
   then match journal with
        | Some text => e <- addJournalEntry text (id newLog) ;; ret tt
        | None => ret tt
        end
   else ret tt) ;;;
  ret newLog.

Definition addFocusSession
  (start finish seconds : Z) (done : bool) (preset : option string)
  : M FocusSession :=
  sessions <- getFocusSessions ;;
  newId <- freshId ;;
  let newSession :=
    mkFocusSession newId start finish seconds done preset in
  setItem FOCUS_SESSIONS (JSON_stringify (sessions ++ [newSession])) ;;;
  ret newSession.
End Host.

(** *** Derived statistics

    The zone [z] is the host's local time zone and [now] the value of
    [new Date ()]. *)
Section Patterns.
Variable z : TimeZone.
Variable now : Z.

Definition getCurrentStreak (logs : list RelapseLog) : Z :=
  if Nat.eqb (List.length logs) 0 then 0 else
  let today := dateOf z (localDay z now) in
  let sortedLogs := sort (fun a b => timestamp b - timestamp a) logs in
  match sortedLogs with
  | [] => 0
  | lastRelapse :: _ =>
      let lastRelapseDay := dateOf z (localDay z (timestamp lastRelapse)) in
      let daysSinceLastRelapse := (today - lastRelapseDay) / msPerDay in
      daysSinceLastRelapse
  end.

Definition getTodayRelapseCount (logs : list RelapseLog) : Z :=
  let todayStart := dateOf z (localDay z now) in
  let todayEnd := todayStart + 24 * 60 * 60 * 1000 in
  countIf (fun log => (todayStart <=? timestamp log)
                      && (timestamp log <? todayEnd)) logs.

Record WeekCount : Type := mkWeekCount { week : string; weekCount : Z }.

(** The body of the loop of [getWeeklyPattern] for index [i]. *)
Definition weekEntry (logs : list RelapseLog) (weeks i : Z) : WeekCount :=
  let weekEnd := dateOf z (localDay z now - i * 7) in
  let weekStart := weekEnd - 7 * 24 * 60 * 60 * 1000 in
  let count := countIf (fun log => (weekStart <=? timestamp log)
                                   && (timestamp log <? weekEnd)) logs in
  mkWeekCount ("W" ++ toString (weeks - i)) count.

(** [for (let i = weeks - 1; i >= 0; i--)], with [n] iterations left:
    the index runs over [n - 1], ..., [0]. *)
Fixpoint weeklyLoop (logs : list RelapseLog) (weeks : Z) (n : nat)
  (result : list WeekCount) : list WeekCount :=
  match n with
  | O => result
  | S i => weeklyLoop logs weeks i
             (result ++ [weekEntry logs weeks (Z.of_nat i)])
  end.

Definition getWeeklyPattern (logs : list RelapseLog) (weeks : Z)
  : list WeekCount :=
  weeklyLoop logs weeks (Z.to_nat weeks) [].

Record HourCount : Type := mkHourCount { hour : Z; count : Z }.

(** [hourCounts[hour]++]; an index outside the array leaves the 24 counts
    as they are ([getHours] never yields one). *)
Fixpoint bump (i : nat) (hourCounts : list Z) : list Z :=
  match hourCounts, i with
  | [], _ => []
  | c :: rest, O => (c + 1) :: rest
  | c :: rest, S i' => c :: bump i' rest
  end.

(** [arr.map ((x, i) => f (x, i))], counting from index [from]. *)
Fixpoint mapIndexed {A B : Type} (f : A -> Z -> B) (from : Z) (l : list A)
  : list B :=
  match l with
  | [] => []
  | x :: l' => f x from :: mapIndexed f (from + 1) l'
  end.

Definition hourCountsOf (logs : list RelapseLog) : list Z :=
  fold_left
    (fun hourCounts log =>
       bump (Z.to_nat (getHours z (timestamp log))) hourCounts)
    logs (repeat 0 24).

Definition getHourlyPattern (logs : list RelapseLog) : list HourCount :=
  mapIndexed (fun count hour => mkHourCount hour count) 0 (hourCountsOf logs).

End Patterns.

Record Window : Type := mkWindow { start : Z; end_ : Z; count_ : Z }.

(** Strict comparison of rationals, for [count > avgCount * 1.5]. *)
Definition Qgtb (a b : Q) : bool := negb (Qle_bool a b).

(** The test of the loop of [getRiskWindows],
    [count > avgCount * 1.5 && count >= 2], with the mean and its
    multiple as exact rationals.  The doubles the code computes give the
    same verdict: [avgCount * 1.5] is [n / 16] up to rounding, a whole
    [count] that differs from [n / 16] is at least 1/16 away from it, far
    more than the rounding, and where the two are equal the product
    rounds to [count] itself. *)
Definition elevated (avgCount : Q) (count : Z) : bool :=
  Qgtb (inject_Z count) (avgCount * (3 # 2)) && (2 <=? count).

(** The state of the loop: the windows pushed so far and [currentWindow]. *)
Definition ScanState : Type := (list Window * option Window)%type.

Definition scanStep (avgCount : Q) (st : ScanState) (hc : HourCount)
  : ScanState :=
  let '(riskWindows, currentWindow) := st in
  if elevated avgCount (count hc) then
    match currentWindow with
    | Some w =>
        if hour hc =? end_ w
        then (riskWindows,
              Some (mkWindow (start w) (hour hc + 1) (count_ w + count hc)))
        else (riskWindows ++ [w],
              Some (mkWindow (hour hc) (hour hc + 1) (count hc)))
    | None =>
        (riskWindows, Some (mkWindow (hour hc) (hour hc + 1) (count hc)))
    end
  else
    match currentWindow with
    | Some w => (riskWindows ++ [w], None)
    | None => (riskWindows, None)
    end.

(** The push after the loop. *)
Definition flush (st : ScanState) : list Window :=
  match st with
  | (riskWindows, Some w) => riskWindows ++ [w]
  | (riskWindows, None) => riskWindows
  end.

(** The windows in the order the loop finds them, before the sort. *)
Definition scanWindows (avgCount : Q) (hourlyPattern : list HourCount)
  : list Window :=
  flush (fold_left (scanStep avgCount) hourlyPattern ([], None)).

(** [logs.length > 0 ? logs.length / 24 : 0] *)
Definition averageOf (n : nat) : Q :=
  if (0 <? Z.of_nat n)%Z then Z.of_nat n # 24 else 0%Q.

(** The tail of [getRiskWindows], from the hourly pattern and the number
    of logs on. *)
Definition riskWindowsOf (hourlyPattern : list HourCount) (n : nat)
  : list Window :=
  sort (fun a b => count_ b - count_ a)
       (scanWindows (averageOf n) hourlyPattern).

Definition getRiskWindows (z : TimeZone) (logs : list RelapseLog)
  : list Window :=
  riskWindowsOf (getHourlyPattern z logs) (List.length logs).

Definition formatHour (hour : Z) : string :=
  if hour =? 0 then "12 AM"
  else if hour =? 12 then "12 PM"
  else if hour <? 12 then toString hour ++ " AM"
  else toString (hour - 12) ++ " PM".

End Storage.

(** ** [String.prototype.trim] *)

Module JsString.

(** White space and line terminators among the code units below 256:
    TAB, LF, VT, FF, CR, SP and NBSP. *)
Definition isWhiteSpace (c : ascii) : bool :=
  let n := nat_of_ascii c in
  (Nat.leb 9 n && Nat.leb n 13) || Nat.eqb n 32 || Nat.eqb n 160.

Fixpoint trimStart (s : string) : string :=
  match s with
  | EmptyString => EmptyString
  | String c rest => if isWhiteSpace c then trimStart rest else s
  end.

Fixpoint trimEnd (s : string) : string :=
  match s with
  | EmptyString => EmptyString
  | String c rest =>
      match trimEnd rest with
      | EmptyString => if isWhiteSpace c then EmptyString
                       else String c EmptyString
      | kept => String c kept
      end
  end.

Definition trim (s : string) : string := trimEnd (trimStart s).

(** A string in a condition: true when it is not empty. *)
Definition nonEmpty (s : string) : bool :=
  match s with
  | EmptyString => false
  | String _ _ => true
  end.

End JsString.

(** ** screens/HomeScreen.tsx *)

Module HomeScreen.
Import Storage.

(** [settings && !settings.isFirstSetup && streak < settings.unlockThreshold]
    where [settings] is [null] until it is loaded: [None] is the [null]
    the chain of [&&] then yields. *)
Definition isSettingsLocked (settings : option Settings) (streak : Z)
  : option bool :=
  match settings with
  | None => None
  | Some s => Some (negb (isFirstSetup s) && (streak <? unlockThreshold s))
  end.

(** The value as a condition. *)
Definition toBoolean (v : option bool) : bool :=
  match v with
  | Some b => b
  | None => false
  end.

End HomeScreen.

(** ** screens/FocusSessionScreen.tsx *)

Module FocusSessionScreen.
Import JsDate.

(** The state of the screen the timer touches.  [timerLive] tells
    whether the interval kept in [timerRef] is still scheduled;
    [completions] counts the calls [setIsComplete (true)]. *)
Record State : Type := mkState {
  remainingSeconds : Z;
  isComplete : bool;
  startTimeRef : Z;
  timerLive : bool;
  completions : nat
}.

(** [const totalSeconds = duration * 60], [duration] being the minutes
    the route passes. *)
Definition totalSecondsOf (duration : Z) : Z := duration * 60.

(** The first render and the effect that starts the interval, at [now]. *)
Definition mount (totalSeconds now : Z) : State :=
  mkState totalSeconds false now true 0.

(** The callback given to [setInterval], run at instant [now]. *)
Definition intervalCallback (totalSeconds now : Z) (s : State) : State :=
  let elapsed := (now - startTimeRef s) / 1000 in
  let remaining := Z.max 0 (totalSeconds - elapsed) in
  if remaining =? 0
  then mkState remaining true (startTimeRef s) false (S (completions s))
  else mkState remaining (isComplete s) (startTimeRef s) (timerLive s)
               (completions s).

(** The scheduler runs the callback only while the interval is not
    cleared. *)
Definition tick (totalSeconds now : Z) (s : State) : State :=
  if timerLive s then intervalCallback totalSeconds now s else s.

(** The ticks at the instants [nows], in turn. *)
Definition run (totalSeconds : Z) (nows : list Z) (s : State) : State :=
  fold_left (fun s now => tick totalSeconds now s) nows s.

End FocusSessionScreen.

(** ** screens/ReplacementActionScreen.tsx

    The screen in its version with the journal input and the breathing
    exercise. *)

Module ReplacementActionScreen.
Import JsDate JsString Storage.
Local Open Scope js_scope.

Record Action : Type := mkAction {
  type : ActionType;
  label : string;
  duration : Z;
  icon : string
}.

Definition ACTIONS : list Action :=
  [ mkAction physical "Physical Movement" 60 "move";
    mkAction writing "Write Thoughts" 90 "edit-3";
    mkAction breathing "Breathing Exercise" 120 "wind" ].

(** The state of the screen.  [timerLive] and [breathTimerLive] tell
    whether the intervals kept in [timerRef] and [breathTimerRef] are
    still scheduled; [completions] counts the calls
    [setIsComplete (true)].  The phases of the breathing exercise and the
    haptic feedback do not touch the countdown and are left out. *)
Record State : Type := mkState {
  selectedAction : option ActionType;
  remainingSeconds : Z;
  isComplete : bool;
  startTimeRef : Z;
  timerLive : bool;
  breathTimerLive : bool;
  journalText : string;
  completions : nat
}.

Definition initial : State :=
  mkState None 0 false 0 false false "" 0.

Definition isBreathing (a : ActionType) : bool :=
  match a with
  | breathing => true
  | _ => false
  end.

Definition handleSelectAction (action : Action) (now : Z) (s : State)
  : State :=
  mkState (Some (type action)) (duration action) (isComplete s) now true
          (isBreathing (type action) || breathTimerLive s)
          (journalText s) (completions s).

(** The callback given to [setInterval] by [handleSelectAction]. *)
Definition intervalCallback (action : Action) (now : Z) (s : State)
  : State :=
  let elapsed := (now - startTimeRef s) / 1000 in
  let remaining := Z.max 0 (duration action - elapsed) in
  if remaining =? 0
  then mkState (selectedAction s) remaining true (startTimeRef s) false false
               (journalText s) (S (completions s))
  else mkState (selectedAction s) remaining (isComplete s) (startTimeRef s)
               (timerLive s) (breathTimerLive s) (journalText s)
               (completions s).

Definition tick (action : Action) (now : Z) (s : State) : State :=
  if timerLive s then intervalCallback action now s else s.

(** The ticks at the instants [nows], in turn. *)
Definition run (action : Action) (nows : list Z) (s : State) : State :=
  fold_left (fun s now => tick action now s) nows s.

(** [onChangeText = setJournalText]; the input is editable until the
    timer completes. *)
Definition setJournalText (text : string) (s : State) : State :=
  mkState (selectedAction s) (remainingSeconds s) (isComplete s)
          (startTimeRef s) (timerLive s) (breathTimerLive s) text
          (completions s).

Definition isWriting (a : ActionType) : bool :=
  match a with
  | writing => true
  | _ => false
  end.

(** [selectedAction === "writing" && journalText.trim ()
      ? journalText.trim () : undefined] *)
Definition journalOf (a : ActionType) (text : string) : option string :=
  if isWriting a && nonEmpty (trim text) then Some (trim text) else None.

Section Host.
Variable clockAt : nat -> Z.
Variable randomAt : nat -> string.

(** [handleComplete], up to the navigation back. *)
Definition handleComplete (s : State) : M unit :=
  match selectedAction s with
  | Some a =>
      addRelapseLog clockAt randomAt a (journalOf a (journalText s)) ;;;
      ret tt
  | None => ret tt
  end.

End Host.

End ReplacementActionScreen.

(** ** The specification's vocabulary and the inputs of the examples *)

Module Spec.
Import JsDate JsArray Storage.

(** Membership of the half-open interval [[lo, hi)]. *)
Definition inHalfOpen (lo hi t : Z) : bool := (lo <=? t) && (t <? hi).

(** The number of logs whose timestamp lies in [[lo, hi)]. *)
Definition logsWithin (lo hi : Z) (logs : list RelapseLog) : Z :=
  countIf (fun log => inHalfOpen lo hi (timestamp log)) logs.

(** [last] is a most recent log of [logs] by timestamp. *)
Definition mostRecent (last : RelapseLog) (logs : list RelapseLog) : Prop :=
  In last logs /\ forall l, In l logs -> timestamp l <= timestamp last.

(** The weekly pattern as the specification words it: window [i] ends at
    [now - i * 7 days] and starts 7 days earlier; W1 is the oldest. *)
Definition weeklyPattern_spec (now : Z) (logs : list RelapseLog) (weeks : nat)
  : list WeekCount :=
  map (fun k =>
         let i := Z.of_nat (weeks - 1 - k) in
         let windowEnd := now - i * 7 * msPerDay in
         mkWeekCount ("W" ++ toString (Z.of_nat (k + 1)))
                     (logsWithin (windowEnd - 7 * msPerDay) windowEnd logs))
      (seq 0 weeks).

(** A log of which only the timestamp matters. *)
Definition logAt (t : Z) : RelapseLog := mkRelapseLog "" t physical None.

(** Noon of 9 March 2025 and noon of 10 March 2025, US Eastern time. *)
Definition noon_9_march : Z := 1741536000000.
Definition noon_10_march : Z := 1741622400000.

(** 00:00:00 of 10 March 2025, US Eastern time. *)
Definition midnight_10_march : Z := 1741579200000.

(** Noon and 23:59:59 of 2 November 2025, US Eastern time. *)
Definition noon_2_november : Z := 1762102800000.
Definition last_second_2_november : Z := 1762145999000.

(** The time of day, in ms since local midnight, of an instant. *)
Definition timeOfDay (z : TimeZone) (t : Z) : Z := toLocal z t mod msPerDay.

End Spec.

(** ** The specification's vocabulary for the store and the timers *)

Module SpecTerms.
Import JsString Storage.

(** The records a list operation is to yield for a cell: those of the
    array stored there, none when nothing readable is there. *)
Definition listOf {A : Type} (c : Cell A) : list A :=
  match c with
  | Holds (Some (Encoded v)) => v
  | _ => []
  end.

(** The stored data is missing (no item, or the empty text) or
    unreadable (the read fails, or the text does not parse). *)
Definition missingOrUnreadable {A : Type} (c : Cell A) : bool :=
  match c with
  | Holds (Some (Encoded _)) => false
  | _ => true
  end.

(** A text of white space only (the empty text included). *)
Fixpoint whitespaceOnly (s : string) : bool :=
  match s with
  | EmptyString => true
  | String c rest => isWhiteSpace c && whitespaceOnly rest
  end.

(** The log that [addRelapseLog] is to make in world [w], the clock and
    the random source being [clockAt] and [randomAt]: its id and its
    timestamp come from the next two readings of the clock. *)
Definition loggedIn (clockAt : nat -> Z) (randomAt : nat -> string)
  (w : World) (action : ActionType) (journal : option string) : RelapseLog :=
  mkRelapseLog
    (JsArray.toString (clockAt (ticks w)) ++ "-" ++ randomAt (draws w))
    (clockAt (S (ticks w))) action journal.

(** Whole seconds from [start] to [now]. *)
Definition elapsedSeconds (start now : Z) : Z := (now - start) / 1000.

(** The remaining time of a countdown of [total] seconds begun at
    [start], as the specification has it. *)
Definition remainingAt (total start now : Z) : Z :=
  Z.max 0 (total - elapsedSeconds start now).

(** The countdown has run out at [now]. *)
Definition due (total start now : Z) : bool :=
  total <=? elapsedSeconds start now.

End SpecTerms.

(** ** The countdown the two timer screens share *)

Module Countdown.

(** The part of the state of the replacement-action screen that its
    countdown reads and writes, as a state of the focus-session screen. *)
Definition core (s : ReplacementActionScreen.State) : FocusSessionScreen.State :=
  FocusSessionScreen.mkState
    (ReplacementActionScreen.remainingSeconds s)
    (ReplacementActionScreen.isComplete s)
    (ReplacementActionScreen.startTimeRef s)
    (ReplacementActionScreen.timerLive s)
    (ReplacementActionScreen.completions s).

End Countdown.

(** ** The specification's vocabulary for risk windows *)

Module RiskTerms.
Import JsDate JsArray Storage.

(** The count of hour [h] in an array of hourly counts. *)
Definition countAt (hourCounts : list Z) (h : Z) : Z :=
  nth (Z.to_nat h) hourCounts 0.

(** The hourly pattern of the counts [c] for the [n] hours from [from]. *)
Fixpoint patternOf (c : Z -> Z) (from : Z) (n : nat) : list HourCount :=
  match n with
  | O => []
  | S n' => mkHourCount from (c from) :: patternOf c (from + 1) n'
  end.

(** The sum of the counts of the [n] hours from [from]. *)
Fixpoint sumCounts (c : Z -> Z) (from : Z) (n : nat) : Z :=
  match n with
  | O => 0
  | S n' => c from + sumCounts c (from + 1) n'
  end.

(** The hours from [s] up to [e], [e] excluded, are a window of
    adjacent elevated hours that cannot be extended on either side,
    [hours] being the number of hours of the day. *)
Definition maximalRun (hot : Z -> bool) (hours s e : Z) : Prop :=
  0 <= s < e /\ e <= hours
  /\ (forall h, s <= h < e -> hot h = true)
  /\ (s = 0 \/ hot (s - 1) = false)
  /\ (e = hours \/ hot e = false).

(** Five logs in hour 2 and five in hour 3 (UTC): the hourly counts
    0, 0, 5, 5, 0, ..., 0. *)
Definition logsAtTwoAndThree : list RelapseLog :=
  map (fun k => Spec.logAt (2 * msPerHour + k * 60000)) [0; 1; 2; 3; 4]
  ++ map (fun k => Spec.logAt (3 * msPerHour + k * 60000)) [0; 1; 2; 3; 4].

(** Two logs in hour 23 (UTC). *)
Definition logsBeforeMidnight : list RelapseLog :=
  [Spec.logAt (23 * msPerHour); Spec.logAt (23 * msPerHour + 60000)].

End RiskTerms.

(** ** The invariant of the loop of [getRiskWindows] *)

Module ScanTerms.
Import Storage RiskTerms.

Section Invariant.
Variable hot : Z -> bool.
Variable c : Z -> Z.

(** [w] is a window of adjacent elevated hours that starts where a run
    starts and carries the sum of the counts of its hours. *)
Definition runOf (w : Window) : Prop :=
  0 <= start w < end_ w
  /\ (forall k, start w <= k < end_ w -> hot k = true)
  /\ (start w = 0 \/ hot (start w - 1) = false)
  /\ count_ w = sumCounts c (start w) (Z.to_nat (end_ w - start w)).

(** Windows in ascending order, apart from one another. *)
Definition ascending : list Window -> Prop :=
  StronglySorted (fun a b => end_ a < start b).

(** The state of the loop before hour [h] is looked at. *)
Definition scanInvariant (h : Z) (st : ScanState) : Prop :=
  0 <= h
  /\ (forall w, In w (fst st) ->
                runOf w /\ hot (end_ w) = false /\ end_ w < h)
  /\ match snd st with
     | Some w => runOf w /\ end_ w = h
                 /\ forall a, In a (fst st) -> end_ a < start w
     | None => h = 0 \/ hot (h - 1) = false
     end
  /\ (forall k, 0 <= k < h -> hot k = true ->
                (exists w, In w (fst st) /\ start w <= k < end_ w)
                \/ (exists w, snd st = Some w /\ start w <= k))
  /\ ascending (fst st).

End Invariant.

End ScanTerms.

(** ** More of [String.prototype] *)

Module JsText.
Import JsString.

(** [toLowerCase] on one code unit below 256: the capital letters A to
    Z and the capital letters of Latin-1 (U+00C0 to U+00DE, the
    multiplication sign apart) move 32 places up. *)
Definition lowerUnit (c : ascii) : ascii :=
  let n := nat_of_ascii c in
  if (Nat.leb 65 n && Nat.leb n 90)
     || (Nat.leb 192 n && Nat.leb n 214)
     || (Nat.leb 216 n && Nat.leb n 222)
  then ascii_of_nat (n + 32) else c.

(** [s.toLowerCase ()] on a text of code units below 256, where the
    mapping takes each unit on its own.  Above 255 it does not: a capital
    sigma becomes one letter at the end of a word and another elsewhere,
    so nothing below relies on [toLowerCase] going through a
    concatenation. *)
Fixpoint toLowerCase (s : string) : string :=
  match s with
  | EmptyString => EmptyString
  | String c rest => String (lowerUnit c) (toLowerCase rest)
  end.

(** [s.startsWith (q)]. *)
Fixpoint startsWith (s q : string) : bool :=
  match q, s with
  | EmptyString, _ => true
  | String _ _, EmptyString => false
  | String a q', String b s' => Ascii.eqb a b && startsWith s' q'
  end.

(** [s.includes (q)]. *)
Fixpoint includes (s q : string) : bool :=
  startsWith s q
  || match s with
     | EmptyString => false
     | String _ rest => includes rest q
     end.

(** [s.replace (/x/g, y)] for code units [x] and [y]. *)
Fixpoint replaceAll (x y : ascii) (s : string) : string :=
  match s with
  | EmptyString => EmptyString
  | String c rest =>
      String (if Ascii.eqb c x then y else c) (replaceAll x y rest)
  end.

Fixpoint repeatUnit (c : ascii) (n : nat) : string :=
  match n with
  | O => EmptyString
  | S n' => String c (repeatUnit c n')
  end.

(** [s.padStart (targetLength, c)] for a one-unit pad [c]. *)
Definition padStart (targetLength : nat) (c : ascii) (s : string) : string :=
  (repeatUnit c (targetLength - String.length s) ++ s)%string.

(** [Array (n).fill (c).join ("")]. *)
Definition fillJoin (n : Z) (c : ascii) : string := repeatUnit c (Z.to_nat n).

End JsText.

(** ** lib/storage.ts: settings, presets, search, export, daily pattern *)

Module StorageRest.
Import JsDate JsArray JsString JsText Storage.

Record FocusPreset : Type := mkFocusPreset {
  presetKey : string;
  presetName : string;
  presetDuration : Z;
  isDefault : bool
}.

Definition DEFAULT_PRESETS : list FocusPreset :=
  [ mkFocusPreset "pomodoro" "Pomodoro" 25 true;
    mkFocusPreset "deep-work" "Deep Work" 90 true;
    mkFocusPreset "short-break" "Short Break" 5 true;
    mkFocusPreset "long-break" "Long Break" 15 true ].

(** [Partial<Settings>]: [None] is a property that is absent. *)
Record PartialSettings : Type := mkPartial {
  pFocusDuration : option Z;
  pUnlockThreshold : option Z;
  pIsFirstSetup : option bool
}.

Definition pick {A : Type} (over : option A) (base : A) : A :=
  match over with
  | Some v => v
  | None => base
  end.

(** [{ ...base, ...over }]. *)
Definition spread (base : Settings) (over : PartialSettings) : Settings :=
  mkSettings (pick (pFocusDuration over) (focusDuration base))
             (pick (pUnlockThreshold over) (unlockThreshold base))
             (pick (pIsFirstSetup over) (isFirstSetup base)).

(** The object [JSON.parse (JSON.stringify (s))] for full settings [s]. *)
Definition asPartial (s : Settings) : PartialSettings :=
  mkPartial (Some (focusDuration s)) (Some (unlockThreshold s))
            (Some (isFirstSetup s)).

(** The text under the settings key: the empty string, a text
    [JSON.parse] rejects, or the text of a settings object. *)
Inductive Doc (V : Type) : Type :=
| NoText
| BadText
| Json (v : V).
Arguments NoText {V}.
Arguments BadText {V}.
Arguments Json {V} v.

(** What [AsyncStorage.getItem] does for the settings key. *)
Inductive Slot (V : Type) : Type :=
| Unreachable
| Kept (item : option (Doc V)).
Arguments Unreachable {V}.
Arguments Kept {V} item.

(** The whole store: the three collections, the settings and the
    presets, with the clock and the random source of [World]. *)
Record Device : Type := mkDevice {
  world : World;
  settings_item : Slot PartialSettings;
  focus_presets : Cell FocusPreset
}.

Definition D (A : Type) : Type := Device -> Outcome A * Device.

Definition retD {A : Type} (a : A) : D A := fun d => (Returned a, d).

Definition bindD {A B : Type} (m : D A) (k : A -> D B) : D B :=
  fun d => match m d with
           | (Returned a, d') => k a d'
           | (Thrown, d') => (Thrown, d')
           end.

Definition throwD {A : Type} : D A := fun d => (Thrown, d).

Definition tryD {A : Type} (body handler : D A) : D A :=
  fun d => match body d with
           | (Returned a, d') => (Returned a, d')
           | (Thrown, d') => handler d'
           end.

(** A function of lib/storage.ts that touches the collections only. *)
Definition onWorld {A : Type} (m : M A) : D A :=
  fun d => let '(r, w') := m (world d) in
           (r, mkDevice w' (settings_item d) (focus_presets d)).

Declare Scope device_scope.
Delimit Scope device_scope with device.
Notation "x <~ m ;; k" := (bindD m (fun x => k))
  (at level 61, m at next level, right associativity) : device_scope.
Notation "m ;;~ k" := (bindD m (fun _ => k))
  (at level 61, right associativity) : device_scope.

Section Host.
Variable clockAt : nat -> Z.
Variable randomAt : nat -> string.
Local Open Scope device_scope.

Definition getSettingsItem : D (option (Doc PartialSettings)) :=
  fun d => match settings_item d with
           | Unreachable => (Thrown, d)
           | Kept item => (Returned item, d)
           end.

Definition setSettingsItem (text : Doc PartialSettings) : D unit :=
  fun d => (Returned tt,
            mkDevice (world d) (Kept (Some text)) (focus_presets d)).

Definition getPresetsItem : D (option (Text FocusPreset)) :=
  fun d => match focus_presets d with
           | Faulty => (Thrown, d)
           | Holds item => (Returned item, d)
           end.

Definition setPresetsItem (text : Text FocusPreset) : D unit :=
  fun d => (Returned tt,
            mkDevice (world d) (settings_item d) (Holds (Some text))).

Definition getSettings : D Settings :=
  tryD
    (data <~ getSettingsItem ;;
     match data with
     | Some NoText | None => retD DEFAULT_SETTINGS
     | Some BadText => throwD
     | Some (Json stored) => retD (spread DEFAULT_SETTINGS stored)
     end)
    (retD DEFAULT_SETTINGS).

Definition saveSettings (settings : PartialSettings) : D Settings :=
  current <~ getSettings ;;
  let updated := spread current settings in
  setSettingsItem (Json (asPartial updated)) ;;~
  retD updated.

Definition getFocusPresets : D (list FocusPreset) :=
  tryD
    (data <~ getPresetsItem ;;
     match data with
     | Some Blank | None => retD DEFAULT_PRESETS
     | Some Garbled => throwD
     | Some (Encoded saved) =>
         retD (DEFAULT_PRESETS ++ filter (fun p => negb (isDefault p)) saved)
     end)
    (retD DEFAULT_PRESETS).

Definition addFocusPreset (name : string) (duration : Z) : D FocusPreset :=
  presets <~ getFocusPresets ;;
  let customPresets := filter (fun p => negb (isDefault p)) presets in
  t <~ onWorld (Date_now clockAt) ;;
  let newPreset := mkFocusPreset ("custom-" ++ toString t) name duration false in
  setPresetsItem (JSON_stringify (customPresets ++ [newPreset])) ;;~
  retD newPreset.

Definition deleteFocusPreset (key : string) : D unit :=
  presets <~ getFocusPresets ;;
  let customPresets :=
    filter (fun p => negb (isDefault p) && negb (String.eqb (presetKey p) key))
           presets in
  setPresetsItem (JSON_stringify customPresets).

(** [AsyncStorage.multiRemove] of the five keys; removals, like writes,
    are taken to succeed. *)
Definition resetAllData : D unit :=
  fun d => (Returned tt,
            mkDevice (mkWorld (mkStorage (Holds None) (Holds None) (Holds None))
                              (ticks (world d)) (draws (world d)))
                     (Kept None) (Holds None)).

End Host.

Local Open Scope js_scope.

Definition searchJournalEntries (query : string) : M (list JournalEntry) :=
  entries <- getJournalEntries ;;
  if negb (nonEmpty (trim query)) then ret entries
  else
    let lowerQuery := toLowerCase query in
    ret (filter (fun entry => includes (toLowerCase (content entry)) lowerQuery)
                entries).

(** *** The export *)

Definition actionName (a : ActionType) : string :=
  match a with
  | physical => "physical"
  | writing => "writing"
  | breathing => "breathing"
  end.

Definition comma : ascii := ascii_of_nat 44.
Definition semicolon : ascii := ascii_of_nat 59.
Definition lineFeed : ascii := ascii_of_nat 10.
Definition space : ascii := ascii_of_nat 32.
Definition newline : string := String lineFeed EmptyString.
Definition quote : string := String (ascii_of_nat 34) EmptyString.

Section CsvExport.
(** [date.toLocaleDateString ()] and [date.toLocaleTimeString ()] of
    [new Date (t)], which the host's locale decides. *)
Variable toLocaleDateString : Z -> string.
Variable toLocaleTimeString : Z -> string.

Definition relapseLine (log : RelapseLog) : string :=
  ("Relapse," ++ toLocaleDateString (timestamp log) ++ ","
   ++ toLocaleTimeString (timestamp log) ++ ","
   ++ actionName (replacementAction log) ++ newline)%string.

Definition sessionLine (session : FocusSession) : string :=
  let durationMins := duration session / 60 in
  ("Focus Session," ++ toLocaleDateString (startTime session) ++ ","
   ++ toLocaleTimeString (startTime session) ++ ","
   ++ toString durationMins ++ " min - "
   ++ (if completed session then "Completed" else "Incomplete")
   ++ newline)%string.

(** [journal.content.replace (/,/g, ";").replace (/\n/g, " ")] *)
Definition csvContent (text : string) : string :=
  replaceAll lineFeed space (replaceAll comma semicolon text).

Definition journalLine (journal : JournalEntry) : string :=
  ("Journal," ++ toLocaleDateString (entryTimestamp journal) ++ ","
   ++ toLocaleTimeString (entryTimestamp journal) ++ ","
   ++ quote ++ csvContent (content journal) ++ quote ++ newline)%string.

(** [list.forEach (x => { csv += line (x) })]. *)
Definition appendLines {A : Type} (line : A -> string) (l : list A)
  (csv : string) : string :=
  fold_left (fun csv x => (csv ++ line x)%string) l csv.

Definition exportDataToCSV : M string :=
  logs <- getRelapseLogs ;;
  sessions <- getFocusSessions ;;
  journals <- getJournalEntries ;;
  let csv := ("Type,Date,Time,Details" ++ newline)%string in
  let csv := appendLines relapseLine logs csv in
  let csv := appendLines sessionLine sessions csv in
  let csv := appendLines journalLine journals csv in
  ret csv.

End CsvExport.

(** *** The daily pattern *)

Section Daily.
Variable z : TimeZone.
Variable now : Z.

(** [new Date (t).getDay ()]: day 0 of the epoch was a Thursday. *)
Definition getDay (t : Z) : Z := (localDay z t + 4) mod 7.

Definition dayNames : list string :=
  ["Sun"; "Mon"; "Tue"; "Wed"; "Thu"; "Fri"; "Sat"]%string.

Record DayCount : Type := mkDayCount { date : string; dayCount : Z }.

(** The body of the loop of [getDailyPattern] for index [i]; [getDay]
    never yields an index outside [dayNames]. *)
Definition dayEntry (logs : list RelapseLog) (i : Z) : DayCount :=
  let day := dateOf z (localDay z now - i) in
  let dayStart := day in
  let dayEnd := dayStart + 24 * 60 * 60 * 1000 in
  let count := countIf (fun log => (dayStart <=? timestamp log)
                                   && (timestamp log <? dayEnd)) logs in
  mkDayCount (nth (Z.to_nat (getDay day)) dayNames EmptyString) count.

(** [for (let i = days - 1; i >= 0; i--)], with [n] iterations left. *)
Fixpoint dailyLoop (logs : list RelapseLog) (n : nat)
  (result : list DayCount) : list DayCount :=
  match n with
  | O => result
  | S i => dailyLoop logs i (result ++ [dayEntry logs (Z.of_nat i)])
  end.

Definition getDailyPattern (logs : list RelapseLog) (days : Z)
  : list DayCount :=
  dailyLoop logs (Z.to_nat days) [].

End Daily.

End StorageRest.

(** ** screens/HomeScreen.tsx: loading and navigation *)

Module HomeScreenRest.
Import JsDate JsArray Storage StorageRest.
Local Open Scope device_scope.

Record State : Type := mkState {
  logs : list RelapseLog;
  settings : option Settings;
  streak : Z;
  todayCount : Z;
  riskWarning : option string
}.

(** The state of the first render. *)
Definition initial : State := mkState [] None 0 0 None.

(** [riskWindows.find (w => currentHour >= w.start - 1
                            && currentHour < w.end)] *)
Definition upcomingRisk (riskWindows : list Window) (currentHour : Z)
  : option Window :=
  find (fun w => (start w - 1 <=? currentHour) && (currentHour <? end_ w))
       riskWindows.

Definition warningText (w : Window) : string :=
  ("High risk: " ++ formatHour (start w) ++ " - " ++ formatHour (end_ w))%string.

(** [loadData]; [nowStreak], [nowToday] and [nowHour] are the three
    readings of [new Date ()] it makes, in [getCurrentStreak], in
    [getTodayRelapseCount] and for [currentHour]. *)
Definition loadData (z : TimeZone) (nowStreak nowToday nowHour : Z)
  (s : State) : D State :=
  logsData <~ onWorld getRelapseLogs ;;
  settingsData <~ getSettings ;;
  let riskWindows := getRiskWindows z logsData in
  let warning :=
    if (0 <? Z.of_nat (List.length riskWindows))%Z
    then match upcomingRisk riskWindows (getHours z nowHour) with
         | Some w => Some (warningText w)
         | None => None
         end
    else riskWarning s in
  retD (mkState logsData (Some settingsData)
                (getCurrentStreak z nowStreak logsData)
                (getTodayRelapseCount z nowToday logsData)
                warning).

(** Where a handler navigates to. *)
Inductive Route : Type :=
| ToReplacementAction
| ToFocusSession (duration : Z)
| ToPatterns
| ToSettings.

Definition handleSlipped (s : State) : option Route :=
  Some ToReplacementAction.

(** [None]: the handler does nothing, [settings] not being loaded. *)
Definition handleStartFocus (s : State) : option Route :=
  match settings s with
  | Some loaded => Some (ToFocusSession (focusDuration loaded))
  | None => None
  end.

Definition handleViewPatterns (s : State) : option Route := Some ToPatterns.

(** [None]: the "Settings Locked" alert instead of a navigation. *)
Definition handleSettings (s : State) : option Route :=
  match settings s with
  | Some loaded =>
      if negb (isFirstSetup loaded) && (streak s <? unlockThreshold loaded)
      then None
      else Some ToSettings
  | None => Some ToSettings
  end.

End HomeScreenRest.

(** ** screens/FocusSessionScreen.tsx: display, back button, ending *)

Module FocusSessionRest.
Import JsArray JsText Storage.
Local Open Scope js_scope.

Definition zero : ascii := ascii_of_nat 48.

(** [formatTime]; [%] is the remainder that takes the sign of the
    dividend. *)
Definition formatTime (seconds : Z) : string :=
  let mins := seconds / 60 in
  let secs := Z.rem seconds 60 in
  (padStart 2 zero (toString mins) ++ ":" ++ padStart 2 zero (toString secs))%string.

(** [onBackPress]: [true] keeps the hardware back button from leaving. *)
Definition onBackPress (s : FocusSessionScreen.State) : bool :=
  if negb (FocusSessionScreen.isComplete s) then true else false.

Section Host.
Variable clockAt : nat -> Z.
Variable randomAt : nat -> string.

(** [handleEndSession], up to the navigation back. *)
Definition handleEndSession (s : FocusSessionScreen.State) (completed : bool)
  : M FocusSession :=
  endTime <- Date_now clockAt ;;
  addFocusSession clockAt randomAt
    (FocusSessionScreen.startTimeRef s) endTime
    ((endTime - FocusSessionScreen.startTimeRef s) / 1000) completed None.

End Host.

End FocusSessionRest.

(** ** screens/ReplacementActionScreen.tsx: breathing, display, back button *)

Module ReplacementActionRest.
Import JsArray JsText.

Inductive BreathPhase : Type := inhale | hold | exhale | rest.

(** The variables [phase] and [count] of [startBreathingExercise] and
    the two pieces of state it shows. *)
Record Breath : Type := mkBreath {
  phase : BreathPhase;
  count : Z;
  breathPhase : BreathPhase;
  breathCount : Z
}.

(** [startBreathingExercise], up to the interval it starts. *)
Definition startBreathingExercise : Breath := mkBreath inhale 4 inhale 4.

(** The callback of the breathing interval. *)
Definition breathCallback (b : Breath) : Breath :=
  let count' := count b - 1 in
  if count' <=? 0
  then
    match phase b with
    | inhale => mkBreath hold 4 hold 4
    | hold => mkBreath exhale 4 exhale 4
    | exhale => mkBreath rest 2 rest 2
    | rest => mkBreath inhale 4 inhale 4
    end
  else mkBreath (phase b) count' (breathPhase b) count'.

Fixpoint breathe (n : nat) (b : Breath) : Breath :=
  match n with
  | O => b
  | S n' => breathe n' (breathCallback b)
  end.

Definition getBreathInstruction (b : Breath) : string :=
  match breathPhase b with
  | inhale => "Breathe In"
  | hold => "Hold"
  | exhale => "Breathe Out"
  | rest => "Rest"
  end.

Definition formatTime (seconds : Z) : string :=
  let mins := seconds / 60 in
  let secs := Z.rem seconds 60 in
  (toString mins ++ ":" ++ padStart 2 FocusSessionRest.zero (toString secs))%string.

Definition onBackPress (s : ReplacementActionScreen.State) : bool :=
  if negb (ReplacementActionScreen.isComplete s) then true else false.

End ReplacementActionRest.

(** ** screens/PatternsScreen.tsx: the bars *)

Module PatternsScreen.
Import JsText.

(** [Math.max (...counts, 1)]. *)
Definition maxWithOne (counts : list Z) : Z := fold_right Z.max 1 counts.

(** [renderBar]: [Math.max (1, Math.floor ((count / max) * 20))] strokes.
    The quotient is an exact rational; for counts up to [max] the doubles
    give the same floor.  [max] is never 0: it comes from
    [maxWithOne]. *)
Definition barWidth (count max : Z) : Z :=
  Z.max 1 (Qfloor ((inject_Z count / inject_Z max) * inject_Z 20)).

Definition stroke : ascii := ascii_of_nat 124.

Definition renderBar (count max : Z) : string :=
  fillJoin (barWidth count max) stroke.

(** [riskWindows.slice (0, 3)], the windows the screen lists. *)
Definition shownWindows (riskWindows : list Storage.Window)
  : list Storage.Window :=
  firstn 3 riskWindows.

End PatternsScreen.

(** ** Vocabulary for the properties of the rest of the code *)

Module RestTerms.
Import JsDate JsArray JsString JsText Storage StorageRest.

(** The settings a read is to yield for a slot. *)
Definition settingsOf (s : Slot PartialSettings) : Settings :=
  match s with
  | Kept (Some (Json stored)) => spread DEFAULT_SETTINGS stored
  | _ => DEFAULT_SETTINGS
  end.

(** The custom presets a cell holds. *)
Definition customsOf (c : Cell FocusPreset) : list FocusPreset :=
  filter (fun p => negb (isDefault p)) (SpecTerms.listOf c).

(** [q] occurs in [s] as a run of adjacent code units. *)
Definition occursIn (q s : string) : Prop :=
  exists before after, s = (before ++ q ++ after)%string.

(** The number of code units of [s] equal to [c]. *)
Fixpoint countUnit (c : ascii) (s : string) : nat :=
  match s with
  | EmptyString => O
  | String a rest => ((if Ascii.eqb a c then 1 else 0) + countUnit c rest)%nat
  end.

(** The sum of a list of counts. *)
Definition sumZ (l : list Z) : Z := fold_right Z.add 0 l.

(** The decimal digit [d], for [0 <= d < 10]. *)
Definition digit (d : Z) : ascii := ascii_of_nat (48 + Z.to_nat d).

(** A time on the clock, minutes and seconds in two digits each. *)
Definition clockFace (seconds : Z) : string :=
  let m := seconds / 60 in
  let s := seconds mod 60 in
  String (digit (m / 10)) (String (digit (m mod 10))
    (String ":" (String (digit (s / 10)) (String (digit (s mod 10))
       EmptyString)))).

(** The breathing cycle in closed form: the phase and the count shown
    [n] seconds into a cycle of 14 seconds. *)
Definition breathAt (n : Z) : ReplacementActionRest.BreathPhase * Z :=
  let p := n mod 14 in
  if p <? 4 then (ReplacementActionRest.inhale, 4 - p)
  else if p <? 8 then (ReplacementActionRest.hold, 8 - p)
  else if p <? 12 then (ReplacementActionRest.exhale, 12 - p)
  else (ReplacementActionRest.rest, 14 - p).

(** A time on the clock, the minutes in one digit. *)
Definition shortFace (seconds : Z) : string :=
  let m := seconds / 60 in
  let s := seconds mod 60 in
  String (digit m)
    (String ":" (String (digit (s / 10)) (String (digit (s mod 10))
       EmptyString))).

(** The value of a decimal digit. *)
Definition digitValue (c : ascii) : Z := Z.of_nat (nat_of_ascii c) - 48.

(** The seconds a clock face of five or of four characters shows. *)
Definition readFace (face : string) : Z :=
  match face with
  | String a (String b (String _ (String c (String d EmptyString)))) =>
      (digitValue a * 10 + digitValue b) * 60
      + digitValue c * 10 + digitValue d
  | String b (String _ (String c (String d EmptyString))) =>
      digitValue b * 60 + digitValue c * 10 + digitValue d
  | _ => -1
  end.

(** The first and the last code unit of a string. *)
Definition firstUnit (s : string) : option ascii :=
  match s with
  | EmptyString => None
  | String c _ => Some c
  end.

Fixpoint lastUnit (s : string) : option ascii :=
  match s with
  | EmptyString => None
  | String c EmptyString => Some c
  | String _ rest => lastUnit rest
  end.

(** The name of the weekday numbered [k] modulo 7, Sunday being 0. *)
Definition weekdayName (k : Z) : string :=
  nth (Z.to_nat (k mod 7)) dayNames EmptyString.

(** The indices [n - 1], ..., [0] a counting-down loop runs over. *)
Definition countdown (n : nat) : list Z := map Z.of_nat (rev (seq 0 n)).

End RestTerms.

(* ================================================================== *)
(** * Part II: properties                                              *)
(* ================================================================== *)

Import JsDate JsArray JsString Storage.

(** ** Stable sorting *)

Section SortFacts.
Context {A : Type}.
Variable key : A -> Z.

(** The comparator [(a, b) => key (b) - key (a)]: larger keys first. *)
Let cmp (a b : A) : Z := key b - key a.

Lemma insert_perm (x : A) (l : list A) :
  Permutation (insert cmp x l) (x :: l).
Proof.
  induction l as [|y l IH]; simpl; [reflexivity|].
  destruct (0 <? cmp x y); [|reflexivity].
  rewrite IH. apply perm_swap.
Qed.

Lemma sort_perm (l : list A) : Permutation (sort cmp l) l.
Proof.
  induction l as [|x l IH]; simpl; [reflexivity|].
  rewrite insert_perm. now constructor.
Qed.

Lemma sort_In (l : list A) (x : A) : In x (sort cmp l) <-> In x l.
Proof.
  split; apply Permutation_in; [|symmetry]; apply sort_perm.
Qed.

Definition descending : list A -> Prop :=
  StronglySorted (fun a b => key b <= key a).

Lemma insert_descending (x : A) (l : list A) :
  descending l -> descending (insert cmp x l).
Proof.
  unfold descending.
  induction l as [|y l IH]; intros Hs; simpl.
  - constructor; constructor.
  - inversion Hs as [|? ? Hl Hy]; subst.
    destruct (0 <? cmp x y) eqn:E.
    + apply Z.ltb_lt in E. unfold cmp in E.
      constructor; [now apply IH|].
      rewrite Forall_forall in *. intros b Hb.
      apply (Permutation_in _ (insert_perm x l)) in Hb.
      destruct Hb as [<-|Hb]; [lia|now apply Hy].
    + apply Z.ltb_ge in E. unfold cmp in E.
      constructor; [assumption|].
      constructor; [lia|].
      rewrite Forall_forall in *. intros b Hb.
      specialize (Hy b Hb). lia.
Qed.

Lemma sort_descending (l : list A) : descending (sort cmp l).
Proof.
  induction l as [|x l IH]; simpl.
  - constructor.
  - now apply insert_descending.
Qed.

(** Elements with one key keep their order. *)
Lemma insert_stable (k : Z) (x : A) (l : list A) :
  descending l ->
  filter (fun a => key a =? k) (insert cmp x l)
  = filter (fun a => key a =? k) (x :: l).
Proof.
  unfold descending.
  induction l as [|y l IH]; intros Hs; [reflexivity|].
  inversion Hs as [|? ? Hl Hy]; subst.
  cbn [insert].
  destruct (0 <? cmp x y) eqn:E; [|reflexivity].
  apply Z.ltb_lt in E. unfold cmp in E.
  cbn [filter]. rewrite (IH Hl). cbn [filter].
  destruct (key x =? k) eqn:Ex; [|reflexivity].
  destruct (key y =? k) eqn:Ey; [|reflexivity].
  apply Z.eqb_eq in Ex, Ey. lia.
Qed.

Lemma sort_stable (k : Z) (l : list A) :
  filter (fun a => key a =? k) (sort cmp l) = filter (fun a => key a =? k) l.
Proof.
  induction l as [|x l IH]; [reflexivity|].
  cbn [sort fold_right].
  change (fold_right (insert cmp) [] l) with (sort cmp l).
  rewrite insert_stable by apply sort_descending.
  cbn [filter]. now rewrite IH.
Qed.

(** The first element of the sorted array has the largest key. *)
Lemma sort_head_max (l : list A) (x : A) (rest : list A) :
  sort cmp l = x :: rest ->
  In x l /\ forall y, In y l -> key y <= key x.
Proof.
  intros E. split.
  - apply sort_In. rewrite E. now left.
  - intros y Hy. apply sort_In in Hy. rewrite E in Hy.
    pose proof (sort_descending l) as Hs. rewrite E in Hs.
    inversion Hs as [|? ? _ Hx]; subst.
    destruct Hy as [<-|Hy]; [lia|].
    rewrite Forall_forall in Hx. now apply Hx.
Qed.

Lemma sort_nonempty (l : list A) : l <> [] -> sort cmp l <> [].
Proof.
  intros Hl E. apply Hl.
  apply Permutation_nil. rewrite <- E. apply sort_perm.
Qed.

End SortFacts.

(** ** Time zones *)

Import Spec.

Lemma msPerDay_pos : 0 < msPerDay.
Proof. reflexivity. Qed.

Lemma fixed_dateOf (offset d : Z) :
  dateOf (fixedZone offset) d = d * msPerDay - offset.
Proof. reflexivity. Qed.

Lemma fixed_localDay (offset t : Z) :
  localDay (fixedZone offset) t = (t + offset) / msPerDay.
Proof. reflexivity. Qed.

Lemma fixed_midnights_increase (offset : Z) :
  midnights_increase (fixedZone offset).
Proof.
  intros d1 d2 H. rewrite !fixed_dateOf.
  pose proof msPerDay_pos. nia.
Qed.

(** In a zone of constant offset a day is the 24 hours from its midnight. *)
Lemma fixed_day_span (offset t : Z) :
  let midnight := dateOf (fixedZone offset) (localDay (fixedZone offset) t) in
  midnight <= t < midnight + msPerDay.
Proof.
  cbv zeta. rewrite fixed_dateOf, fixed_localDay.
  pose proof (Z.mul_div_le (t + offset) msPerDay msPerDay_pos).
  pose proof (Z.mul_succ_div_gt (t + offset) msPerDay msPerDay_pos).
  lia.
Qed.

Lemma fixed_midnight_before (offset : Z) : midnight_before (fixedZone offset).
Proof. intros t. apply fixed_day_span. Qed.

Lemma fixed_days_monotone (offset : Z) : days_monotone (fixedZone offset).
Proof.
  intros t1 t2 H. rewrite !fixed_localDay.
  apply Z.div_le_mono; [apply msPerDay_pos | lia].
Qed.

(** The midnight of a day lies on that day. *)
Lemma fixed_localDay_dateOf (offset d : Z) :
  localDay (fixedZone offset) (dateOf (fixedZone offset) d) = d.
Proof.
  rewrite fixed_localDay, fixed_dateOf.
  replace (d * msPerDay - offset + offset) with (d * msPerDay) by lia.
  apply Z.div_mul. discriminate.
Qed.

(** ** The streak *)

Section Streak.
Variable z : TimeZone.
Variable now : Z.

Lemma getCurrentStreak_empty : getCurrentStreak z now [] = 0.
Proof. reflexivity. Qed.

(** The streak is computed from a log of the latest timestamp: the
    whole-day difference between the midnight of today and the midnight
    of that log's day. *)
Lemma getCurrentStreak_latest (logs : list RelapseLog) (last : RelapseLog) :
  mostRecent last logs ->
  getCurrentStreak z now logs
  = (dateOf z (localDay z now) - dateOf z (localDay z (timestamp last)))
    / msPerDay.
Proof.
  intros [Hin Hmax]. unfold getCurrentStreak.
  destruct logs as [|l0 logs']; [contradiction|].
  cbn [List.length Nat.eqb].
  destruct (sort (fun a b => timestamp b - timestamp a) (l0 :: logs'))
    as [|x rest] eqn:E.
  - exfalso. revert E. apply sort_nonempty with (key := timestamp).
    discriminate.
  - apply sort_head_max with (key := timestamp) in E.
    destruct E as [Hx Hle].
    assert (timestamp x = timestamp last) as ->.
    { specialize (Hle _ Hin). specialize (Hmax _ Hx). lia. }
    reflexivity.
Qed.

(** Every non-empty list has a most recent log. *)
Lemma mostRecent_exists (logs : list RelapseLog) :
  logs <> [] -> exists last, mostRecent last logs.
Proof.
  intros Hne.
  destruct (sort (fun a b => timestamp b - timestamp a) logs)
    as [|x rest] eqn:E.
  - exfalso. revert E. now apply sort_nonempty with (key := timestamp).
  - exists x. now apply sort_head_max with (key := timestamp) in E.
Qed.

End Streak.

(** Where the offset from UTC never changes, the streak is the number of
    calendar days between the most recent log and today. *)
Lemma getCurrentStreak_fixed_zone
  (offset now : Z) (logs : list RelapseLog) (last : RelapseLog) :
  mostRecent last logs ->
  getCurrentStreak (fixedZone offset) now logs
  = localDay (fixedZone offset) now
    - localDay (fixedZone offset) (timestamp last).
Proof.
  intros H. rewrite (getCurrentStreak_latest _ _ _ _ H).
  rewrite !fixed_dateOf.
  match goal with
  | |- (?a * _ - _ - (?b * _ - _)) / _ = _ =>
      replace (a * msPerDay - offset - (b * msPerDay - offset))
        with ((a - b) * msPerDay) by lia
  end.
  apply Z.div_mul. discriminate.
Qed.

(** C1.  The streak is meant to be the number of calendar days between
    the most recent log and today.  Across the night in which US Eastern
    clocks go forward the code misses a day: for a single log at noon of
    9 March 2025 and [now] at noon of 10 March 2025, the log's date is one
    calendar day before today, the two midnights are only 23 hours apart,
    and [getCurrentStreak] returns 0 instead of 1. *)
Theorem getCurrentStreak_spring_forward :
  localDay usEastern2025 noon_10_march
  - localDay usEastern2025 (timestamp (logAt noon_9_march)) = 1
  /\ dateOf usEastern2025 (localDay usEastern2025 noon_10_march)
     - dateOf usEastern2025 (localDay usEastern2025 noon_9_march)
     = 23 * msPerHour
  /\ getCurrentStreak usEastern2025 noon_10_march [logAt noon_9_march] = 0.
Proof. repeat split. Qed.

(** C10.  With [last] a most recent log, the streak is negative exactly
    when [last] falls on a calendar day after today's: it is at least 0
    when the day of [last] is today or earlier, and below 0 when it is a
    later day. *)
Theorem getCurrentStreak_sign
  (z : TimeZone) (now : Z) (logs : list RelapseLog) (last : RelapseLog) :
  midnights_increase z ->
  mostRecent last logs ->
  (localDay z (timestamp last) <= localDay z now ->
   0 <= getCurrentStreak z now logs)
  /\ (localDay z now < localDay z (timestamp last) ->
      getCurrentStreak z now logs < 0).
Proof.
  intros Hz Hlast. rewrite (getCurrentStreak_latest _ _ _ _ Hlast).
  split; intros Hd.
  - apply Z.div_pos; [|apply msPerDay_pos].
    destruct (Z.eq_dec (localDay z (timestamp last)) (localDay z now))
      as [->|Hne]; [lia|].
    assert (localDay z (timestamp last) < localDay z now) as Hlt by lia.
    specialize (Hz _ _ Hlt). lia.
  - specialize (Hz _ _ Hd).
    apply Z.div_lt_upper_bound; [apply msPerDay_pos|lia].
Qed.

(** A log dated tomorrow gives the streak -1. *)
Lemma getCurrentStreak_sign_witness :
  mostRecent (logAt msPerDay) [logAt msPerDay]
  /\ localDay utc 0 < localDay utc (timestamp (logAt msPerDay))
  /\ getCurrentStreak utc 0 [logAt msPerDay] = -1
  /\ getCurrentStreak utc 0 [logAt msPerDay] < 0.
Proof.
  assert (mostRecent (logAt msPerDay) [logAt msPerDay]) as Hm.
  { split; [now left|]. intros l [<-|[]]. apply Z.le_refl. }
  split; [exact Hm|].
  split; [reflexivity|].
  split; [reflexivity|].
  apply (getCurrentStreak_sign utc 0 [logAt msPerDay] (logAt msPerDay)
           (fixed_midnights_increase 0) Hm).
  reflexivity.
Defined.

(** ** Counting within intervals *)

Lemma inHalfOpen_spec (lo hi t : Z) :
  inHalfOpen lo hi t = true <-> lo <= t < hi.
Proof.
  unfold inHalfOpen. rewrite andb_true_iff, Z.leb_le, Z.ltb_lt. tauto.
Qed.

Lemma logsWithin_nil (lo hi : Z) : logsWithin lo hi [] = 0.
Proof. reflexivity. Qed.

Lemma logsWithin_cons (lo hi : Z) (l : RelapseLog) (logs : list RelapseLog) :
  logsWithin lo hi (l :: logs)
  = (if inHalfOpen lo hi (timestamp l) then 1 else 0) + logsWithin lo hi logs.
Proof.
  unfold logsWithin, countIf. cbn [filter].
  destruct (inHalfOpen lo hi (timestamp l)); cbn [List.length]; lia.
Qed.

Lemma logsWithin_bounds (lo hi : Z) (logs : list RelapseLog) :
  0 <= logsWithin lo hi logs <= Z.of_nat (List.length logs).
Proof.
  unfold logsWithin, countIf.
  pose proof (filter_length_le
                (fun log => inHalfOpen lo hi (timestamp log)) logs).
  lia.
Qed.

(** The interval of [getTodayRelapseCount]: in every zone it is the
    number of logs in the half-open interval from the local midnight of
    [now]'s day to 24 hours later, so a log 23:59:59 after that midnight
    is counted and one 24:00:00 after it is not.  Where the zone's offset
    is constant those two instants are 23:59:59 of the day and 00:00:00
    of the next: [now] lies in the interval, which starts on [now]'s day
    and ends at the midnight of the next day. *)
Lemma getTodayRelapseCount_interval
  (z : TimeZone) (now : Z) (logs : list RelapseLog) :
  let midnight := dateOf z (localDay z now) in
  getTodayRelapseCount z now logs
  = logsWithin midnight (midnight + 24 * msPerHour) logs
  /\ getTodayRelapseCount z now [] = 0
  /\ (forall l,
        getTodayRelapseCount z now (l :: logs)
        = (if inHalfOpen midnight (midnight + 24 * msPerHour) (timestamp l)
           then 1 else 0) + getTodayRelapseCount z now logs)
  /\ (forall t, inHalfOpen midnight (midnight + 24 * msPerHour) t = true
                <-> midnight <= t < midnight + 24 * msPerHour)
  /\ getTodayRelapseCount z now
       (logAt (midnight + 23 * msPerHour + 59 * 60000 + 59 * 1000) :: logs)
     = 1 + getTodayRelapseCount z now logs
  /\ getTodayRelapseCount z now (logAt (midnight + 24 * msPerHour) :: logs)
     = getTodayRelapseCount z now logs
  /\ (forall offset,
        let fz := fixedZone offset in
        let start := dateOf fz (localDay fz now) in
        start <= now < start + 24 * msPerHour
        /\ localDay fz start = localDay fz now
        /\ start + 24 * msPerHour = dateOf fz (localDay fz now + 1)).
Proof.
  cbv zeta.
  set (midnight := dateOf z (localDay z now)).
  assert (forall ls, getTodayRelapseCount z now ls
                     = logsWithin midnight (midnight + 24 * msPerHour) ls)
    as Hdef by reflexivity.
  split; [apply Hdef|].
  split; [reflexivity|].
  split; [intros l; rewrite !Hdef; apply logsWithin_cons|].
  split; [intros t; apply inHalfOpen_spec|].
  split.
  - rewrite !Hdef, logsWithin_cons.
    replace (inHalfOpen _ _ _) with true; [reflexivity|].
    symmetry. apply inHalfOpen_spec. cbn [timestamp logAt].
    unfold msPerHour. lia.
  - split.
    + rewrite !Hdef, logsWithin_cons.
      replace (inHalfOpen _ _ _) with false; [reflexivity|].
      symmetry. apply not_true_iff_false. rewrite inHalfOpen_spec.
      cbn [timestamp logAt]. lia.
    + intros offset. cbv zeta.
      pose proof (fixed_day_span offset now) as Hspan. cbv zeta in Hspan.
      change (24 * msPerHour) with msPerDay.
      split; [exact Hspan|].
      split; [apply fixed_localDay_dateOf|].
      rewrite !fixed_dateOf. lia.
Qed.

(** C7.  The count of today is meant to take a log at 23:59:59 of the
    current day and to leave out one at 00:00:00 of the next day.  The
    code ends today 24 hours after its midnight, and misses both on the
    days US Eastern clocks change.  On 9 March 2025, which has 23 hours,
    with [now] at noon, a log at 00:00:00 of 10 March falls on the next
    calendar day, at its very midnight, and is counted as today's.  On
    2 November 2025, which has 25 hours, with [now] at noon, a log at
    23:59:59 of that same day is not counted. *)
Theorem getTodayRelapseCount_clock_change :
  (localDay usEastern2025 midnight_10_march
   = localDay usEastern2025 noon_9_march + 1
   /\ midnight_10_march
      = dateOf usEastern2025 (localDay usEastern2025 noon_9_march + 1)
   /\ timeOfDay usEastern2025 midnight_10_march = 0
   /\ dateOf usEastern2025 (localDay usEastern2025 noon_9_march + 1)
      - dateOf usEastern2025 (localDay usEastern2025 noon_9_march)
      = 23 * msPerHour
   /\ getTodayRelapseCount usEastern2025 noon_9_march
        [logAt midnight_10_march] = 1)
  /\ (localDay usEasternAutumn2025 last_second_2_november
      = localDay usEasternAutumn2025 noon_2_november
      /\ timeOfDay usEasternAutumn2025 last_second_2_november
         = 23 * msPerHour + 59 * 60000 + 59 * 1000
      /\ dateOf usEasternAutumn2025
           (localDay usEasternAutumn2025 noon_2_november + 1)
         - dateOf usEasternAutumn2025
             (localDay usEasternAutumn2025 noon_2_november)
         = 25 * msPerHour
      /\ getTodayRelapseCount usEasternAutumn2025 noon_2_november
           [logAt last_second_2_november] = 0).
Proof.
  split.
  - split; [reflexivity|]. split; [reflexivity|]. split; [reflexivity|].
    split; reflexivity.
  - split; [reflexivity|]. split; [reflexivity|]. split; reflexivity.
Qed.

(** ** The weekly pattern *)

(** C3, as stated, fails: the windows do not end at [now - i * 7 days].
    In UTC, with [now] at noon of day 0 and one log an hour after that
    day's midnight, the log lies in the 7 days that end at [now], yet the
    code counts it in none of the four weeks. *)
Lemma getWeeklyPattern_not_rolling :
  getWeeklyPattern utc (12 * msPerHour) [logAt msPerHour] 4
  <> weeklyPattern_spec (12 * msPerHour) [logAt msPerHour] 4
  /\ map weekCount (getWeeklyPattern utc (12 * msPerHour) [logAt msPerHour] 4)
     = [0; 0; 0; 0]
  /\ map weekCount (weeklyPattern_spec (12 * msPerHour) [logAt msPerHour] 4)
     = [0; 0; 0; 1].
Proof.
  split; [|split; reflexivity].
  intros E. apply (f_equal (map weekCount)) in E. discriminate E.
Qed.

(** C3, amended.  [getWeeklyPattern logs 4] has exactly the four entries
    W1, W2, W3, W4, oldest first; the entry for [i] = 3, 2, 1, 0 counts
    the logs in the window of exactly 7 * 24 hours that ends at the local
    midnight starting the calendar day [7 * i] days before [now]'s day.
    The last window thus ends at today's midnight and leaves today out. *)
Theorem getWeeklyPattern_four_weeks
  (z : TimeZone) (now : Z) (logs : list RelapseLog) :
  let windowEnd i := dateOf z (localDay z now - i * 7) in
  let countOf i :=
    logsWithin (windowEnd i - 7 * 24 * msPerHour) (windowEnd i) logs in
  getWeeklyPattern z now logs 4
  = [ mkWeekCount "W1" (countOf 3); mkWeekCount "W2" (countOf 2);
      mkWeekCount "W3" (countOf 1); mkWeekCount "W4" (countOf 0) ]
  /\ (forall i, windowEnd i - (windowEnd i - 7 * 24 * msPerHour)
                = 7 * 24 * msPerHour)
  /\ windowEnd 0 = dateOf z (localDay z now).
Proof.
  cbv zeta. split; [reflexivity|]. split.
  - intros i. lia.
  - now rewrite Z.sub_0_r.
Qed.

(** ** The lock policy *)

Import HomeScreen.

(** C4.  With settings loaded, the lock is off whenever [isFirstSetup] is
    set, whatever the streak; otherwise it is on exactly when the streak
    is below [unlockThreshold].  With threshold 7 a streak of 6 is locked
    and a streak of 7 is not. *)
Theorem isSettingsLocked_policy (settings : Settings) (streak : Z) :
  (isFirstSetup settings = true ->
   isSettingsLocked (Some settings) streak = Some false)
  /\ (isFirstSetup settings = false ->
      (isSettingsLocked (Some settings) streak = Some true
       <-> streak < unlockThreshold settings)
      /\ (isSettingsLocked (Some settings) streak = Some false
          <-> unlockThreshold settings <= streak))
  /\ (forall focus, isSettingsLocked (Some (mkSettings focus 7 false)) 6
                    = Some true)
  /\ (forall focus, isSettingsLocked (Some (mkSettings focus 7 false)) 7
                    = Some false).
Proof.
  unfold isSettingsLocked.
  split; [intros ->; reflexivity|].
  split; [|split; reflexivity].
  intros ->. cbn [negb andb].
  destruct (Z.ltb_spec streak (unlockThreshold settings)); split; split;
    intros H'; try reflexivity; try lia; try discriminate H'.
Qed.

Lemma isSettingsLocked_policy_witness :
  isSettingsLocked (Some DEFAULT_SETTINGS) 0 = Some false
  /\ (isSettingsLocked (Some (mkSettings 30 7 false)) 6 = Some true
      <-> 6 < 7).
Proof.
  split.
  - exact (proj1 (isSettingsLocked_policy DEFAULT_SETTINGS 0) eq_refl).
  - exact (proj1 (proj1 (proj2 (isSettingsLocked_policy
                                  (mkSettings 30 7 false) 6)) eq_refl)).
Defined.

(** ** Reading the store *)

Import SpecTerms.

(** A list operation returns, leaves the world as it was, and yields the
    stored array or nothing. *)
Lemma getList_returns {A : Type} (key : Key A) (w : World) :
  getList key w = (Returned (listOf (cellOf key (storage w))), w).
Proof.
  unfold getList, try_catch, bind, getItem.
  destruct (cellOf key (storage w)) as [|[[| |v]|]]; reflexivity.
Qed.

Lemma listOf_unreadable {A : Type} (c : Cell A) :
  missingOrUnreadable c = true -> listOf c = [].
Proof.
  destruct c as [|[[| |v]|]]; intros H; try reflexivity; discriminate H.
Qed.

Lemma missingOrUnreadable_cases {A : Type} (c : Cell A) :
  missingOrUnreadable c = true
  <-> c = Faulty \/ c = Holds None \/ c = Holds (Some Blank)
      \/ c = Holds (Some Garbled).
Proof.
  destruct c as [|[[| |v]|]]; cbn; split; intros H; auto 6;
    try discriminate H.
  destruct H as [H|[H|[H|H]]]; discriminate H.
Qed.

(** C8.  Each of the three list operations returns a list and never
    throws, whatever the store holds; where the stored data is missing
    or unreadable (the read fails, there is no item, the text is empty
    or does not parse) the list is empty, and where an array was stored
    the list is that array. *)
Theorem list_operations_never_fail (w : World) :
  (getRelapseLogs w = (Returned (listOf (relapse_logs (storage w))), w)
   /\ getFocusSessions w
      = (Returned (listOf (focus_sessions (storage w))), w)
   /\ getJournalEntries w
      = (Returned (listOf (journal_entries (storage w))), w))
  /\ (missingOrUnreadable (relapse_logs (storage w)) = true ->
      getRelapseLogs w = (Returned [], w))
  /\ (missingOrUnreadable (focus_sessions (storage w)) = true ->
      getFocusSessions w = (Returned [], w))
  /\ (missingOrUnreadable (journal_entries (storage w)) = true ->
      getJournalEntries w = (Returned [], w))
  /\ (forall v, relapse_logs (storage w) = Holds (Some (Encoded v)) ->
                getRelapseLogs w = (Returned v, w)).
Proof.
  unfold getRelapseLogs, getFocusSessions, getJournalEntries.
  rewrite !getList_returns. cbn [cellOf RELAPSE_LOGS FOCUS_SESSIONS
                                 JOURNAL_ENTRIES].
  split; [repeat split|].
  split; [intros H; now rewrite listOf_unreadable|].
  split; [intros H; now rewrite listOf_unreadable|].
  split; [intros H; now rewrite listOf_unreadable|].
  intros v ->. reflexivity.
Qed.

(** A store whose reads fail, one with nothing in it, and one with
    unparseable texts. *)
Lemma list_operations_never_fail_witness :
  getRelapseLogs (mkWorld (mkStorage Faulty Faulty Faulty) 0 0)
  = (Returned [], mkWorld (mkStorage Faulty Faulty Faulty) 0 0)
  /\ getFocusSessions
       (mkWorld (mkStorage (Holds None) (Holds None) (Holds None)) 0 0)
     = (Returned [],
        mkWorld (mkStorage (Holds None) (Holds None) (Holds None)) 0 0)
  /\ getJournalEntries
       (mkWorld (mkStorage (Holds None) (Holds None)
                           (Holds (Some Garbled))) 0 0)
     = (Returned [],
        mkWorld (mkStorage (Holds None) (Holds None)
                           (Holds (Some Garbled))) 0 0)
  /\ getRelapseLogs
       (mkWorld (mkStorage (Holds (Some (Encoded [logAt 5])))
                           Faulty Faulty) 0 0)
     = (Returned [logAt 5],
        mkWorld (mkStorage (Holds (Some (Encoded [logAt 5])))
                           Faulty Faulty) 0 0).
Proof.
  split.
  { destruct (list_operations_never_fail
                (mkWorld (mkStorage Faulty Faulty Faulty) 0 0))
      as (_ & H & _).
    apply H. reflexivity. }
  split.
  { destruct (list_operations_never_fail
                (mkWorld (mkStorage (Holds None) (Holds None) (Holds None))
                         0 0))
      as (_ & _ & H & _).
    apply H. reflexivity. }
  split.
  { destruct (list_operations_never_fail
                (mkWorld (mkStorage (Holds None) (Holds None)
                                    (Holds (Some Garbled))) 0 0))
      as (_ & _ & _ & H & _).
    apply H. reflexivity. }
  destruct (list_operations_never_fail
              (mkWorld (mkStorage (Holds (Some (Encoded [logAt 5])))
                                  Faulty Faulty) 0 0))
    as (_ & _ & _ & _ & H).
  apply H. reflexivity.
Defined.

(** ** Trimming *)

Lemma trimStart_empty_iff (s : string) :
  trimStart s = EmptyString <-> whitespaceOnly s = true.
Proof.
  induction s as [|c s IH]; cbn; [tauto|].
  destruct (isWhiteSpace c); cbn; [exact IH|].
  split; discriminate.
Qed.

Lemma trimEnd_empty_iff (s : string) :
  trimEnd s = EmptyString <-> whitespaceOnly s = true.
Proof.
  induction s as [|c s IH]; cbn; [tauto|].
  destruct (trimEnd s) eqn:E.
  - destruct (isWhiteSpace c); cbn.
    + rewrite <- IH. tauto.
    + split; discriminate.
  - split; [discriminate|].
    rewrite andb_true_iff. intros [_ H]. apply IH in H. discriminate H.
Qed.

(** What [trimStart] leaves does not begin with white space. *)
Lemma trimStart_head (s : string) :
  whitespaceOnly (trimStart s) = true -> trimStart s = EmptyString.
Proof.
  induction s as [|c s IH]; cbn; [reflexivity|].
  destruct (isWhiteSpace c) eqn:E; [exact IH|].
  cbn. rewrite E. discriminate.
Qed.

Lemma trim_empty_iff (s : string) :
  trim s = EmptyString <-> whitespaceOnly s = true.
Proof.
  unfold trim. rewrite trimEnd_empty_iff. split.
  - intros H. now apply trimStart_empty_iff, trimStart_head.
  - intros H. apply trimStart_empty_iff in H. now rewrite H.
Qed.

Lemma nonEmpty_trim (s : string) :
  nonEmpty (trim s) = negb (whitespaceOnly s).
Proof.
  destruct (whitespaceOnly s) eqn:E.
  - apply trim_empty_iff in E. now rewrite E.
  - destruct (trim s) eqn:T; [|reflexivity].
    apply trim_empty_iff in T. congruence.
Qed.

(** ** Completing a replacement action *)

Import ReplacementActionScreen.

Section Completion.
Variable clockAt : nat -> Z.
Variable randomAt : nat -> string.

Lemma journalOf_writing (text : string) :
  journalOf writing text
  = if whitespaceOnly text then None else Some (trim text).
Proof.
  unfold journalOf. cbn [isWriting andb]. rewrite nonEmpty_trim.
  now destruct (whitespaceOnly text).
Qed.

Lemma truthy_trim (text : string) :
  whitespaceOnly text = false -> truthy (Some (trim text)) = true.
Proof.
  intros H. pose proof (nonEmpty_trim text) as N. rewrite H in N.
  destruct (trim text); [discriminate N|reflexivity].
Qed.

(** C6.  Confirming the "writing" action returns normally and appends
    exactly one RelapseLog, with [replacementAction] "writing", to the
    stored logs; it leaves the focus sessions untouched.  When the text
    is not empty after trimming it also appends exactly one JournalEntry,
    whose [relapseLogId] is the id of the new log and whose content is
    the trimmed text; when the text is empty or white space only, the
    journal entries are left as they were and the log carries no journal
    text. *)
Theorem handleComplete_writing (s : State) (w : World) :
  selectedAction s = Some writing ->
  let text := journalText s in
  let newLog :=
    loggedIn clockAt randomAt w writing
             (if whitespaceOnly text then None else Some (trim text)) in
  let w' := snd (handleComplete clockAt randomAt s w) in
  fst (handleComplete clockAt randomAt s w) = Returned tt
  /\ listOf (relapse_logs (storage w'))
     = listOf (relapse_logs (storage w)) ++ [newLog]
  /\ replacementAction newLog = writing
  /\ focus_sessions (storage w') = focus_sessions (storage w)
  /\ (whitespaceOnly text = false ->
      exists entry,
        listOf (journal_entries (storage w'))
        = listOf (journal_entries (storage w)) ++ [entry]
        /\ relapseLogId entry = id newLog
        /\ content entry = trim text)
  /\ (whitespaceOnly text = true ->
      journal_entries (storage w') = journal_entries (storage w)
      /\ journalEntry newLog = None).
Proof.
  intros Hsel. cbv zeta.
  unfold handleComplete. rewrite Hsel, journalOf_writing.
  unfold loggedIn.
  destruct (whitespaceOnly (journalText s)) eqn:Hws.
  - cbv [bind ret setItem freshId Date_now Math_random_suffix addRelapseLog
         getRelapseLogs truthy].
    rewrite getList_returns. cbn.
    split; [reflexivity|]. split; [reflexivity|]. split; [reflexivity|].
    split; [reflexivity|]. split; [intros H; discriminate H|].
    intros _. split; reflexivity.
  - pose proof (truthy_trim _ Hws) as Ht.
    cbv [bind ret setItem freshId Date_now Math_random_suffix addRelapseLog
         getRelapseLogs addJournalEntry getJournalEntries].
    rewrite getList_returns. cbn -[truthy trim]. rewrite Ht.
    rewrite getList_returns. cbn -[trim].
    split; [reflexivity|]. split; [reflexivity|]. split; [reflexivity|].
    split; [reflexivity|]. split; [|intros H; discriminate H].
    intros _. eexists. split; [reflexivity|]. split; reflexivity.
Qed.

End Completion.

(** The end-to-end example: on an empty store, "writing" confirmed with
    the text "trigger noted". *)
Lemma handleComplete_writing_witness :
  let clockAt := fun n => 1000 + Z.of_nat n in
  let randomAt := fun _ : nat => "k3x9q0z1a"%string in
  let w := mkWorld (mkStorage (Holds None) (Holds None) (Holds None)) 0 0 in
  let s := setJournalText "trigger noted"
             (handleSelectAction (mkAction writing "Write Thoughts" 90 "edit-3")
                                 0 initial) in
  let w' := snd (handleComplete clockAt randomAt s w) in
  selectedAction s = Some writing
  /\ listOf (relapse_logs (storage w'))
     = [mkRelapseLog "1000-k3x9q0z1a" 1001 writing (Some "trigger noted"%string)]
  /\ listOf (journal_entries (storage w'))
     = [mkJournalEntry "1002-k3x9q0z1a" 1003 "trigger noted" "1000-k3x9q0z1a"]
  /\ listOf (focus_sessions (storage w')) = []
  /\ focus_sessions (storage w') = focus_sessions (storage w).
Proof.
  cbv zeta.
  split; [reflexivity|].
  split; [reflexivity|].
  split; [reflexivity|].
  split; [reflexivity|].
  apply (handleComplete_writing
           (fun n => 1000 + Z.of_nat n) (fun _ => "k3x9q0z1a"%string)
           (setJournalText "trigger noted"
              (handleSelectAction
                 (mkAction writing "Write Thoughts" 90 "edit-3") 0 initial))
           (mkWorld (mkStorage (Holds None) (Holds None) (Holds None)) 0 0)).
  reflexivity.
Defined.

(** ** The countdown timers *)

Module F := FocusSessionScreen.
Module R := ReplacementActionScreen.
Import Countdown.

Lemma remainingAt_nonneg (total start now : Z) :
  0 <= remainingAt total start now.
Proof. unfold remainingAt. lia. Qed.

Lemma elapsedSeconds_mono (start now1 now2 : Z) :
  now1 <= now2 -> elapsedSeconds start now1 <= elapsedSeconds start now2.
Proof.
  intros H. unfold elapsedSeconds. apply Z.div_le_mono; lia.
Qed.

Lemma remainingAt_antitone (total start now1 now2 : Z) :
  now1 <= now2 ->
  remainingAt total start now2 <= remainingAt total start now1.
Proof.
  intros H. apply (elapsedSeconds_mono start) in H.
  unfold remainingAt. lia.
Qed.

Lemma due_spec (total start now : Z) :
  due total start now = true <-> total * 1000 <= now - start.
Proof.
  unfold due, elapsedSeconds. rewrite Z.leb_le. split; intros H.
  - pose proof (Z.mul_div_le (now - start) 1000 eq_refl). nia.
  - apply Z.div_le_lower_bound; lia.
Qed.

Lemma due_remaining (total start now : Z) :
  (remainingAt total start now =? 0) = due total start now.
Proof.
  unfold remainingAt, due.
  destruct (Z.leb_spec total (elapsedSeconds start now));
    [apply Z.eqb_eq | apply Z.eqb_neq]; lia.
Qed.

Lemma due_mono (total start now1 now2 : Z) :
  now1 <= now2 -> due total start now1 = true -> due total start now2 = true.
Proof. rewrite !due_spec. lia. Qed.

Section FocusTimer.
Variable total : Z.

Lemma focus_tick_live (now : Z) (s : F.State) :
  F.timerLive s = true ->
  F.tick total now s
  = if due total (F.startTimeRef s) now
    then F.mkState 0 true (F.startTimeRef s) false (S (F.completions s))
    else F.mkState (remainingAt total (F.startTimeRef s) now)
                   (F.isComplete s) (F.startTimeRef s) true
                   (F.completions s).
Proof.
  intros Hlive. unfold F.tick, F.intervalCallback. rewrite Hlive.
  change (Z.max 0 (total - (now - F.startTimeRef s) / 1000))
    with (remainingAt total (F.startTimeRef s) now).
  rewrite due_remaining.
  destruct (due total (F.startTimeRef s) now) eqn:E; [|reflexivity].
  rewrite <- due_remaining in E. apply Z.eqb_eq in E. now rewrite E.
Qed.

Lemma focus_run_dead (nows : list Z) (s : F.State) :
  F.timerLive s = false -> F.run total nows s = s.
Proof.
  intros Hdead. induction nows as [|now nows IH]; [reflexivity|].
  cbn [F.run fold_left]. unfold F.tick at 2. rewrite Hdead. exact IH.
Qed.

(** The state after the ticks at [nows], from a state whose interval is
    scheduled. *)
Lemma focus_run_live (nows : list Z) (s : F.State) :
  F.timerLive s = true ->
  let fired := existsb (due total (F.startTimeRef s)) nows in
  let final := F.run total nows s in
  F.startTimeRef final = F.startTimeRef s
  /\ F.completions final
     = (F.completions s + if fired then 1 else 0)%nat
  /\ F.isComplete final = (F.isComplete s || fired)
  /\ F.timerLive final = negb fired
  /\ (fired = true -> F.remainingSeconds final = 0).
Proof.
  revert s. induction nows as [|now nows IH]; intros s Hlive; cbv zeta.
  - cbn. rewrite Hlive, orb_false_r, Nat.add_0_r.
    repeat split. discriminate.
  - cbn [F.run fold_left existsb].
    rewrite (focus_tick_live now s Hlive).
    destruct (due total (F.startTimeRef s) now) eqn:E.
    + change (fold_left _ nows ?x) with (F.run total nows x).
      rewrite focus_run_dead by reflexivity.
      cbn. rewrite orb_true_r, Nat.add_1_r. repeat split.
    + change (fold_left _ nows ?x) with (F.run total nows x).
      match goal with
      | |- context [F.run total nows ?x] =>
          specialize (IH x eq_refl); cbv zeta in IH; cbn in IH
      end.
      cbn [orb]. exact IH.
Qed.

(** After a tick at [now], no earlier tick being later than [now], the
    remaining time is the one computed from the start instant and [now]. *)
Lemma focus_run_last (nows : list Z) (now : Z) (s : F.State) :
  F.timerLive s = true ->
  Forall (fun t => t <= now) nows ->
  F.remainingSeconds (F.run total (nows ++ [now]) s)
  = remainingAt total (F.startTimeRef s) now.
Proof.
  intros Hlive Hbefore.
  unfold F.run. rewrite fold_left_app. cbn [fold_left].
  change (fold_left _ nows s) with (F.run total nows s).
  destruct (focus_run_live nows s Hlive) as (Hst & _ & _ & Hl & Hr).
  destruct (existsb (due total (F.startTimeRef s)) nows) eqn:E.
  - unfold F.tick. rewrite Hl. cbn [negb]. rewrite (Hr eq_refl).
    apply existsb_exists in E. destruct E as (t & Ht & Hdue).
    rewrite Forall_forall in Hbefore.
    apply (due_mono _ _ _ now (Hbefore _ Ht)) in Hdue.
    rewrite <- due_remaining in Hdue. apply Z.eqb_eq in Hdue.
    now rewrite Hdue.
  - rewrite focus_tick_live by exact Hl. rewrite Hst.
    destruct (due total (F.startTimeRef s) now) eqn:D; [|reflexivity].
    rewrite <- due_remaining in D. apply Z.eqb_eq in D.
    now rewrite D.
Qed.

End FocusTimer.

(** The countdown of the replacement-action screen steps as the one of
    the focus-session screen does. *)
Lemma core_tick (action : Action) (now : Z) (s : R.State) :
  core (R.tick action now s) = F.tick (duration action) now (core s).
Proof.
  unfold R.tick, F.tick, core. cbn [F.timerLive].
  destruct (R.timerLive s) eqn:L; [|now rewrite L].
  unfold R.intervalCallback, F.intervalCallback. cbn [F.startTimeRef].
  destruct (Z.max 0 (duration action - (now - R.startTimeRef s) / 1000) =? 0);
    cbn; now rewrite ?L.
Qed.

Lemma core_run (action : Action) (nows : list Z) (s : R.State) :
  core (R.run action nows s) = F.run (duration action) nows (core s).
Proof.
  revert s. induction nows as [|now nows IH]; intros s; [reflexivity|].
  specialize (IH (R.tick action now s)). rewrite core_tick in IH.
  exact IH.
Qed.

Lemma core_select (action : Action) (start : Z) :
  core (R.handleSelectAction action start R.initial)
  = F.mount (duration action) start.
Proof. reflexivity. Qed.

(** A focus session begun at [start], after ticks at [nows]. *)
Lemma focus_session_run (total start : Z) (nows : list Z) :
  let fired := existsb (due total start) nows in
  let final := F.run total nows (F.mount total start) in
  F.completions final = (if fired then 1 else 0)%nat
  /\ F.isComplete final = fired
  /\ F.timerLive final = negb fired
  /\ (fired = true -> F.remainingSeconds final = 0).
Proof.
  cbv zeta.
  destruct (focus_run_live total nows (F.mount total start) eq_refl)
    as (_ & Hc & Hi & Hl & Hr).
  cbn in Hc, Hi, Hl, Hr. auto.
Qed.

(** A replacement action selected at [start], after ticks at [nows]. *)
Lemma replacement_action_run (action : Action) (start : Z) (nows : list Z) :
  let fired := existsb (due (duration action) start) nows in
  let final := R.run action nows (R.handleSelectAction action start R.initial) in
  R.completions final = (if fired then 1 else 0)%nat
  /\ R.isComplete final = fired
  /\ R.timerLive final = negb fired
  /\ (fired = true -> R.remainingSeconds final = 0).
Proof.
  cbv zeta.
  pose proof (focus_session_run (duration action) start nows) as H.
  cbv zeta in H. rewrite <- core_select, <- core_run in H.
  exact H.
Qed.

(** C5.  For the focus-session timer and for the replacement-action
    timer alike, started at [start] and ticked at the instants [nows]:
    completion is signalled once if some tick found the time run out and
    never otherwise, however many ticks follow, since the first such tick
    clears the interval; after a tick at [now] that no earlier tick
    postdates, the remaining time is [max 0 (duration - elapsed)] computed
    from [start] and [now]; that quantity is never negative and does not
    grow with [now].  With a duration of 5 seconds, a tick 5 seconds or
    more after the start leaves 0 remaining and one completion, whatever
    ticks come after. *)
Theorem countdown_completes_once
  (total start : Z) (action : Action) (nows : list Z) :
  let focus := F.run total nows (F.mount total start) in
  let replacement :=
    R.run action nows (R.handleSelectAction action start R.initial) in
  let firedF := existsb (due total start) nows in
  let firedR := existsb (due (duration action) start) nows in
  (F.completions focus = (if firedF then 1 else 0)%nat
   /\ F.isComplete focus = firedF
   /\ F.timerLive focus = negb firedF
   /\ (firedF = true -> F.remainingSeconds focus = 0))
  /\ (R.completions replacement = (if firedR then 1 else 0)%nat
      /\ R.isComplete replacement = firedR
      /\ R.timerLive replacement = negb firedR
      /\ (firedR = true -> R.remainingSeconds replacement = 0))
  /\ (forall now,
        Forall (fun t => t <= now) nows ->
        F.remainingSeconds (F.run total (nows ++ [now]) (F.mount total start))
        = Z.max 0 (total - (now - start) / 1000)
        /\ R.remainingSeconds
             (R.run action (nows ++ [now])
                    (R.handleSelectAction action start R.initial))
           = Z.max 0 (duration action - (now - start) / 1000))
  /\ (forall now, 0 <= remainingAt total start now)
  /\ (forall now1 now2,
        now1 <= now2 ->
        remainingAt total start now2 <= remainingAt total start now1)
  /\ (forall now, due total start now = true <-> total * 1000 <= now - start)
  /\ (forall now more kind name glyph,
        5 * 1000 <= now - start ->
        let five := mkAction kind name 5 glyph in
        let f := F.run 5 (now :: more) (F.mount 5 start) in
        let r := R.run five (now :: more)
                       (R.handleSelectAction five start R.initial) in
        (F.remainingSeconds f = 0 /\ F.isComplete f = true
         /\ F.completions f = 1%nat)
        /\ (R.remainingSeconds r = 0 /\ R.isComplete r = true
            /\ R.completions r = 1%nat)).
Proof.
  cbv zeta.
  split; [apply focus_session_run|].
  split; [apply replacement_action_run|].
  split.
  { intros now Hbefore. split.
    - now rewrite focus_run_last.
    - change (R.remainingSeconds ?s) with (F.remainingSeconds (core s)).
      rewrite core_run, core_select. now rewrite focus_run_last. }
  split; [intros now; apply remainingAt_nonneg|].
  split; [intros now1 now2; apply remainingAt_antitone|].
  split; [intros now; apply due_spec|].
  intros now more kind name glyph Hlate.
  assert (due 5 start now = true) as Hdue by (apply due_spec; lia).
  split.
  - destruct (focus_session_run 5 start (now :: more)) as (Hc & Hi & _ & Hr).
    cbn [existsb] in Hc, Hi, Hr. rewrite Hdue in Hc, Hi, Hr.
    cbn [orb] in Hc, Hi, Hr. auto.
  - destruct (replacement_action_run (mkAction kind name 5 glyph) start
                (now :: more)) as (Hc & Hi & _ & Hr).
    cbn [existsb duration] in Hc, Hi, Hr. rewrite Hdue in Hc, Hi, Hr.
    cbn [orb] in Hc, Hi, Hr. auto.
Qed.

(** A countdown of 5 seconds ticked every second for 8 seconds. *)
Lemma countdown_completes_once_witness :
  let nows := [1000; 2000; 3000; 4000; 5000; 6000; 7000; 8000] in
  let five := mkAction writing "Write Thoughts" 5 "edit-3" in
  Forall (fun t => t <= 9000) nows
  /\ F.remainingSeconds (F.run 5 (nows ++ [9000]) (F.mount 5 0)) = 0
  /\ F.completions (F.run 5 (nows ++ [9000]) (F.mount 5 0)) = 1%nat
  /\ R.completions
       (R.run five (6000 :: [7000; 8000])
              (R.handleSelectAction five 0 R.initial)) = 1%nat
  /\ F.remainingSeconds (F.run 5 ([1000; 2000] ++ [3000]) (F.mount 5 0)) = 2.
Proof.
  cbv zeta.
  assert (Forall (fun t => t <= 9000)
                 [1000; 2000; 3000; 4000; 5000; 6000; 7000; 8000]) as Hb.
  { repeat constructor; discriminate. }
  split; [exact Hb|].
  split.
  { destruct (countdown_completes_once 5 0
                (mkAction writing "Write Thoughts" 5 "edit-3")
                [1000; 2000; 3000; 4000; 5000; 6000; 7000; 8000])
      as (_ & _ & H & _).
    destruct (H 9000 Hb) as [HF _]. rewrite HF. reflexivity. }
  split; [reflexivity|].
  split.
  { destruct (countdown_completes_once 5 0
                (mkAction writing "Write Thoughts" 5 "edit-3") [])
      as (_ & _ & _ & _ & _ & _ & H).
    apply (H 6000 [7000; 8000] writing "Write Thoughts"%string
             "edit-3"%string).
    lia. }
  reflexivity.
Defined.

(** ** The hourly pattern *)

Import RiskTerms.

Lemma bump_length (i : nat) (l : list Z) :
  List.length (bump i l) = List.length l.
Proof.
  revert i. induction l as [|c l IH]; intros [|i]; cbn; auto.
Qed.

Lemma bump_nth (i j : nat) (l : list Z) :
  nth j (bump i l) 0
  = nth j l 0 + (if Nat.eqb i j && Nat.ltb j (List.length l) then 1 else 0).
Proof.
  revert i j. induction l as [|c l IH]; intros i j.
  - destruct i, j; cbn; rewrite ?andb_false_r; reflexivity.
  - destruct i as [|i], j as [|j]; cbn [bump nth Nat.eqb andb]; try lia.
    + reflexivity.
    + rewrite IH. reflexivity.
Qed.

Lemma hourCountsOf_length (z : TimeZone) (logs : list RelapseLog) :
  List.length (hourCountsOf z logs) = 24%nat.
Proof.
  unfold hourCountsOf.
  assert (forall acc,
             List.length
               (fold_left
                  (fun hourCounts log =>
                     bump (Z.to_nat (getHours z (timestamp log))) hourCounts)
                  logs acc) = List.length acc) as H.
  { induction logs as [|l logs IH]; intros acc; [reflexivity|].
    cbn [fold_left]. now rewrite IH, bump_length. }
  now rewrite H.
Qed.

Lemma getHours_range (z : TimeZone) (t : Z) : 0 <= getHours z t < 24.
Proof. unfold getHours. apply Z.mod_pos_bound. reflexivity. Qed.

(** Each of the 24 counts is the number of logs of that local hour. *)
Lemma hourCountsOf_count (z : TimeZone) (logs : list RelapseLog) (h : Z) :
  0 <= h < 24 ->
  countAt (hourCountsOf z logs) h
  = countIf (fun log => getHours z (timestamp log) =? h) logs.
Proof.
  intros Hh. unfold countAt, hourCountsOf, countIf.
  assert (forall acc,
             List.length acc = 24%nat ->
             nth (Z.to_nat h)
                 (fold_left
                    (fun hourCounts log =>
                       bump (Z.to_nat (getHours z (timestamp log)))
                            hourCounts)
                    logs acc) 0
             = nth (Z.to_nat h) acc 0
               + Z.of_nat
                   (List.length
                      (filter (fun log => getHours z (timestamp log) =? h)
                              logs))) as H.
  { induction logs as [|l logs IH]; intros acc Hacc.
    - cbn. lia.
    - cbn [fold_left filter].
      rewrite IH by now rewrite bump_length.
      rewrite bump_nth, Hacc.
      pose proof (getHours_range z (timestamp l)) as Hr.
      destruct (getHours z (timestamp l) =? h) eqn:E.
      + apply Z.eqb_eq in E. rewrite E, Nat.eqb_refl.
        replace (Nat.ltb (Z.to_nat h) 24) with true
          by (symmetry; apply Nat.ltb_lt; lia).
        cbn [andb List.length]. lia.
      + apply Z.eqb_neq in E.
        replace (Nat.eqb (Z.to_nat (getHours z (timestamp l))) (Z.to_nat h))
          with false by (symmetry; apply Nat.eqb_neq; lia).
        cbn [andb]. lia. }
  rewrite H by reflexivity.
  replace (nth (Z.to_nat h) (repeat 0 24) 0) with 0; [lia|].
  symmetry. apply nth_repeat.
Qed.

Lemma mapIndexed_patternOf (l : list Z) (from : Z) :
  mapIndexed (fun count hour => mkHourCount hour count) from l
  = patternOf (fun h => nth (Z.to_nat (h - from)) l 0) from (List.length l).
Proof.
  revert from. induction l as [|c l IH]; intros from; [reflexivity|].
  cbn [mapIndexed patternOf List.length]. f_equal.
  - now rewrite Z.sub_diag.
  - rewrite IH.
    assert (forall n k,
               from < k ->
               patternOf (fun h => nth (Z.to_nat (h - (from + 1))) l 0) k n
               = patternOf (fun h => nth (Z.to_nat (h - from)) (c :: l) 0)
                           k n) as H.
    { induction n as [|n IHn]; intros k Hk; [reflexivity|].
      cbn [patternOf]. rewrite IHn by lia. f_equal. f_equal.
      replace (Z.to_nat (k - from)) with (S (Z.to_nat (k - (from + 1))))
        by lia.
      reflexivity. }
    apply H. lia.
Qed.

Lemma getHourlyPattern_patternOf (z : TimeZone) (logs : list RelapseLog) :
  getHourlyPattern z logs = patternOf (countAt (hourCountsOf z logs)) 0 24.
Proof.
  unfold getHourlyPattern. rewrite mapIndexed_patternOf, hourCountsOf_length.
  unfold countAt.
  assert (forall n k c1 c2,
             (forall h, c1 h = c2 h) -> patternOf c1 k n = patternOf c2 k n)
    as Hext.
  { induction n as [|n IHn]; intros k c1 c2 Hc; [reflexivity|].
    cbn [patternOf]. now rewrite (IHn _ c1 c2 Hc), Hc. }
  apply Hext. intros h. now rewrite Z.sub_0_r.
Qed.

Lemma patternOf_firstn (c : Z -> Z) (from : Z) (n k : nat) :
  (k <= n)%nat -> firstn k (patternOf c from n) = patternOf c from k.
Proof.
  revert from k. induction n as [|n IH]; intros from k Hk.
  - assert (k = 0%nat) as -> by lia. reflexivity.
  - destruct k as [|k]; [reflexivity|].
    cbn [patternOf firstn]. rewrite IH by lia. reflexivity.
Qed.

Lemma sumCounts_snoc (c : Z -> Z) (from : Z) (n : nat) :
  sumCounts c from (S n) = sumCounts c from n + c (from + Z.of_nat n).
Proof.
  revert from. induction n as [|n IH]; intros from.
  - cbn. replace (from + 0) with from by lia. lia.
  - change (sumCounts c from (S (S n)))
      with (c from + sumCounts c (from + 1) (S n)).
    rewrite IH. cbn [sumCounts].
    replace (from + 1 + Z.of_nat n) with (from + Z.of_nat (S n)) by lia.
    lia.
Qed.

(** ** The scan for risk windows *)

Import ScanTerms.

Lemma ascending_snoc (ws : list Window) (w : Window) :
  ascending ws -> (forall a, In a ws -> end_ a < start w) ->
  ascending (ws ++ [w]).
Proof.
  unfold ascending. induction ws as [|a ws IH]; intros Hs Hw; cbn.
  - constructor; constructor.
  - inversion Hs as [|? ? Hs' Ha]; subst.
    constructor.
    + apply IH; [assumption|]. intros b Hb. apply Hw. now right.
    + rewrite Forall_forall in *. intros b Hb.
      apply in_app_or in Hb. destruct Hb as [Hb|[<-|[]]].
      * now apply Ha.
      * apply Hw. now left.
Qed.

Section Scan.
Variable avg : Q.
Variable c : Z -> Z.

Let hot (h : Z) : bool := elevated avg (c h).

Lemma scanInvariant_init : scanInvariant hot c 0 ([], None).
Proof.
  unfold scanInvariant. cbn [fst snd].
  split; [lia|]. split; [intros w []|]. split; [now left|].
  split; [intros k Hk; lia|]. constructor.
Qed.

(** One turn of the loop, at hour [h] with count [c h]. *)
Lemma scanInvariant_step (h : Z) (st : ScanState) :
  scanInvariant hot c h st ->
  scanInvariant hot c (h + 1) (scanStep avg st (mkHourCount h (c h))).
Proof.
  destruct st as [ws cur].
  intros (Hh & Hclosed & Hcur & Hcover & Hasc). cbn [fst snd] in *.
  unfold scanStep. cbn [hour count].
  fold (hot h). destruct (hot h) eqn:Hhot.
  - (* an elevated hour *)
    destruct cur as [w|].
    + destruct Hcur as ((Hr1 & Hr2 & Hr3 & Hr4) & Hend & Hbefore).
      rewrite <- Hend, Z.eqb_refl. rewrite Hend.
      unfold scanInvariant. cbn [fst snd start end_ count_].
      split; [lia|].
      split.
      { intros a Ha. destruct (Hclosed a Ha) as (Hra & Hca & Hla).
        split; [exact Hra|split; [exact Hca|lia]]. }
      split.
      { split; [|split; [reflexivity|exact Hbefore]].
        unfold runOf. cbn [start end_ count_].
        split; [lia|]. split.
        - intros k Hk. destruct (Z.eq_dec k h) as [->|Hne];
            [exact Hhot|apply Hr2; lia].
        - split; [exact Hr3|].
          replace (Z.to_nat (h + 1 - start w))
            with (S (Z.to_nat (end_ w - start w))) by lia.
          rewrite sumCounts_snoc, <- Hr4. f_equal. f_equal. lia. }
      split; [|exact Hasc].
      intros k Hk Hkhot. destruct (Z.eq_dec k h) as [->|Hne].
      * right. eexists. split; [reflexivity|]. cbn [start]. lia.
      * destruct (Hcover k ltac:(lia) Hkhot) as [Hl|(w' & Hw' & Hs)];
          [now left|].
        injection Hw' as <-. right. eexists. split; [reflexivity|].
        exact Hs.
    + unfold scanInvariant. cbn [fst snd start end_ count_].
      split; [lia|].
      split.
      { intros a Ha. destruct (Hclosed a Ha) as (Hra & Hca & Hla).
        split; [exact Hra|split; [exact Hca|lia]]. }
      split.
      { split; [|split; [reflexivity|]].
        - unfold runOf. cbn [start end_ count_].
          split; [lia|]. split.
          + intros k Hk. assert (k = h) as -> by lia. exact Hhot.
          + split; [exact Hcur|].
            replace (Z.to_nat (h + 1 - h)) with 1%nat by lia.
            cbn. lia.
        - intros a Ha. now destruct (Hclosed a Ha) as (_ & _ & ?). }
      split; [|exact Hasc].
      intros k Hk Hkhot. destruct (Z.eq_dec k h) as [->|Hne].
      * right. eexists. split; [reflexivity|]. cbn [start]. lia.
      * destruct (Hcover k ltac:(lia) Hkhot) as [Hl|(w' & Hw' & _)];
          [now left|discriminate Hw'].
  - (* an hour that is not elevated *)
    destruct cur as [w|].
    + destruct Hcur as (Hrun & Hend & Hbefore).
      unfold scanInvariant. cbn [fst snd].
      split; [lia|].
      split.
      { intros a Ha. apply in_app_or in Ha. destruct Ha as [Ha|[<-|[]]].
        - destruct (Hclosed a Ha) as (Hra & Hca & Hla).
          split; [exact Hra|split; [exact Hca|lia]].
        - rewrite Hend. split; [exact Hrun|split; [exact Hhot|lia]]. }
      split.
      { right. now replace (h + 1 - 1) with h by lia. }
      split; [|now apply ascending_snoc].
      intros k Hk Hkhot.
      assert (k <> h) as Hne by (intros ->; congruence).
      left. destruct (Hcover k ltac:(lia) Hkhot)
        as [(a & Ha & Hka)|(w' & Hw' & Hs)].
      * exists a. split; [apply in_or_app; now left|exact Hka].
      * injection Hw' as <-. exists w.
        split; [apply in_or_app; right; now left|lia].
    + unfold scanInvariant. cbn [fst snd].
      split; [lia|].
      split.
      { intros a Ha. destruct (Hclosed a Ha) as (Hra & Hca & Hla).
        split; [exact Hra|split; [exact Hca|lia]]. }
      split.
      { right. now replace (h + 1 - 1) with h by lia. }
      split; [|exact Hasc].
      intros k Hk Hkhot.
      assert (k <> h) as Hne by (intros ->; congruence).
      destruct (Hcover k ltac:(lia) Hkhot) as [Hl|(w' & Hw' & _)];
        [now left|discriminate Hw'].
Qed.

Lemma scanInvariant_fold (n : nat) (h : Z) (st : ScanState) :
  scanInvariant hot c h st ->
  scanInvariant hot c (h + Z.of_nat n)
                (fold_left (scanStep avg) (patternOf c h n) st).
Proof.
  revert h st. induction n as [|n IH]; intros h st Hinv.
  - cbn [patternOf fold_left]. now replace (h + Z.of_nat 0) with h by lia.
  - cbn [patternOf fold_left].
    replace (h + Z.of_nat (S n)) with (h + 1 + Z.of_nat n) by lia.
    apply IH. now apply scanInvariant_step.
Qed.

(** The windows the loop leaves after [hours] hours. *)
Lemma scanWindows_runs (hours : nat) :
  let found := scanWindows avg (patternOf c 0 hours) in
  (forall w, In w found ->
             runOf hot c w
             /\ maximalRun hot (Z.of_nat hours) (start w) (end_ w))
  /\ (forall k, 0 <= k < Z.of_nat hours -> hot k = true ->
                exists w, In w found /\ start w <= k < end_ w)
  /\ ascending found.
Proof.
  cbv zeta. unfold scanWindows.
  pose proof (scanInvariant_fold hours 0 _ scanInvariant_init) as Hinv.
  rewrite Z.add_0_l in Hinv.
  destruct (fold_left (scanStep avg) (patternOf c 0 hours) ([], None))
    as [ws cur].
  destruct Hinv as (Hh & Hclosed & Hcur & Hcover & Hasc).
  cbn [fst snd] in *.
  assert (forall w, In w ws ->
                    runOf hot c w
                    /\ maximalRun hot (Z.of_nat hours) (start w) (end_ w))
    as Hws.
  { intros w Hw. destruct (Hclosed w Hw) as (Hrun & Hcold & Hlt).
    split; [exact Hrun|].
    destruct Hrun as (? & ? & ? & ?).
    unfold maximalRun. repeat split; try assumption; try lia. now right. }
  destruct cur as [w|]; cbn [flush].
  - destruct Hcur as (Hrun & Hend & Hbefore).
    split; [|split].
    + intros a Ha. apply in_app_or in Ha. destruct Ha as [Ha|[<-|[]]].
      * now apply Hws.
      * split; [exact Hrun|].
        destruct Hrun as (? & ? & ? & ?).
        unfold maximalRun. repeat split; try assumption; lia.
    + intros k Hk Hkhot.
      destruct (Hcover k Hk Hkhot) as [(a & Ha & Hka)|(w' & Hw' & Hs)].
      * exists a. split; [apply in_or_app; now left|exact Hka].
      * injection Hw' as <-. exists w.
        split; [apply in_or_app; right; now left|lia].
    + now apply ascending_snoc.
  - split; [exact Hws|]. split; [|exact Hasc].
    intros k Hk Hkhot.
    destruct (Hcover k Hk Hkhot) as [Hl|(w' & Hw' & _)];
      [exact Hl|discriminate Hw'].
Qed.

(** Whenever the loop holds a current window before looking at hour
    [k], that window ends at [k]: an elevated hour always extends it. *)
Lemma scan_current_end (hours k : nat) (ws : list Window) (w : Window) :
  (k <= hours)%nat ->
  fold_left (scanStep avg) (firstn k (patternOf c 0 hours)) ([], None)
  = (ws, Some w) ->
  end_ w = Z.of_nat k.
Proof.
  intros Hk E. rewrite patternOf_firstn in E by exact Hk.
  pose proof (scanInvariant_fold k 0 _ scanInvariant_init) as Hinv.
  rewrite E, Z.add_0_l in Hinv.
  now destruct Hinv as (_ & _ & (_ & Hend & _) & _).
Qed.

(** Two maximal runs that share an hour are one run. *)
Lemma maximalRun_unique (hours s1 e1 s2 e2 k : Z) :
  maximalRun hot hours s1 e1 -> maximalRun hot hours s2 e2 ->
  s1 <= k < e1 -> s2 <= k < e2 -> s1 = s2 /\ e1 = e2.
Proof.
  intros (H1 & H1' & Hin1 & Hs1 & He1) (H2 & H2' & Hin2 & Hs2 & He2) K1 K2.
  split.
  - destruct (Z.lt_trichotomy s1 s2) as [Hlt|[Heq|Hgt]]; [|exact Heq|].
    + destruct Hs2 as [->|Hcold]; [lia|].
      rewrite Hin1 in Hcold by lia. discriminate.
    + destruct Hs1 as [->|Hcold]; [lia|].
      rewrite Hin2 in Hcold by lia. discriminate.
  - destruct (Z.lt_trichotomy e1 e2) as [Hlt|[Heq|Hgt]]; [|exact Heq|].
    + destruct He1 as [->|Hcold]; [lia|].
      rewrite Hin2 in Hcold by lia. discriminate.
    + destruct He2 as [->|Hcold]; [lia|].
      rewrite Hin1 in Hcold by lia. discriminate.
Qed.

(** The windows found are exactly the maximal runs of elevated hours,
    each with the sum of the counts of its hours. *)
Lemma scanWindows_exact (hours : nat) (w : Window) :
  In w (scanWindows avg (patternOf c 0 hours))
  <-> maximalRun hot (Z.of_nat hours) (start w) (end_ w)
      /\ count_ w = sumCounts c (start w) (Z.to_nat (end_ w - start w)).
Proof.
  destruct (scanWindows_runs hours) as (Hruns & Hcover & _).
  split.
  - intros Hw. destruct (Hruns w Hw) as ((_ & _ & _ & Hsum) & Hmax).
    now split.
  - intros (Hmax & Hsum).
    pose proof Hmax as (Hse & Hhours & Hin & _).
    assert (hot (start w) = true) as Hstart by (apply Hin; lia).
    destruct (Hcover (start w) ltac:(lia) Hstart) as (w' & Hw' & Hk).
    destruct (Hruns w' Hw') as ((_ & _ & _ & Hsum') & Hmax').
    destruct (maximalRun_unique _ _ _ _ _ (start w) Hmax Hmax'
                ltac:(lia) Hk) as [Es Ee].
    replace w with w'; [exact Hw'|].
    destruct w, w'. cbn [start end_ count_] in *. subst. reflexivity.
Qed.

End Scan.

(** ** Elevated hours *)

Lemma Qgtb_spec (a b : Q) : Qgtb a b = true <-> (b < a)%Q.
Proof.
  unfold Qgtb. rewrite negb_true_iff. split.
  - intros H. apply Qnot_le_lt. intros Hle.
    apply Qle_bool_iff in Hle. congruence.
  - intros H. apply not_true_iff_false. intros Hle.
    apply Qle_bool_iff in Hle. now apply Qlt_not_le in H.
Qed.

(** The test of the loop, with the mean written [n / 24], and in whole
    numbers: more than 1.5 times the mean is more than [n / 16]. *)
Lemma elevated_spec (n : nat) (cnt : Z) :
  (elevated (averageOf n) cnt = true
   <-> ((Z.of_nat n # 24) * (3 # 2) < inject_Z cnt)%Q /\ 2 <= cnt)
  /\ (elevated (averageOf n) cnt = true
      <-> Z.of_nat n < 16 * cnt /\ 2 <= cnt).
Proof.
  unfold elevated. rewrite andb_true_iff, Qgtb_spec, Z.leb_le.
  unfold averageOf. destruct n as [|n].
  - change (0 <? Z.of_nat 0) with false. cbv iota.
    unfold Qlt. cbn [Qnum Qden Qmult inject_Z Z.of_nat].
    change (Z.pos (1 * 2)) with 2. change (Z.pos (24 * 2)) with 48.
    split; split; lia.
  - replace (0 <? Z.of_nat (S n)) with true by (symmetry; apply Z.ltb_lt; lia).
    unfold Qlt. cbn [Qnum Qden Qmult inject_Z].
    change (Z.pos (24 * 2)) with 48. split; split; lia.
Qed.

(** ** Risk windows *)

Lemma getRiskWindows_sorted_scan (z : TimeZone) (logs : list RelapseLog) :
  getRiskWindows z logs
  = sort (fun a b => count_ b - count_ a)
         (scanWindows (averageOf (List.length logs))
                      (patternOf (countAt (hourCountsOf z logs)) 0 24)).
Proof.
  unfold getRiskWindows, riskWindowsOf.
  now rewrite getHourlyPattern_patternOf.
Qed.

(** C2.  With [c h] the number of logs of local hour [h] and [n] the
    number of logs: hour [h] is elevated exactly when [c h] exceeds
    [(n / 24) * 1.5] and is at least 2; the windows the loop finds are
    exactly the maximal runs of adjacent elevated hours among the hours
    0 to 23, each with the sum of the counts of its hours, in ascending
    order; whenever a window is open before hour [k] its end is [k], so
    an elevated hour extends it and any other hour closes it; and the
    result is those windows sorted by count, larger first, windows of
    equal count staying in the order found.  For the hourly counts
    0, 0, 5, 5, 0, ..., 0 the result is the one window from 2 to 4 with
    count 10. *)
Theorem getRiskWindows_spec (z : TimeZone) (logs : list RelapseLog) :
  let n := List.length logs in
  let c := countAt (hourCountsOf z logs) in
  let hot := fun h => elevated (averageOf n) (c h) in
  let found := scanWindows (averageOf n) (getHourlyPattern z logs) in
  (forall h, 0 <= h < 24 ->
             c h = countIf (fun log => getHours z (timestamp log) =? h) logs)
  /\ (forall h, hot h = true
                <-> ((Z.of_nat n # 24) * (3 # 2) < inject_Z (c h))%Q
                    /\ 2 <= c h)
  /\ (forall w, In w found
                <-> maximalRun hot 24 (start w) (end_ w)
                    /\ count_ w
                       = sumCounts c (start w)
                                   (Z.to_nat (end_ w - start w)))
  /\ ascending found
  /\ (forall k ws w,
        (k <= 24)%nat ->
        fold_left (scanStep (averageOf n))
                  (firstn k (getHourlyPattern z logs)) ([], None)
        = (ws, Some w) ->
        end_ w = Z.of_nat k)
  /\ Permutation (getRiskWindows z logs) found
  /\ StronglySorted (fun a b => count_ b <= count_ a) (getRiskWindows z logs)
  /\ (forall k, filter (fun w => count_ w =? k) (getRiskWindows z logs)
                = filter (fun w => count_ w =? k) found)
  /\ (hourCountsOf utc logsAtTwoAndThree
      = [0; 0; 5; 5; 0; 0; 0; 0; 0; 0; 0; 0;
         0; 0; 0; 0; 0; 0; 0; 0; 0; 0; 0; 0]
      /\ getRiskWindows utc logsAtTwoAndThree = [mkWindow 2 4 10]).
Proof.
  cbv zeta.
  rewrite getRiskWindows_sorted_scan, getHourlyPattern_patternOf.
  split; [intros h Hh; now apply hourCountsOf_count|].
  split; [intros h; apply elevated_spec|].
  split; [intros w; apply (scanWindows_exact _ _ 24)|].
  split; [apply (scanWindows_runs _ _ 24)|].
  split; [intros k ws w; apply scan_current_end|].
  split; [apply sort_perm with (key := count_)|].
  split; [apply sort_descending with (key := count_)|].
  split; [intros k; apply sort_stable with (key := count_)|].
  split; vm_compute; reflexivity.
Qed.

Lemma getRiskWindows_spec_witness :
  In (mkWindow 2 4 10)
     (scanWindows (averageOf (List.length logsAtTwoAndThree))
                  (getHourlyPattern utc logsAtTwoAndThree))
  /\ maximalRun
       (fun h => elevated (averageOf (List.length logsAtTwoAndThree))
                          (countAt (hourCountsOf utc logsAtTwoAndThree) h))
       24 (start (mkWindow 2 4 10)) (end_ (mkWindow 2 4 10)).
Proof.
  assert (In (mkWindow 2 4 10)
             (scanWindows (averageOf (List.length logsAtTwoAndThree))
                          (getHourlyPattern utc logsAtTwoAndThree))) as Hin.
  { vm_compute. now left. }
  split; [exact Hin|].
  destruct (getRiskWindows_spec utc logsAtTwoAndThree) as (_ & _ & H & _).
  exact (proj1 (proj1 (H (mkWindow 2 4 10)) Hin)).
Defined.

(** ** A window that reaches midnight *)

(** C9.  A risk window that includes hour 23 ends at 24, and
    [formatHour 24] is "12 PM" whereas [formatHour 0] is "12 AM": the
    end of a window that reaches midnight is shown as "12 PM". *)
Theorem window_to_midnight_shown_as_noon
  (z : TimeZone) (logs : list RelapseLog) (w : Window) :
  In w (getRiskWindows z logs) ->
  start w <= 23 < end_ w ->
  end_ w = 24
  /\ formatHour (end_ w) = "12 PM"%string
  /\ formatHour 24 = "12 PM"%string
  /\ formatHour 0 = "12 AM"%string
  /\ formatHour 12 = "12 PM"%string.
Proof.
  intros Hw H23.
  assert (end_ w = 24) as E.
  { rewrite getRiskWindows_sorted_scan in Hw.
    pose proof (proj1 (sort_In count_ _ w) Hw) as Hfound.
    destruct (proj1 (scanWindows_exact _ _ 24 w) Hfound)
      as ((_ & Hle & _) & _).
    change (Z.of_nat 24) with 24 in Hle. lia. }
  rewrite E. repeat split; reflexivity.
Qed.

(** Two logs in hour 23: the one window runs from 23 to 24. *)
Lemma window_to_midnight_shown_as_noon_witness :
  getRiskWindows utc logsBeforeMidnight = [mkWindow 23 24 2]
  /\ formatHour (start (mkWindow 23 24 2)) = "11 PM"%string
  /\ formatHour (end_ (mkWindow 23 24 2)) = "12 PM"%string.
Proof.
  split; [vm_compute; reflexivity|].
  split; [reflexivity|].
  apply (window_to_midnight_shown_as_noon utc logsBeforeMidnight
           (mkWindow 23 24 2)).
  - vm_compute. now left.
  - cbn. lia.
Defined.

(** ** Further consequences *)

(** A most recent log made today gives the streak 0, in every zone. *)
Lemma getCurrentStreak_same_day
  (z : TimeZone) (now : Z) (logs : list RelapseLog) (last : RelapseLog) :
  mostRecent last logs ->
  localDay z (timestamp last) = localDay z now ->
  getCurrentStreak z now logs = 0.
Proof.
  intros Hlast Hday. rewrite (getCurrentStreak_latest _ _ _ _ Hlast), Hday.
  now rewrite Z.sub_diag.
Qed.

(** Where the offset never changes and no log is later than [now], the
    streak is not negative. *)
Lemma getCurrentStreak_past_logs
  (offset now : Z) (logs : list RelapseLog) :
  Forall (fun l => timestamp l <= now) logs ->
  0 <= getCurrentStreak (fixedZone offset) now logs.
Proof.
  intros Hpast. destruct logs as [|l0 logs']; [reflexivity|].
  destruct (mostRecent_exists (l0 :: logs') ltac:(discriminate))
    as [last Hlast].
  rewrite (getCurrentStreak_fixed_zone _ _ _ _ Hlast).
  destruct Hlast as [Hin _]. rewrite Forall_forall in Hpast.
  pose proof (fixed_days_monotone offset _ _ (Hpast _ Hin)). lia.
Qed.

(** A focus session of [duration] minutes completes, once, at the first
    tick that comes [duration * 60] seconds or more after its start. *)
Lemma focus_session_minutes (duration start now : Z) (more : list Z) :
  duration * 60 * 1000 <= now - start ->
  let final := F.run (F.totalSecondsOf duration) (now :: more)
                     (F.mount (F.totalSecondsOf duration) start) in
  F.isComplete final = true /\ F.completions final = 1%nat
  /\ F.remainingSeconds final = 0.
Proof.
  intros Hlate. cbv zeta.
  assert (due (F.totalSecondsOf duration) start now = true) as Hdue
    by (apply due_spec; unfold F.totalSecondsOf; lia).
  destruct (focus_session_run (F.totalSecondsOf duration) start (now :: more))
    as (Hc & Hi & _ & Hr).
  cbn [existsb] in Hc, Hi, Hr. rewrite Hdue in Hc, Hi, Hr.
  cbn [orb] in Hc, Hi, Hr. auto.
Qed.

(** Before the time has run out the remaining time is positive and the
    session is not complete. *)
Lemma focus_session_running (total start : Z) (nows : list Z) :
  Forall (fun now => now - start < total * 1000) nows ->
  let final := F.run total nows (F.mount total start) in
  F.isComplete final = false /\ F.completions final = 0%nat
  /\ F.timerLive final = true.
Proof.
  intros Hearly. cbv zeta.
  assert (existsb (due total start) nows = false) as Hnone.
  { apply not_true_iff_false. intros E. apply existsb_exists in E.
    destruct E as (now & Hin & Hdue). apply due_spec in Hdue.
    rewrite Forall_forall in Hearly. specialize (Hearly _ Hin). lia. }
  destruct (focus_session_run total start nows) as (Hc & Hi & Hl & _).
  rewrite Hnone in Hc, Hi, Hl. auto.
Qed.

(* ================================================================== *)
(** * Part III: the rest of the code                                   *)
(* ================================================================== *)

Import JsText StorageRest RestTerms.

(** ** Settings *)

Lemma getSettings_returns (d : Device) :
  getSettings d = (Returned (settingsOf (settings_item d)), d).
Proof.
  unfold getSettings, tryD, bindD, getSettingsItem.
  destruct (settings_item d) as [|[[| |stored]|]]; reflexivity.
Qed.

Lemma spread_asPartial (base s : Settings) : spread base (asPartial s) = s.
Proof. now destruct s. Qed.

Lemma saveSettings_returns (settings : PartialSettings) (d : Device) :
  saveSettings settings d
  = (Returned (spread (settingsOf (settings_item d)) settings),
     mkDevice (world d)
              (Kept (Some (Json (asPartial
                 (spread (settingsOf (settings_item d)) settings)))))
              (focus_presets d)).
Proof.
  unfold saveSettings, bindD. rewrite getSettings_returns. reflexivity.
Qed.

(** Saving settings and reading them back: whatever the settings key
    held, even nothing or an unreadable text, [saveSettings] returns the
    settings read before with the given properties written over them,
    [getSettings] afterwards returns those same settings, a property the
    caller left out keeps the value read before, and neither the
    collections nor the presets are touched. *)
Theorem saveSettings_then_getSettings
  (settings : PartialSettings) (d : Device) :
  let before := settingsOf (settings_item d) in
  let updated := spread before settings in
  let d' := snd (saveSettings settings d) in
  fst (saveSettings settings d) = Returned updated
  /\ getSettings d' = (Returned updated, d')
  /\ (pFocusDuration settings = None ->
      focusDuration updated = focusDuration before)
  /\ (pUnlockThreshold settings = None ->
      unlockThreshold updated = unlockThreshold before)
  /\ (pIsFirstSetup settings = None ->
      isFirstSetup updated = isFirstSetup before)
  /\ (forall v, pIsFirstSetup settings = Some v -> isFirstSetup updated = v)
  /\ world d' = world d
  /\ focus_presets d' = focus_presets d.
Proof.
  cbv zeta. rewrite saveSettings_returns. cbn [fst snd].
  rewrite getSettings_returns. cbn [settings_item settingsOf].
  rewrite spread_asPartial.
  split; [reflexivity|]. split; [reflexivity|].
  unfold spread. cbn [focusDuration unlockThreshold isFirstSetup].
  split; [intros ->; reflexivity|]. split; [intros ->; reflexivity|].
  split; [intros ->; reflexivity|]. split; [intros v ->; reflexivity|].
  split; reflexivity.
Qed.

Lemma saveSettings_then_getSettings_witness :
  let d := mkDevice (mkWorld (mkStorage (Holds None) (Holds None) (Holds None))
                             0 0)
                    (Kept (Some BadText)) (Holds None) in
  let settings := mkPartial None (Some 14) None in
  fst (saveSettings settings d) = Returned (mkSettings 30 14 true)
  /\ focusDuration (spread (settingsOf (settings_item d)) settings)
     = focusDuration (settingsOf (settings_item d)).
Proof.
  cbv zeta. split; [reflexivity|].
  destruct (saveSettings_then_getSettings
              (mkPartial None (Some 14) None)
              (mkDevice (mkWorld (mkStorage (Holds None) (Holds None)
                                            (Holds None)) 0 0)
                        (Kept (Some BadText)) (Holds None)))
    as (_ & _ & H & _).
  apply H. reflexivity.
Defined.

(** Two saves in a row amount to one save of the second written over
    the first: the settings read afterwards have each property from the
    second save where it gives one, else from the first, else as it was;
    in particular saving the same properties twice changes nothing. *)
Theorem saveSettings_twice (first second : PartialSettings) (d : Device) :
  let merged :=
    mkPartial
      (match pFocusDuration second with
       | Some v => Some v
       | None => pFocusDuration first
       end)
      (match pUnlockThreshold second with
       | Some v => Some v
       | None => pUnlockThreshold first
       end)
      (match pIsFirstSetup second with
       | Some v => Some v
       | None => pIsFirstSetup first
       end) in
  saveSettings second (snd (saveSettings first d)) = saveSettings merged d
  /\ saveSettings first (snd (saveSettings first d))
     = (fst (saveSettings first d), snd (saveSettings first d)).
Proof.
  cbv zeta. rewrite !saveSettings_returns. cbn [fst snd].
  rewrite ?saveSettings_returns. cbn [settings_item settingsOf world
                                      focus_presets].
  rewrite !spread_asPartial.
  assert (forall base a b,
             spread (spread base a) b
             = spread base
                 (mkPartial
                    (match pFocusDuration b with
                     | Some v => Some v
                     | None => pFocusDuration a
                     end)
                    (match pUnlockThreshold b with
                     | Some v => Some v
                     | None => pUnlockThreshold a
                     end)
                    (match pIsFirstSetup b with
                     | Some v => Some v
                     | None => pIsFirstSetup a
                     end))) as Hmerge.
  { intros base [a1 a2 a3] [b1 b2 b3]. unfold spread.
    cbn [pFocusDuration pUnlockThreshold pIsFirstSetup focusDuration
         unlockThreshold isFirstSetup].
    destruct b1, b2, b3; reflexivity. }
  split.
  - now rewrite Hmerge.
  - assert (forall base a, spread (spread base a) a = spread base a) as Hidem.
    { intros base [a1 a2 a3]. unfold spread.
      cbn [pFocusDuration pUnlockThreshold pIsFirstSetup focusDuration
           unlockThreshold isFirstSetup].
      destruct a1, a2, a3; reflexivity. }
    now rewrite Hidem.
Qed.

(** ** Presets *)

Lemma getFocusPresets_returns (d : Device) :
  getFocusPresets d
  = (Returned (DEFAULT_PRESETS ++ customsOf (focus_presets d)), d).
Proof.
  unfold getFocusPresets, tryD, bindD, getPresetsItem, customsOf.
  destruct (focus_presets d) as [|[[| |saved]|]]; reflexivity.
Qed.

Lemma customsOf_notDefault (c : Cell FocusPreset) :
  Forall (fun p => isDefault p = false) (customsOf c).
Proof.
  unfold customsOf. apply Forall_forall. intros p Hp.
  apply filter_In in Hp. destruct Hp as [_ Hp].
  now apply negb_true_iff in Hp.
Qed.

Lemma filter_customs (keep : FocusPreset -> bool) (l : list FocusPreset) :
  Forall (fun p => isDefault p = false) l ->
  filter (fun p => negb (isDefault p) && keep p) l = filter keep l.
Proof.
  induction l as [|p l IH]; intros H; [reflexivity|].
  inversion H as [|? ? Hp Hl]; subst. cbn [filter].
  rewrite Hp. cbn [negb andb]. now rewrite IH.
Qed.

Lemma filter_all_customs (l : list FocusPreset) :
  Forall (fun p => isDefault p = false) l ->
  filter (fun p => negb (isDefault p)) l = l.
Proof.
  induction l as [|p l IH]; intros H; [reflexivity|].
  inversion H as [|? ? Hp Hl]; subst. cbn [filter].
  rewrite Hp. cbn [negb]. now rewrite IH.
Qed.

(** The presets read always begin with the four built-in presets, in
    their order, whatever is stored; what follows are the stored presets
    not flagged as built-in, in stored order; with nothing readable
    stored the built-in presets are all there is. *)
Theorem getFocusPresets_builtins_first (d : Device) :
  exists customs,
    getFocusPresets d = (Returned (DEFAULT_PRESETS ++ customs), d)
    /\ firstn 4 (DEFAULT_PRESETS ++ customs) = DEFAULT_PRESETS
    /\ Forall (fun p => isDefault p = false) customs
    /\ customs
       = filter (fun p => negb (isDefault p))
                (SpecTerms.listOf (focus_presets d))
    /\ (SpecTerms.missingOrUnreadable (focus_presets d) = true ->
        customs = []).
Proof.
  exists (customsOf (focus_presets d)).
  split; [apply getFocusPresets_returns|].
  split; [reflexivity|].
  split; [apply customsOf_notDefault|].
  split; [reflexivity|].
  intros H. unfold customsOf.
  now rewrite (listOf_unreadable _ H).
Qed.

Lemma customs_of_presets (customs : list FocusPreset) :
  Forall (fun p => isDefault p = false) customs ->
  filter (fun p => negb (isDefault p)) (DEFAULT_PRESETS ++ customs) = customs.
Proof.
  intros H. rewrite filter_app. cbn [DEFAULT_PRESETS filter isDefault negb app].
  now apply filter_all_customs.
Qed.

Lemma filter_other_keys (key : string) (l : list FocusPreset) :
  Forall (fun p => presetKey p <> key) l ->
  filter (fun p => negb (String.eqb (presetKey p) key)) l = l.
Proof.
  induction l as [|p l IH]; intros H; [reflexivity|].
  inversion H as [|? ? Hp Hl]; subst. cbn [filter].
  apply String.eqb_neq in Hp. rewrite Hp. cbn [negb]. now rewrite IH.
Qed.

Lemma filter_twice {A : Type} (keep : A -> bool) (l : list A) :
  filter keep (filter keep l) = filter keep l.
Proof.
  induction l as [|x l IH]; [reflexivity|].
  cbn [filter]. destruct (keep x) eqn:E; [|exact IH].
  cbn [filter]. rewrite E. now rewrite IH.
Qed.

Lemma customsOf_stored (l : list FocusPreset) :
  Forall (fun p => isDefault p = false) l ->
  customsOf (Holds (Some (Encoded l))) = l.
Proof. intros H. unfold customsOf. cbn. now apply filter_all_customs. Qed.

Section Presets.
Variable clockAt : nat -> Z.

(** The preset [addFocusPreset] makes in device [d]. *)
Let made (d : Device) (name : string) (duration : Z) : FocusPreset :=
  mkFocusPreset ("custom-" ++ toString (clockAt (ticks (world d))))
                name duration false.

Lemma addFocusPreset_returns (name : string) (duration : Z) (d : Device) :
  addFocusPreset clockAt name duration d
  = (Returned (made d name duration),
     mkDevice (mkWorld (storage (world d)) (S (ticks (world d)))
                       (draws (world d)))
              (settings_item d)
              (Holds (Some (Encoded (customsOf (focus_presets d)
                                     ++ [made d name duration]))))).
Proof.
  unfold addFocusPreset, bindD. rewrite getFocusPresets_returns.
  rewrite customs_of_presets by apply customsOf_notDefault.
  reflexivity.
Qed.

Lemma deleteFocusPreset_returns (key : string) (d : Device) :
  deleteFocusPreset key d
  = (Returned tt,
     mkDevice (world d) (settings_item d)
              (Holds (Some (Encoded
                 (filter (fun p => negb (String.eqb (presetKey p) key))
                         (customsOf (focus_presets d))))))).
Proof.
  unfold deleteFocusPreset, bindD. rewrite getFocusPresets_returns.
  rewrite filter_app.
  replace (filter _ DEFAULT_PRESETS) with (@nil FocusPreset) by reflexivity.
  cbn [app]. rewrite filter_customs by apply customsOf_notDefault.
  reflexivity.
Qed.

(** Adding a preset: the presets read afterwards are the presets read
    before followed by the new preset, which is the one returned, is not
    flagged as built-in and has the given name and duration; settings and
    collections are untouched. *)
Theorem addFocusPreset_appends (name : string) (duration : Z) (d : Device) :
  let d' := snd (addFocusPreset clockAt name duration d) in
  exists before new,
    getFocusPresets d = (Returned before, d)
    /\ fst (addFocusPreset clockAt name duration d) = Returned new
    /\ getFocusPresets d' = (Returned (before ++ [new]), d')
    /\ isDefault new = false
    /\ presetName new = name
    /\ presetDuration new = duration
    /\ settings_item d' = settings_item d
    /\ storage (world d') = storage (world d).
Proof.
  cbv zeta. rewrite addFocusPreset_returns. cbn [fst snd].
  exists (DEFAULT_PRESETS ++ customsOf (focus_presets d)),
         (made d name duration).
  split; [apply getFocusPresets_returns|].
  split; [reflexivity|].
  split.
  { rewrite getFocusPresets_returns. cbn [focus_presets].
    unfold customsOf at 1. cbn [SpecTerms.listOf].
    rewrite filter_app, filter_all_customs by apply customsOf_notDefault.
    cbn [filter made isDefault negb]. now rewrite <- app_assoc. }
  repeat split.
Qed.

(** Deleting a preset by key: the presets read afterwards are the four
    built-in presets followed by the custom presets read before whose key
    differs, in their order.  So no key deletes a built-in preset, a key
    that no custom preset has changes nothing that is read, and deleting
    twice is deleting once. *)
Theorem deleteFocusPreset_spares_builtins (key : string) (d : Device) :
  let d' := snd (deleteFocusPreset key d) in
  let customs := customsOf (focus_presets d) in
  getFocusPresets d'
  = (Returned (DEFAULT_PRESETS
               ++ filter (fun p => negb (String.eqb (presetKey p) key))
                         customs), d')
  /\ (forall p, In p DEFAULT_PRESETS ->
                In p (DEFAULT_PRESETS
                      ++ filter (fun p => negb (String.eqb (presetKey p) key))
                                customs))
  /\ (Forall (fun p => presetKey p <> key) customs ->
      fst (getFocusPresets d') = fst (getFocusPresets d))
  /\ deleteFocusPreset key d' = (Returned tt, d').
Proof.
  cbv zeta. rewrite deleteFocusPreset_returns. cbn [snd].
  assert (forall l,
             Forall (fun p => isDefault p = false) l ->
             Forall (fun p => isDefault p = false)
                    (filter (fun p => negb (String.eqb (presetKey p) key)) l))
    as Hkeep.
  { intros l Hl. rewrite Forall_forall in *. intros p Hp.
    apply filter_In in Hp. now apply Hl. }
  assert (customsOf
            (Holds (Some (Encoded
               (filter (fun p => negb (String.eqb (presetKey p) key))
                       (customsOf (focus_presets d))))))
          = filter (fun p => negb (String.eqb (presetKey p) key))
                   (customsOf (focus_presets d))) as Hc.
  { unfold customsOf at 1. cbn [SpecTerms.listOf].
    apply filter_all_customs, Hkeep, customsOf_notDefault. }
  split.
  { rewrite getFocusPresets_returns. cbn [focus_presets]. now rewrite Hc. }
  split.
  { intros p Hp. apply in_or_app. now left. }
  split.
  { intros Hnone. rewrite !getFocusPresets_returns. cbn [fst focus_presets].
    rewrite Hc. now rewrite filter_other_keys. }
  rewrite deleteFocusPreset_returns. cbn [world settings_item focus_presets].
  rewrite Hc. now rewrite filter_twice.
Qed.

Lemma deleteFocusPreset_spares_builtins_witness :
  let d := mkDevice (mkWorld (mkStorage (Holds None) (Holds None) (Holds None))
                             0 0)
                    (Kept None)
                    (Holds (Some (Encoded
                       [mkFocusPreset "custom-7" "Reading" 40 false]))) in
  fst (getFocusPresets (snd (deleteFocusPreset "pomodoro" d)))
  = fst (getFocusPresets d)
  /\ fst (getFocusPresets (snd (deleteFocusPreset "custom-7" d)))
     = Returned DEFAULT_PRESETS.
Proof.
  cbv zeta. split; [|reflexivity].
  destruct (deleteFocusPreset_spares_builtins "pomodoro"
              (mkDevice (mkWorld (mkStorage (Holds None) (Holds None)
                                            (Holds None)) 0 0)
                        (Kept None)
                        (Holds (Some (Encoded
                           [mkFocusPreset "custom-7" "Reading" 40 false])))))
    as (_ & _ & H & _).
  apply H. repeat constructor. discriminate.
Defined.

(** Adding a preset and deleting it by its key: what is read afterwards
    is the built-in presets and the custom presets read before whose key
    differs from the new one.  The key is made of the clock reading
    alone, so a preset added earlier at the same reading goes with it;
    where no earlier custom preset has that key, the presets are again
    those read before the addition. *)
Theorem addFocusPreset_then_delete (name : string) (duration : Z) (d : Device) :
  let key := ("custom-" ++ toString (clockAt (ticks (world d))))%string in
  let added := snd (addFocusPreset clockAt name duration d) in
  let d' := snd (deleteFocusPreset key added) in
  let customs := customsOf (focus_presets d) in
  fst (getFocusPresets d')
  = Returned (DEFAULT_PRESETS
              ++ filter (fun p => negb (String.eqb (presetKey p) key)) customs)
  /\ (Forall (fun p => presetKey p <> key) customs ->
      fst (getFocusPresets d') = fst (getFocusPresets d)).
Proof.
  cbv zeta. rewrite addFocusPreset_returns. cbn [snd].
  rewrite deleteFocusPreset_returns. cbn [snd focus_presets].
  set (key := ("custom-" ++ toString (clockAt (ticks (world d))))%string).
  assert (customsOf
            (Holds (Some (Encoded
               (customsOf (focus_presets d) ++ [made d name duration]))))
          = customsOf (focus_presets d) ++ [made d name duration]) as Hc.
  { unfold customsOf at 1. cbn [SpecTerms.listOf].
    rewrite filter_app, filter_all_customs by apply customsOf_notDefault.
    reflexivity. }
  rewrite Hc, filter_app. cbn [filter made presetKey].
  fold key. rewrite String.eqb_refl. cbn [negb]. rewrite app_nil_r.
  assert (Forall (fun p => isDefault p = false)
                 (filter (fun p => negb (String.eqb (presetKey p) key))
                         (customsOf (focus_presets d)))) as Hkeep.
  { rewrite Forall_forall. intros p Hp. apply filter_In in Hp.
    destruct Hp as [Hp _].
    pose proof (customsOf_notDefault (focus_presets d)) as Hall.
    rewrite Forall_forall in Hall. now apply Hall. }
  rewrite !getFocusPresets_returns. cbn [fst focus_presets].
  rewrite (customsOf_stored _ Hkeep).
  split; [reflexivity|].
  intros Hnone. now rewrite filter_other_keys.
Qed.

End Presets.

Lemma addFocusPreset_then_delete_witness :
  let clockAt := fun n : nat => 500 + Z.of_nat n in
  let d := mkDevice (mkWorld (mkStorage (Holds None) (Holds None) (Holds None))
                             0 0)
                    (Kept None) (Holds None) in
  fst (getFocusPresets
         (snd (deleteFocusPreset "custom-500"
                 (snd (addFocusPreset clockAt "Reading" 40 d)))))
  = fst (getFocusPresets d).
Proof.
  cbv zeta.
  destruct (addFocusPreset_then_delete
              (fun n : nat => 500 + Z.of_nat n) "Reading" 40
              (mkDevice (mkWorld (mkStorage (Holds None) (Holds None)
                                            (Holds None)) 0 0)
                        (Kept None) (Holds None)))
    as (_ & H).
  apply H. constructor.
Defined.

(** ** Strings *)

Lemma append_assoc (a b c : string) :
  ((a ++ b) ++ c)%string = (a ++ (b ++ c))%string.
Proof. induction a as [|x a IH]; cbn; [reflexivity|now rewrite IH]. Qed.

Lemma append_empty_r (a : string) : (a ++ EmptyString)%string = a.
Proof. induction a as [|x a IH]; cbn; [reflexivity|now rewrite IH]. Qed.

Lemma startsWith_spec (s q : string) :
  startsWith s q = true <-> exists after, s = (q ++ after)%string.
Proof.
  revert s. induction q as [|a q IH]; intros s.
  - destruct s; cbn; split; intros _; eauto.
  - destruct s as [|b s]; cbn [startsWith].
    + split; [discriminate|]. intros (after & H). discriminate H.
    + rewrite andb_true_iff, IH. split.
      * intros (Hab & after & ->). apply Ascii.eqb_eq in Hab. subst.
        now exists after.
      * intros (after & H). cbn in H. injection H as -> ->.
        split; [apply Ascii.eqb_refl|now exists after].
Qed.

Lemma includes_spec (s q : string) :
  includes s q = true <-> occursIn q s.
Proof.
  unfold occursIn. induction s as [|b s IH].
  - cbn [includes]. rewrite orb_false_r, startsWith_spec. split.
    + intros (after & H). now exists EmptyString, after.
    + intros (before & after & H). destruct before; [now exists after|].
      discriminate H.
  - cbn [includes]. rewrite orb_true_iff, startsWith_spec, IH. split.
    + intros [(after & H)|(before & after & H)].
      * now exists EmptyString, after.
      * exists (String b before), after. cbn. now rewrite H.
    + intros (before & after & H). destruct before as [|x before].
      * left. now exists after.
      * right. cbn in H. injection H as -> ->. now exists before, after.
Qed.

Lemma isWhiteSpace_lowerUnit (c : ascii) :
  isWhiteSpace (lowerUnit c) = isWhiteSpace c.
Proof.
  destruct c as [[] [] [] [] [] [] [] []]; reflexivity.
Qed.

Lemma whitespaceOnly_toLowerCase (s : string) :
  whitespaceOnly (toLowerCase s) = whitespaceOnly s.
Proof.
  induction s as [|c s IH]; cbn; [reflexivity|].
  now rewrite isWhiteSpace_lowerUnit, IH.
Qed.

Lemma whitespaceOnly_append (a b : string) :
  whitespaceOnly (a ++ b) = whitespaceOnly a && whitespaceOnly b.
Proof.
  induction a as [|x a IH]; cbn; [reflexivity|].
  now rewrite IH, andb_assoc.
Qed.

(** ** Searching the journal *)

Lemma searchJournalEntries_returns (query : string) (w : World) :
  searchJournalEntries query w
  = (Returned
       (if whitespaceOnly query
        then listOf (journal_entries (storage w))
        else filter (fun entry => includes (toLowerCase (content entry))
                                           (toLowerCase query))
                    (listOf (journal_entries (storage w)))),
     w).
Proof.
  unfold searchJournalEntries, getJournalEntries, bind.
  rewrite getList_returns. cbn [cellOf JOURNAL_ENTRIES].
  rewrite nonEmpty_trim, negb_involutive.
  now destruct (whitespaceOnly query).
Qed.

(** A search returns without touching the store.  For a query that is
    empty or white space only it yields every entry; otherwise it yields,
    in stored order, exactly the entries whose text, case put aside,
    holds the query as it was typed, its leading and trailing white
    space included. *)
Theorem searchJournalEntries_finds (query : string) (w : World) :
  let entries := listOf (journal_entries (storage w)) in
  exists found keep,
    searchJournalEntries query w = (Returned found, w)
    /\ found = filter keep entries
    /\ (whitespaceOnly query = true -> found = entries)
    /\ (whitespaceOnly query = false ->
        forall e, In e found
                  <-> In e entries
                      /\ occursIn (toLowerCase query)
                                  (toLowerCase (content e))).
Proof.
  cbv zeta. rewrite searchJournalEntries_returns.
  destruct (whitespaceOnly query) eqn:E.
  - exists (listOf (journal_entries (storage w))), (fun _ => true).
    split; [reflexivity|].
    split.
    { induction (listOf (journal_entries (storage w))) as [|e l IH];
        [reflexivity|].
      cbn [filter]. now rewrite <- IH. }
    split; [reflexivity|]. intros H; discriminate H.
  - eexists. eexists. split; [reflexivity|]. split; [reflexivity|].
    split; [intros H; discriminate H|].
    intros _ e. rewrite filter_In, includes_spec. tauto.
Qed.

Lemma searchJournalEntries_finds_witness :
  let w := mkWorld (mkStorage (Holds None) (Holds None)
                      (Holds (Some (Encoded
                         [mkJournalEntry "1" 10 "Bored at Work" "a";
                          mkJournalEntry "2" 20 "tired" "b"])))) 0 0 in
  fst (searchJournalEntries "WORK" w)
  = Returned [mkJournalEntry "1" 10 "Bored at Work" "a"]
  /\ fst (searchJournalEntries "work " w) = Returned []
  /\ (In (mkJournalEntry "1" 10 "Bored at Work" "a")
         [mkJournalEntry "1" 10 "Bored at Work" "a"]
      -> occursIn (toLowerCase "WORK") (toLowerCase "Bored at Work")).
Proof.
  cbv zeta. split; [reflexivity|]. split; [reflexivity|].
  destruct (searchJournalEntries_finds "WORK"
              (mkWorld (mkStorage (Holds None) (Holds None)
                          (Holds (Some (Encoded
                             [mkJournalEntry "1" 10 "Bored at Work" "a";
                              mkJournalEntry "2" 20 "tired" "b"])))) 0 0))
    as (found & keep & Hret & Hfilter & _ & Hin).
  injection Hret as Hfound.
  intros He. rewrite Hfound in He.
  exact (proj2 (proj1 (Hin eq_refl _) He)).
Defined.

(** A search does not depend on the case of the query: two queries that
    differ in case only find the same entries. *)
Theorem searchJournalEntries_ignores_case (q1 q2 : string) (w : World) :
  toLowerCase q1 = toLowerCase q2 ->
  searchJournalEntries q1 w = searchJournalEntries q2 w.
Proof.
  intros H. rewrite !searchJournalEntries_returns, H.
  replace (whitespaceOnly q1) with (whitespaceOnly q2); [reflexivity|].
  now rewrite <- (whitespaceOnly_toLowerCase q1),
              <- (whitespaceOnly_toLowerCase q2), H.
Qed.

Lemma searchJournalEntries_ignores_case_witness :
  let w := mkWorld (mkStorage (Holds None) (Holds None)
                      (Holds (Some (Encoded
                         [mkJournalEntry "1" 10 "Bored at Work" "a"])))) 0 0 in
  toLowerCase "Work" = toLowerCase "wORK"
  /\ searchJournalEntries "Work" w = searchJournalEntries "wORK" w.
Proof.
  cbv zeta. split; [reflexivity|].
  apply (searchJournalEntries_ignores_case "Work" "wORK"
           (mkWorld (mkStorage (Holds None) (Holds None)
                       (Holds (Some (Encoded
                          [mkJournalEntry "1" 10 "Bored at Work" "a"]))))
                    0 0)).
  reflexivity.
Defined.

(** Extending a query never finds more, case put aside: when the
    lowercased shorter query occurs within the lowercased longer one,
    every entry the longer one finds the shorter one finds too.  The
    condition is on the lowercased queries, since lowercasing may change
    a letter with what follows it. *)
Theorem searchJournalEntries_narrows (shorter longer : string) (w : World) :
  occursIn (toLowerCase shorter) (toLowerCase longer) ->
  forall found1 found2 e,
    fst (searchJournalEntries shorter w) = Returned found1 ->
    fst (searchJournalEntries longer w) = Returned found2 ->
    In e found2 -> In e found1.
Proof.
  intros (before & after & Hq) found1 found2 e.
  rewrite !searchJournalEntries_returns. cbn [fst].
  intros H1 H2. injection H1 as <-. injection H2 as <-.
  assert (whitespaceOnly longer = true -> whitespaceOnly shorter = true)
    as Hblank.
  { rewrite <- (whitespaceOnly_toLowerCase longer),
            <- (whitespaceOnly_toLowerCase shorter).
    rewrite Hq, !whitespaceOnly_append, !andb_true_iff. tauto. }
  destruct (whitespaceOnly shorter) eqn:E1.
  - destruct (whitespaceOnly longer); [tauto|].
    rewrite filter_In. tauto.
  - destruct (whitespaceOnly longer); [now discriminate Hblank|].
    rewrite !filter_In, !includes_spec.
    intros (Hin & x & y & Hx). split; [exact Hin|].
    exists (x ++ before)%string, (after ++ y)%string.
    rewrite Hx, Hq, !append_assoc. reflexivity.
Qed.

Lemma searchJournalEntries_narrows_witness :
  let w := mkWorld (mkStorage (Holds None) (Holds None)
                      (Holds (Some (Encoded
                         [mkJournalEntry "1" 10 "Bored at Work" "a"])))) 0 0 in
  occursIn (toLowerCase "OR") (toLowerCase "Work")
  /\ In (mkJournalEntry "1" 10 "Bored at Work" "a")
        [mkJournalEntry "1" 10 "Bored at Work" "a"].
Proof.
  cbv zeta.
  assert (occursIn (toLowerCase "OR") (toLowerCase "Work")) as Hocc.
  { exists "w"%string, "k"%string. reflexivity. }
  split; [exact Hocc|].
  apply (searchJournalEntries_narrows "OR" "Work"
           (mkWorld (mkStorage (Holds None) (Holds None)
                       (Holds (Some (Encoded
                          [mkJournalEntry "1" 10 "Bored at Work" "a"])))) 0 0)
           Hocc
           [mkJournalEntry "1" 10 "Bored at Work" "a"]
           [mkJournalEntry "1" 10 "Bored at Work" "a"]).
  - reflexivity.
  - reflexivity.
  - now left.
Defined.

(** ** The daily pattern *)

Lemma logsWithin_split (a b c : Z) (logs : list RelapseLog) :
  a <= b <= c ->
  logsWithin a b logs + logsWithin b c logs = logsWithin a c logs.
Proof.
  intros H. induction logs as [|l logs IH]; [reflexivity|].
  rewrite !logsWithin_cons, <- IH. unfold inHalfOpen.
  destruct (Z.leb_spec a (timestamp l)), (Z.ltb_spec (timestamp l) b),
    (Z.leb_spec b (timestamp l)), (Z.ltb_spec (timestamp l) c);
    cbn [andb]; lia.
Qed.

Lemma logsWithin_empty (a : Z) (logs : list RelapseLog) :
  logsWithin a a logs = 0.
Proof.
  induction logs as [|l logs IH]; [reflexivity|].
  rewrite logsWithin_cons, IH. unfold inHalfOpen.
  destruct (Z.leb_spec a (timestamp l)), (Z.ltb_spec (timestamp l) a);
    cbn [andb]; lia.
Qed.

Section DailyPattern.
Variable z : TimeZone.
Variable now : Z.
Variable logs : list RelapseLog.

Lemma dailyLoop_entries (n : nat) (result : list DayCount) :
  dailyLoop z now logs n result
  = result ++ map (dayEntry z now logs) (countdown n).
Proof.
  revert result. unfold countdown.
  induction n as [|n IH]; intros result.
  - cbn. now rewrite app_nil_r.
  - cbn [dailyLoop]. rewrite IH, <- app_assoc. f_equal.
    rewrite seq_S, rev_app_distr. reflexivity.
Qed.

Lemma getDailyPattern_entries (days : Z) :
  getDailyPattern z now logs days
  = map (dayEntry z now logs) (countdown (Z.to_nat days)).
Proof. unfold getDailyPattern. now rewrite dailyLoop_entries. Qed.

Lemma dayEntry_count (i : Z) :
  dayCount (dayEntry z now logs i)
  = logsWithin (dateOf z (localDay z now - i))
               (dateOf z (localDay z now - i) + msPerDay) logs.
Proof. reflexivity. Qed.

Lemma dayEntry_label (i : Z) :
  date (dayEntry z now logs i)
  = weekdayName (localDay z (dateOf z (localDay z now - i)) + 4).
Proof.
  unfold dayEntry, weekdayName, getDay. cbn [date]. reflexivity.
Qed.

Lemma weekdayName_named (k : Z) : In (weekdayName k) dayNames.
Proof.
  unfold weekdayName. apply nth_In.
  pose proof (Z.mod_pos_bound k 7 eq_refl). cbn [List.length dayNames]. lia.
Qed.

(** The daily pattern has one entry per day asked for, none for a
    number of days below 1; its last entry counts what
    [getTodayRelapseCount] counts; every entry carries one of the seven
    weekday names and a count between 0 and the number of logs. *)
Theorem getDailyPattern_shape (days : Z) :
  let pattern := getDailyPattern z now logs days in
  List.length pattern = Z.to_nat days
  /\ (1 <= days ->
      exists earlier today,
        pattern = earlier ++ [today]
        /\ dayCount today = getTodayRelapseCount z now logs)
  /\ Forall (fun entry =>
               In (date entry) dayNames
               /\ 0 <= dayCount entry <= Z.of_nat (List.length logs))
            pattern.
Proof.
  cbv zeta. rewrite getDailyPattern_entries.
  split; [|split].
  - unfold countdown. now rewrite !length_map, length_rev, length_seq.
  - intros Hdays. destruct (Z.to_nat days) as [|n] eqn:E; [lia|].
    unfold countdown. cbn [seq]. rewrite <- seq_shift.
    cbn [rev]. rewrite !map_app. cbn [map Z.of_nat].
    eexists. eexists. split; [reflexivity|].
    rewrite dayEntry_count, Z.sub_0_r. reflexivity.
  - apply Forall_forall. intros entry Hentry.
    apply in_map_iff in Hentry. destruct Hentry as (i & <- & _).
    split.
    + rewrite dayEntry_label. apply weekdayName_named.
    + rewrite dayEntry_count. apply logsWithin_bounds.
Qed.

End DailyPattern.

Lemma getDailyPattern_shape_witness :
  exists earlier today,
    getDailyPattern utc 0 [logAt 5; logAt (- 5)] 7 = earlier ++ [today]
    /\ dayCount today = getTodayRelapseCount utc 0 [logAt 5; logAt (- 5)].
Proof.
  apply (getDailyPattern_shape utc 0 [logAt 5; logAt (- 5)] 7). lia.
Defined.

(** Where the offset from UTC never changes, the counts of the daily
    pattern add up to the number of logs from the midnight that starts
    the oldest day shown to the midnight that ends today: each such log
    is counted on one day and one day only, and no other log is
    counted. *)
Theorem getDailyPattern_partition
  (offset now : Z) (logs : list RelapseLog) (days : Z) :
  let fz := fixedZone offset in
  let today := localDay fz now in
  sumZ (map dayCount (getDailyPattern fz now logs days))
  = logsWithin (dateOf fz (today + 1 - Z.max 0 days))
               (dateOf fz (today + 1)) logs.
Proof.
  cbv zeta. rewrite getDailyPattern_entries.
  replace (Z.max 0 days) with (Z.of_nat (Z.to_nat days)) by lia.
  unfold countdown.
  induction (Z.to_nat days) as [|n IH].
  - cbn [seq rev map sumZ fold_right Z.of_nat].
    rewrite Z.sub_0_r. now rewrite logsWithin_empty.
  - rewrite seq_S, rev_app_distr. cbn [rev app map Nat.add].
    change (sumZ (?x :: ?l)) with (x + sumZ l).
    rewrite IH, dayEntry_count, !fixed_dateOf.
    set (today := localDay (fixedZone offset) now).
    replace ((today - Z.of_nat n) * msPerDay - offset + msPerDay)
      with ((today + 1 - Z.of_nat n) * msPerDay - offset) by lia.
    replace (today + 1 - Z.of_nat (S n)) with (today - Z.of_nat n) by lia.
    apply logsWithin_split. pose proof msPerDay_pos. nia.
Qed.

(** Where the offset never changes, the labels of the daily pattern are
    the names of successive weekdays: the entry for [i] days ago carries
    the name of the weekday [i] days before today's, so the last label is
    today's weekday. *)
Theorem getDailyPattern_weekdays
  (offset now : Z) (logs : list RelapseLog) (days : Z) :
  let fz := fixedZone offset in
  map date (getDailyPattern fz now logs days)
  = map (fun i => weekdayName (getDay fz now - i))
        (countdown (Z.to_nat days)).
Proof.
  cbv zeta. rewrite getDailyPattern_entries, map_map.
  apply map_ext. intros i. rewrite dayEntry_label, fixed_localDay_dateOf.
  unfold weekdayName, getDay.
  rewrite Zminus_mod_idemp_l. do 3 f_equal. lia.
Qed.

(** ** The hourly pattern, whole *)

Lemma sumZ_app (a b : list Z) : sumZ (a ++ b) = sumZ a + sumZ b.
Proof.
  induction a as [|x a IH]; [reflexivity|].
  cbn [app]. change (sumZ (x :: ?l)) with (x + sumZ l). rewrite IH. lia.
Qed.

Lemma bump_sum (i : nat) (l : list Z) :
  (i < List.length l)%nat -> sumZ (bump i l) = sumZ l + 1.
Proof.
  revert i. induction l as [|c l IH]; intros i Hi; [cbn in Hi; lia|].
  destruct i as [|i]; cbn [bump];
    change (sumZ (?x :: ?t)) with (x + sumZ t).
  - lia.
  - rewrite IH by (cbn in Hi; lia). lia.
Qed.

Lemma hourCountsOf_sum (z : TimeZone) (logs : list RelapseLog) :
  sumZ (hourCountsOf z logs) = Z.of_nat (List.length logs).
Proof.
  unfold hourCountsOf.
  assert (forall acc,
             List.length acc = 24%nat ->
             sumZ (fold_left
                     (fun hourCounts log =>
                        bump (Z.to_nat (getHours z (timestamp log)))
                             hourCounts)
                     logs acc)
             = sumZ acc + Z.of_nat (List.length logs)) as H.
  { induction logs as [|l logs IH]; intros acc Hacc.
    - cbn [fold_left List.length Z.of_nat]. lia.
    - cbn [fold_left]. rewrite IH by now rewrite bump_length.
      rewrite bump_sum.
      + cbn [List.length]. lia.
      + pose proof (getHours_range z (timestamp l)). lia. }
  rewrite H by reflexivity. reflexivity.
Qed.

Lemma mapIndexed_counts (l : list Z) (from : Z) :
  map count (mapIndexed (fun count hour => mkHourCount hour count) from l) = l.
Proof.
  revert from. induction l as [|c l IH]; intros from; [reflexivity|].
  cbn [mapIndexed map count]. now rewrite IH.
Qed.

Lemma patternOf_hours (c : Z -> Z) (from : Z) (n : nat) :
  map hour (patternOf c from n) = map (fun k => from + Z.of_nat k) (seq 0 n).
Proof.
  revert from. induction n as [|n IH]; intros from; [reflexivity|].
  cbn [patternOf map hour seq]. rewrite IH, <- seq_shift, map_map.
  f_equal; [cbn; lia|]. apply map_ext. intros k. lia.
Qed.

(** The hourly pattern has the 24 hours 0 to 23 in order, its counts are
    not negative, and they add up to the number of logs: every log is
    counted in one hour and one hour only. *)
Theorem getHourlyPattern_whole (z : TimeZone) (logs : list RelapseLog) :
  map hour (getHourlyPattern z logs) = map Z.of_nat (seq 0 24)
  /\ sumZ (map count (getHourlyPattern z logs)) = Z.of_nat (List.length logs)
  /\ Forall (fun entry => 0 <= count entry) (getHourlyPattern z logs).
Proof.
  split; [|split].
  - rewrite getHourlyPattern_patternOf, patternOf_hours. reflexivity.
  - unfold getHourlyPattern. now rewrite mapIndexed_counts, hourCountsOf_sum.
  - rewrite getHourlyPattern_patternOf. apply Forall_forall.
    intros entry Hentry.
    assert (forall n from,
               0 <= from -> from + Z.of_nat n <= 24 ->
               In entry (patternOf (countAt (hourCountsOf z logs)) from n) ->
               0 <= count entry) as H.
    { induction n as [|n IH]; intros from Hfrom Hn Hin; [destruct Hin|].
      cbn [patternOf] in Hin. destruct Hin as [<-|Hin].
      - cbn [count]. rewrite hourCountsOf_count by lia.
        unfold countIf. lia.
      - apply (IH (from + 1)); [lia|lia|exact Hin]. }
    apply (H 24%nat 0); [lia|cbn; lia|exact Hentry].
Qed.

(** ** Risk windows: bounds *)

Lemma sumCounts_split (c : Z -> Z) (from : Z) (n m : nat) :
  sumCounts c from (n + m)
  = sumCounts c from n + sumCounts c (from + Z.of_nat n) m.
Proof.
  revert from. induction n as [|n IH]; intros from.
  - cbn [Nat.add sumCounts Z.of_nat]. now rewrite Z.add_0_r.
  - cbn [Nat.add sumCounts]. rewrite IH.
    replace (from + 1 + Z.of_nat n) with (from + Z.of_nat (S n)) by lia.
    lia.
Qed.

Lemma sumCounts_lower (c : Z -> Z) (bound from : Z) (n : nat) :
  (forall k, from <= k < from + Z.of_nat n -> bound <= c k) ->
  bound * Z.of_nat n <= sumCounts c from n.
Proof.
  revert from. induction n as [|n IH]; intros from H; [cbn; lia|].
  cbn [sumCounts].
  specialize (IH (from + 1) ltac:(intros k Hk; apply H; lia)).
  specialize (H from ltac:(lia)). lia.
Qed.

Lemma sumCounts_countAt (l : list Z) :
  sumCounts (countAt l) 0 (List.length l) = sumZ l.
Proof.
  assert (forall (l pre : list Z),
             sumCounts (countAt (pre ++ l)) (Z.of_nat (List.length pre))
                       (List.length l) = sumZ l) as H.
  { clear l. induction l as [|x l IH]; intros pre; [reflexivity|].
    cbn [List.length sumCounts].
    change (sumZ (x :: l)) with (x + sumZ l). f_equal.
    - unfold countAt. rewrite Nat2Z.id, nth_middle. reflexivity.
    - specialize (IH (pre ++ [x])).
      rewrite <- app_assoc, length_app in IH. cbn [app List.length] in IH.
      replace (Z.of_nat (List.length pre) + 1)
        with (Z.of_nat (List.length pre + 1)) by lia.
      exact IH. }
  exact (H l []).
Qed.

Lemma ascending_apart (l : list Window) (a b : Window) :
  ascending l -> In a l -> In b l ->
  a = b \/ end_ a < start b \/ end_ b < start a.
Proof.
  unfold ascending. induction l as [|x l IH]; intros Hs Ha Hb; [destruct Ha|].
  inversion Hs as [|? ? Hl Hx]; subst. rewrite Forall_forall in Hx.
  destruct Ha as [<-|Ha], Hb as [<-|Hb]; auto.
Qed.

(** Windows in ascending order that lie within the hours from [lo] to
    [hi] and carry the sums of their hours do not add up to more than
    all the hours from [lo] to [hi] do. *)
Lemma ascending_sum (c : Z -> Z) (hi : Z) :
  (forall k, 0 <= k < hi -> 0 <= c k) ->
  forall (l : list Window) (lo : Z),
    0 <= lo <= hi ->
    ascending l ->
    Forall (fun w => lo <= start w < end_ w /\ end_ w <= hi
                     /\ count_ w
                        = sumCounts c (start w)
                                    (Z.to_nat (end_ w - start w))) l ->
    sumZ (map count_ l) <= sumCounts c lo (Z.to_nat (hi - lo)).
Proof.
  intros Hpos.
  assert (forall from n, 0 <= from -> from + Z.of_nat n <= hi ->
                         0 <= sumCounts c from n) as Hnonneg.
  { intros from n Hfrom Hn.
    pose proof (sumCounts_lower c 0 from n
                  ltac:(intros k Hk; apply Hpos; lia)). lia. }
  unfold ascending. induction l as [|w l IH]; intros lo Hlo Hs Hall.
  - cbn. apply Hnonneg; lia.
  - inversion Hs as [|? ? Hl Hw]; subst.
    inversion Hall as [|? ? (Hstart & Hend & Hsum) Hrest]; subst.
    cbn [map]. change (sumZ (?x :: ?t)) with (x + sumZ t).
    assert (sumZ (map count_ l)
            <= sumCounts c (end_ w) (Z.to_nat (hi - end_ w))) as Hlater.
    { apply IH; [lia|exact Hl|].
      rewrite Forall_forall in *. intros b Hb.
      destruct (Hrest b Hb) as (Hb1 & Hb2 & Hb3). specialize (Hw b Hb).
      repeat split; try assumption; lia. }
    replace (Z.to_nat (hi - lo))
      with (Z.to_nat (start w - lo)
            + (Z.to_nat (end_ w - start w) + Z.to_nat (hi - end_ w)))%nat
      by lia.
    rewrite !sumCounts_split, Hsum.
    replace (lo + Z.of_nat (Z.to_nat (start w - lo))) with (start w) by lia.
    replace (start w + Z.of_nat (Z.to_nat (end_ w - start w)))
      with (end_ w) by lia.
    pose proof (Hnonneg lo (Z.to_nat (start w - lo)) ltac:(lia) ltac:(lia)).
    lia.
Qed.

Lemma sumZ_perm (a b : list Z) : Permutation a b -> sumZ a = sumZ b.
Proof.
  induction 1 as [|x a b _ IH|x y a|a b c _ IH1 _ IH2];
    try change (sumZ (?x :: ?t)) with (x + sumZ t);
    try (cbn; lia); congruence.
Qed.

(** The bounds of the risk windows, in the form later proofs use. *)
Lemma getRiskWindows_bounds_facts (z : TimeZone) (logs : list RelapseLog) :
  let windows := getRiskWindows z logs in
  (forall w, In w windows ->
             0 <= start w < end_ w /\ end_ w <= 24
             /\ 2 * (end_ w - start w) <= count_ w)
  /\ (forall a b, In a windows -> In b windows ->
                  a = b \/ end_ a < start b \/ end_ b < start a)
  /\ sumZ (map count_ windows) <= Z.of_nat (List.length logs)
  /\ ((List.length logs < 2)%nat -> windows = []).
Proof.
  cbv zeta. rewrite getRiskWindows_sorted_scan.
  set (c := countAt (hourCountsOf z logs)).
  set (avg := averageOf (List.length logs)).
  assert (Z.of_nat (List.length logs) = sumCounts c 0 24) as Hn.
  { rewrite <- (hourCountsOf_sum z logs).
    rewrite <- (sumCounts_countAt (hourCountsOf z logs)).
    now rewrite (hourCountsOf_length z logs). }
  assert (forall k, 0 <= k < 24 -> 0 <= c k) as Hpos.
  { intros k Hk. unfold c. rewrite hourCountsOf_count by lia.
    unfold countIf. lia. }
  set (found := scanWindows avg (patternOf c 0 24)).
  destruct (scanWindows_runs avg c 24) as (Hruns & _ & Hasc).
  fold found in Hruns, Hasc.
  change (Z.of_nat 24) with 24 in Hruns.
  clearbody found c avg.
  assert (forall w, In w found ->
                    0 <= start w < end_ w /\ end_ w <= 24
                    /\ 2 * (end_ w - start w) <= count_ w
                    /\ count_ w = sumCounts c (start w)
                                            (Z.to_nat (end_ w - start w)))
    as Hfound.
  { intros w Hw. destruct (Hruns w Hw) as ((H1 & H2 & _ & H4) & (_ & H5 & _)).
    split; [exact H1|]. split; [exact H5|]. split; [|exact H4].
    rewrite H4.
    pose proof (sumCounts_lower c 2 (start w)
                  (Z.to_nat (end_ w - start w))) as Hlow.
    replace (Z.of_nat (Z.to_nat (end_ w - start w)))
      with (end_ w - start w) in Hlow by lia.
    apply Hlow. intros k Hk.
    specialize (H2 k ltac:(lia)). cbv beta in H2. unfold elevated in H2.
    destruct (andb_prop _ _ H2) as [_ Hle].
    exact (proj1 (Z.leb_le 2 (c k)) Hle). }
  assert (sumZ (map count_ found) <= Z.of_nat (List.length logs)) as Hsum.
  { assert (Forall (fun w => 0 <= start w < end_ w /\ end_ w <= 24
                             /\ count_ w
                                = sumCounts c (start w)
                                            (Z.to_nat (end_ w - start w)))
                   found) as Hall.
    { apply Forall_forall. intros w Hw.
      destruct (Hfound w Hw) as (H1 & H2 & _ & H4).
      split; [exact H1|split; [exact H2|exact H4]]. }
    rewrite Hn.
    exact (ascending_sum c 24 Hpos found 0 ltac:(lia) Hasc Hall). }
  pose proof (sort_perm count_ found) as Hperm.
  split; [|split; [|split]].
  - intros w Hw. pose proof (proj1 (sort_In count_ found w) Hw) as Hw'.
    destruct (Hfound w Hw') as (H1 & H2 & H3 & _).
    split; [exact H1|split; [exact H2|exact H3]].
  - intros a b Ha Hb.
    pose proof (proj1 (sort_In count_ found a) Ha) as Ha'.
    pose proof (proj1 (sort_In count_ found b) Hb) as Hb'.
    exact (ascending_apart found a b Hasc Ha' Hb').
  - rewrite (sumZ_perm _ _ (Permutation_map count_ Hperm)). exact Hsum.
  - intros Hfew.
    destruct found as [|w rest]; [reflexivity|].
    exfalso.
    destruct (Hfound w ltac:(now left)) as (H1 & _ & H3 & _).
    assert (0 <= sumZ (map count_ rest)) as Hrest.
    { assert (forall x, In x rest -> 0 <= count_ x) as Hx.
      { intros x Hin. destruct (Hfound x ltac:(now right)) as (? & _ & ? & _).
        lia. }
      clear - Hx.
      induction rest as [|x rest IH]; [cbn; lia|].
      cbn [map]. change (sumZ (?a :: ?t)) with (a + sumZ t).
      pose proof (Hx x ltac:(now left)).
      assert (0 <= sumZ (map count_ rest))
        by (apply IH; intros y Hy; apply Hx; now right).
      lia. }
    cbn [map] in Hsum. change (sumZ (?a :: ?t)) with (a + sumZ t) in Hsum.
    lia.
Qed.

(** Every risk window lies within the day and holds at least two logs
    for each of its hours; two different windows are apart by at least
    one hour; the counts of all windows together do not exceed the
    number of logs; and fewer than two logs give no window at all. *)
Theorem getRiskWindows_bounds (z : TimeZone) (logs : list RelapseLog) :
  let windows := getRiskWindows z logs in
  (forall w, In w windows ->
             0 <= start w < end_ w /\ end_ w <= 24
             /\ 2 * (end_ w - start w) <= count_ w)
  /\ (forall a b, In a windows -> In b windows ->
                  a = b \/ end_ a < start b \/ end_ b < start a)
  /\ sumZ (map count_ windows) <= Z.of_nat (List.length logs)
  /\ ((List.length logs < 2)%nat -> windows = []).
Proof.
  exact (getRiskWindows_bounds_facts z logs).
Qed.

Lemma getRiskWindows_bounds_witness :
  getRiskWindows utc [logAt 5] = []
  /\ (forall w, In w (getRiskWindows utc logsAtTwoAndThree) ->
                2 * (end_ w - start w) <= count_ w).
Proof.
  split.
  - destruct (getRiskWindows_bounds utc [logAt 5]) as (_ & _ & _ & H).
    apply H. cbn. lia.
  - intros w Hw.
    now destruct (proj1 (getRiskWindows_bounds utc logsAtTwoAndThree) w Hw)
      as (_ & _ & H).
Defined.

(** ** The home screen *)

Module H := HomeScreenRest.

Lemma loadData_returns
  (z : TimeZone) (nowStreak nowToday nowHour : Z) (s : H.State) (d : Device) :
  let logs := listOf (relapse_logs (storage (world d))) in
  let windows := getRiskWindows z logs in
  H.loadData z nowStreak nowToday nowHour s d
  = (Returned
       (H.mkState logs (Some (settingsOf (settings_item d)))
          (getCurrentStreak z nowStreak logs)
          (getTodayRelapseCount z nowToday logs)
          (if 0 <? Z.of_nat (List.length windows)
           then match H.upcomingRisk windows (getHours z nowHour) with
                | Some w => Some (H.warningText w)
                | None => None
                end
           else H.riskWarning s)),
     d).
Proof.
  cbv zeta. destruct d as [w si fp].
  unfold H.loadData, bindD, onWorld, getRelapseLogs.
  rewrite getList_returns, getSettings_returns. reflexivity.
Qed.

(** The risk warning after a load.  With no risk window the warning is
    left as it was before the load, cleared or not.  Otherwise it names
    the window whose hours, extended by the one hour before its start,
    hold the current hour; there is at most one such window, so the order
    of the windows does not matter; and it is cleared when there is none.
    The hour before is [start - 1] as a number: at hour 23 a window that
    starts at 0 does not count as coming. *)
Theorem loadData_risk_warning
  (z : TimeZone) (nowStreak nowToday nowHour : Z) (s : H.State) (d : Device) :
  let windows :=
    getRiskWindows z (listOf (relapse_logs (storage (world d)))) in
  let currentHour := getHours z nowHour in
  exists s',
    fst (H.loadData z nowStreak nowToday nowHour s d) = Returned s'
    /\ (windows = [] -> H.riskWarning s' = H.riskWarning s)
    /\ (windows <> [] ->
        (forall w, In w windows ->
                   start w - 1 <= currentHour < end_ w ->
                   H.riskWarning s' = Some (H.warningText w))
        /\ ((forall w, In w windows ->
                       ~ start w - 1 <= currentHour < end_ w) ->
            H.riskWarning s' = None)).
Proof.
  cbv zeta. rewrite loadData_returns. cbn [fst].
  eexists. split; [reflexivity|]. cbn [H.riskWarning].
  set (windows := getRiskWindows z (listOf (relapse_logs (storage (world d))))).
  pose proof (proj1 (proj2 (getRiskWindows_bounds_facts z
                 (listOf (relapse_logs (storage (world d))))))) as Hapart.
  cbv zeta in Hapart. fold windows in Hapart. clearbody windows.
  set (hour := getHours z nowHour). clearbody hour.
  split.
  { intros ->. reflexivity. }
  intros Hne.
  replace (0 <? Z.of_nat (List.length windows)) with true
    by (symmetry; apply Z.ltb_lt; destruct windows; [congruence|cbn; lia]).
  assert (forall w, In w windows -> start w - 1 <= hour < end_ w ->
                    H.upcomingRisk windows hour = Some w) as Hunique.
  { intros w Hw Hhour. unfold H.upcomingRisk.
    destruct (find _ windows) as [w0|] eqn:E.
    - apply find_some in E. destruct E as [Hw0 Hmatch].
      apply andb_prop in Hmatch. destruct Hmatch as [Hlo Hhi].
      apply Z.leb_le in Hlo. apply Z.ltb_lt in Hhi.
      destruct (Hapart w w0 Hw Hw0) as [->|[Hlt|Hlt]];
        [reflexivity|lia|lia].
    - pose proof (find_none _ _ E w Hw) as Hno. cbv beta in Hno.
      apply andb_false_iff in Hno.
      destruct Hno as [Hno|Hno];
        [apply Z.leb_gt in Hno|apply Z.ltb_ge in Hno]; lia. }
  split.
  - intros w Hw Hhour. now rewrite (Hunique w Hw Hhour).
  - intros Hnone. unfold H.upcomingRisk.
    destruct (find _ windows) as [w0|] eqn:E; [|reflexivity].
    apply find_some in E. destruct E as [Hw0 Hmatch].
    apply andb_prop in Hmatch. destruct Hmatch as [Hlo Hhi].
    apply Z.leb_le in Hlo. apply Z.ltb_lt in Hhi.
    exfalso. apply (Hnone w0 Hw0). lia.
Qed.

Lemma loadData_risk_warning_witness :
  let d := mkDevice (mkWorld (mkStorage
                                (Holds (Some (Encoded logsAtTwoAndThree)))
                                (Holds None) (Holds None)) 0 0)
                    (Kept None) (Holds None) in
  fst (H.loadData utc 0 0 msPerHour H.initial d)
  = Returned (H.mkState logsAtTwoAndThree (Some DEFAULT_SETTINGS)
                        0 10 (Some "High risk: 2 AM - 4 AM"%string))
  /\ (forall s', fst (H.loadData utc 0 0 msPerHour H.initial d) = Returned s' ->
                 H.riskWarning s' = Some (H.warningText (mkWindow 2 4 10))).
Proof.
  cbv zeta. split; [vm_compute; reflexivity|].
  intros s' Hs'.
  destruct (loadData_risk_warning utc 0 0 msPerHour H.initial
              (mkDevice (mkWorld (mkStorage
                                    (Holds (Some (Encoded logsAtTwoAndThree)))
                                    (Holds None) (Holds None)) 0 0)
                        (Kept None) (Holds None)))
    as (s0 & Hs0 & _ & Hsome).
  rewrite Hs' in Hs0. injection Hs0 as <-.
  assert (getRiskWindows utc logsAtTwoAndThree = [mkWindow 2 4 10]) as E
    by (vm_compute; reflexivity).
  cbn [world storage relapse_logs listOf] in Hsome. rewrite E in Hsome.
  destruct (Hsome ltac:(discriminate)) as (Hw & _).
  apply (Hw (mkWindow 2 4 10)); [now left|].
  vm_compute. split; [discriminate|reflexivity].
Defined.

(** The Settings button after a load: pressing it is refused exactly
    when the stored settings say the first setup is over and the streak
    computed from the stored logs is below the stored threshold, which is
    exactly when the button is drawn as locked.  Before the first load,
    with no settings yet, a press goes through and the focus button does
    nothing. *)
Theorem loadData_settings_gate
  (z : TimeZone) (nowStreak nowToday nowHour : Z) (s : H.State) (d : Device) :
  let logs := listOf (relapse_logs (storage (world d))) in
  let stored := settingsOf (settings_item d) in
  exists s',
    fst (H.loadData z nowStreak nowToday nowHour s d) = Returned s'
    /\ (H.handleSettings s' = None
        <-> isFirstSetup stored = false
            /\ getCurrentStreak z nowStreak logs < unlockThreshold stored)
    /\ (H.handleSettings s' = None
        <-> HomeScreen.toBoolean
              (HomeScreen.isSettingsLocked (H.settings s') (H.streak s'))
            = true)
    /\ (H.handleSettings s' = None \/ H.handleSettings s' = Some H.ToSettings)
    /\ H.handleStartFocus s' = Some (H.ToFocusSession (focusDuration stored))
    /\ H.handleSettings H.initial = Some H.ToSettings
    /\ H.handleStartFocus H.initial = None.
Proof.
  cbv zeta. rewrite loadData_returns. cbn [fst].
  eexists. split; [reflexivity|].
  unfold H.handleSettings, H.handleStartFocus, HomeScreen.isSettingsLocked,
    HomeScreen.toBoolean.
  cbn [H.settings H.streak H.initial].
  destruct (isFirstSetup (settingsOf (settings_item d))); cbn [negb andb].
  - repeat split; try discriminate; auto.
    intros [Hf _]. discriminate Hf.
  - destruct (Z.ltb_spec
                (getCurrentStreak z nowStreak
                   (listOf (relapse_logs (storage (world d)))))
                (unlockThreshold (settingsOf (settings_item d)))).
    + repeat split; auto.
    + repeat split; try discriminate; auto. intros [_ Hlt]. lia.
Qed.

(** After [resetAllData] every collection reads as empty, the settings
    read as the defaults and the presets as the built-in ones; a load of
    the home screen then shows no logs, streak 0, nothing today and an
    open Settings button, whatever was stored before, and leaves the risk
    warning of the screen as it was. *)
Theorem resetAllData_restores_defaults (d : Device) :
  let d0 := snd (resetAllData d) in
  fst (resetAllData d) = Returned tt
  /\ getRelapseLogs (world d0) = (Returned [], world d0)
  /\ getFocusSessions (world d0) = (Returned [], world d0)
  /\ getJournalEntries (world d0) = (Returned [], world d0)
  /\ getSettings d0 = (Returned DEFAULT_SETTINGS, d0)
  /\ getFocusPresets d0 = (Returned DEFAULT_PRESETS, d0)
  /\ (forall z nowStreak nowToday nowHour s,
        H.loadData z nowStreak nowToday nowHour s d0
        = (Returned (H.mkState [] (Some DEFAULT_SETTINGS) 0 0
                               (H.riskWarning s)), d0))
  /\ (forall warning,
        H.handleSettings (H.mkState [] (Some DEFAULT_SETTINGS) 0 0 warning)
        = Some H.ToSettings).
Proof.
  cbv zeta. unfold resetAllData. cbn [fst snd world].
  repeat split.
Qed.

(** ** Logging a relapse *)

Lemma logsWithin_app (lo hi : Z) (a b : list RelapseLog) :
  logsWithin lo hi (a ++ b) = logsWithin lo hi a + logsWithin lo hi b.
Proof.
  induction a as [|l a IH]; [cbn [app]; rewrite logsWithin_nil; lia|].
  cbn [app]. rewrite !logsWithin_cons, IH. lia.
Qed.

Lemma getTodayRelapseCount_interval_facts (z : TimeZone) (now : Z) :
  (forall logs,
     getTodayRelapseCount z now logs
     = logsWithin (dateOf z (localDay z now))
                  (dateOf z (localDay z now) + 24 * msPerHour) logs)
  /\ (forall lo hi a b,
        logsWithin lo hi (a ++ b) = logsWithin lo hi a + logsWithin lo hi b).
Proof. split; [reflexivity|apply logsWithin_app]. Qed.

Section Logging.
Variable clockAt : nat -> Z.
Variable randomAt : nat -> string.

(** What [addRelapseLog] stores, in the form later proofs use. *)
Lemma addRelapseLog_appends_facts
  (action : ActionType) (journal : option string) (w : World) :
  let newLog := loggedIn clockAt randomAt w action journal in
  let w' := snd (addRelapseLog clockAt randomAt action journal w) in
  fst (addRelapseLog clockAt randomAt action journal w) = Returned newLog
  /\ listOf (relapse_logs (storage w'))
     = listOf (relapse_logs (storage w)) ++ [newLog]
  /\ focus_sessions (storage w') = focus_sessions (storage w)
  /\ (forall text,
        journal = Some text -> text <> EmptyString ->
        exists entry,
          listOf (journal_entries (storage w'))
          = listOf (journal_entries (storage w)) ++ [entry]
          /\ relapseLogId entry = id newLog
          /\ content entry = text)
  /\ (journal = None \/ journal = Some EmptyString ->
      journal_entries (storage w') = journal_entries (storage w)).
Proof.
  cbv zeta. unfold loggedIn.
  destruct journal as [[|c text]|].
  - cbv [bind ret setItem freshId Date_now Math_random_suffix addRelapseLog
         getRelapseLogs truthy].
    rewrite getList_returns. cbn.
    split; [reflexivity|]. split; [reflexivity|]. split; [reflexivity|].
    split; [|reflexivity].
    intros text Ht Hne. injection Ht as <-. contradiction.
  - cbv [bind ret setItem freshId Date_now Math_random_suffix addRelapseLog
         getRelapseLogs addJournalEntry getJournalEntries truthy].
    rewrite getList_returns. cbn. rewrite getList_returns. cbn.
    split; [reflexivity|]. split; [reflexivity|]. split; [reflexivity|].
    split.
    + intros text' Ht _. injection Ht as <-.
      eexists. split; [reflexivity|]. split; reflexivity.
    + intros [H|H]; discriminate H.
  - cbv [bind ret setItem freshId Date_now Math_random_suffix addRelapseLog
         getRelapseLogs truthy].
    rewrite getList_returns. cbn.
    split; [reflexivity|]. split; [reflexivity|]. split; [reflexivity|].
    split; [|reflexivity].
    intros text Ht. discriminate Ht.
Qed.

(** [addRelapseLog], whatever the action: one log is appended to the
    stored logs and returned, focus sessions are untouched, and a journal
    entry that points to the log is appended exactly when a text that is
    not empty is passed; an empty text is kept in the log but makes no
    journal entry.  Logs or entries that could not be read are replaced
    by the new record alone. *)
Theorem addRelapseLog_appends
  (action : ActionType) (journal : option string) (w : World) :
  let newLog := loggedIn clockAt randomAt w action journal in
  let w' := snd (addRelapseLog clockAt randomAt action journal w) in
  fst (addRelapseLog clockAt randomAt action journal w) = Returned newLog
  /\ listOf (relapse_logs (storage w'))
     = listOf (relapse_logs (storage w)) ++ [newLog]
  /\ focus_sessions (storage w') = focus_sessions (storage w)
  /\ (forall text,
        journal = Some text -> text <> EmptyString ->
        exists entry,
          listOf (journal_entries (storage w'))
          = listOf (journal_entries (storage w)) ++ [entry]
          /\ relapseLogId entry = id newLog
          /\ content entry = text)
  /\ (journal = None \/ journal = Some EmptyString ->
      journal_entries (storage w') = journal_entries (storage w)).
Proof.
  exact (addRelapseLog_appends_facts action journal w).
Qed.

(** Confirming an action other than "writing" stores one log with that
    action and no journal text and never a journal entry, whatever text
    the screen holds; confirming with no action selected stores
    nothing. *)
Theorem handleComplete_other_actions (s : R.State) (w : World) :
  (forall a,
     R.selectedAction s = Some a -> a <> writing ->
     let w' := snd (R.handleComplete clockAt randomAt s w) in
     fst (R.handleComplete clockAt randomAt s w) = Returned tt
     /\ listOf (relapse_logs (storage w'))
        = listOf (relapse_logs (storage w))
          ++ [loggedIn clockAt randomAt w a None]
     /\ journal_entries (storage w') = journal_entries (storage w)
     /\ focus_sessions (storage w') = focus_sessions (storage w))
  /\ (R.selectedAction s = None ->
      R.handleComplete clockAt randomAt s w = (Returned tt, w)).
Proof.
  split.
  - intros a Hsel Hother. cbv zeta. unfold R.handleComplete. rewrite Hsel.
    assert (R.journalOf a (R.journalText s) = None) as ->.
    { unfold R.journalOf. destruct a; try reflexivity. contradiction. }
    destruct (addRelapseLog_appends_facts a None w) as (Hret & Hlogs & Hfocus & _ & Hj).
    destruct (addRelapseLog clockAt randomAt a None w) as [r w1] eqn:E.
    cbn [fst snd] in *. subst r.
    assert (bind (addRelapseLog clockAt randomAt a None) (fun _ => ret tt) w
            = (Returned tt, w1)) as ->.
    { unfold bind. now rewrite E. }
    cbn [fst snd].
    split; [reflexivity|]. split; [exact Hlogs|].
    split; [apply Hj; now left|exact Hfocus].
  - intros Hsel. unfold R.handleComplete. now rewrite Hsel.
Qed.

(** Logging a relapse and the figures of the home screen: once a log is
    added at a clock reading no stored log postdates, the streak read on
    the calendar day of that reading is 0, and the count of today is one
    more than before when the reading lies in today's 24 hours. *)
Theorem addRelapseLog_resets_streak
  (z : TimeZone) (now : Z) (action : ActionType) (journal : option string)
  (w : World) :
  let logged := clockAt (S (ticks w)) in
  let before := listOf (relapse_logs (storage w)) in
  let after :=
    listOf (relapse_logs
              (storage (snd (addRelapseLog clockAt randomAt action journal w)))) in
  Forall (fun l => timestamp l <= logged) before ->
  (localDay z logged = localDay z now -> getCurrentStreak z now after = 0)
  /\ (dateOf z (localDay z now) <= logged
      < dateOf z (localDay z now) + 24 * msPerHour ->
      getTodayRelapseCount z now after = getTodayRelapseCount z now before + 1).
Proof.
  cbv zeta. intros Hpast.
  destruct (addRelapseLog_appends_facts action journal w) as (_ & Hlogs & _).
  cbv zeta in Hlogs. rewrite Hlogs.
  set (newLog := loggedIn clockAt randomAt w action journal).
  assert (timestamp newLog = clockAt (S (ticks w))) as Hts by reflexivity.
  split.
  - intros Hday.
    apply (getCurrentStreak_same_day z now _ newLog).
    + split; [apply in_or_app; right; now left|].
      intros l Hl. apply in_app_or in Hl. destruct Hl as [Hl|[<-|[]]].
      * rewrite Forall_forall in Hpast. rewrite Hts. now apply Hpast.
      * lia.
    + now rewrite Hts.
  - intros Hin.
    destruct (getTodayRelapseCount_interval_facts z now) as [Hdef Happ].
    rewrite !Hdef, Happ, logsWithin_cons, logsWithin_nil, Hts.
    replace (inHalfOpen _ _ _) with true; [lia|].
    symmetry. apply inHalfOpen_spec. exact Hin.
Qed.

End Logging.

Lemma addRelapseLog_resets_streak_witness :
  let clockAt := fun n : nat => 1000 + Z.of_nat n in
  let randomAt := fun _ : nat => "k3x9q0z1a"%string in
  let w := mkWorld (mkStorage (Holds (Some (Encoded [logAt (- msPerDay)])))
                              (Holds None) (Holds None)) 0 0 in
  getCurrentStreak utc 2000 [logAt (- msPerDay)] = 1
  /\ getCurrentStreak utc 2000
       (listOf (relapse_logs
                  (storage (snd (addRelapseLog clockAt randomAt breathing
                                               None w))))) = 0.
Proof.
  cbv zeta. split; [reflexivity|].
  apply (addRelapseLog_resets_streak
           (fun n : nat => 1000 + Z.of_nat n) (fun _ => "k3x9q0z1a"%string)
           utc 2000 breathing None
           (mkWorld (mkStorage (Holds (Some (Encoded [logAt (- msPerDay)])))
                               (Holds None) (Holds None)) 0 0)).
  - repeat constructor. cbn. discriminate.
  - reflexivity.
Defined.

Lemma addRelapseLog_appends_witness :
  let clockAt := fun n : nat => 1000 + Z.of_nat n in
  let randomAt := fun _ : nat => "k3x9q0z1a"%string in
  let w := mkWorld (mkStorage (Holds None) (Holds None) (Holds (Some Garbled)))
                   0 0 in
  exists entry,
    listOf (journal_entries
              (storage (snd (addRelapseLog clockAt randomAt physical
                                           (Some "note"%string) w))))
    = listOf (journal_entries (storage w)) ++ [entry]
    /\ relapseLogId entry = "1000-k3x9q0z1a"%string
    /\ content entry = "note"%string.
Proof.
  cbv zeta.
  destruct (addRelapseLog_appends
              (fun n : nat => 1000 + Z.of_nat n) (fun _ => "k3x9q0z1a"%string)
              physical (Some "note"%string)
              (mkWorld (mkStorage (Holds None) (Holds None)
                                  (Holds (Some Garbled))) 0 0))
    as (_ & _ & _ & H & _).
  apply (H "note"%string); [reflexivity|discriminate].
Defined.

Lemma handleComplete_other_actions_witness :
  let clockAt := fun n : nat => 1000 + Z.of_nat n in
  let randomAt := fun _ : nat => "k3x9q0z1a"%string in
  let w := mkWorld (mkStorage (Holds None) (Holds None) (Holds None)) 0 0 in
  let s := R.setJournalText "typed all the same"
             (R.handleSelectAction
                (mkAction physical "Physical Movement" 60 "move") 0 R.initial) in
  journal_entries (storage (snd (R.handleComplete clockAt randomAt s w)))
  = journal_entries (storage w)
  /\ R.handleComplete clockAt randomAt R.initial w = (Returned tt, w).
Proof.
  cbv zeta. split.
  - destruct (handleComplete_other_actions
                (fun n : nat => 1000 + Z.of_nat n)
                (fun _ => "k3x9q0z1a"%string)
                (R.setJournalText "typed all the same"
                   (R.handleSelectAction
                      (mkAction physical "Physical Movement" 60 "move") 0
                      R.initial))
                (mkWorld (mkStorage (Holds None) (Holds None) (Holds None))
                         0 0))
      as (H & _).
    now destruct (H physical eq_refl ltac:(discriminate)) as (_ & _ & Hj & _).
  - apply (handleComplete_other_actions
             (fun n : nat => 1000 + Z.of_nat n)
             (fun _ => "k3x9q0z1a"%string) R.initial).
    reflexivity.
Defined.

(** ** Ending a focus session *)

Module FR := FocusSessionRest.
Module RR := ReplacementActionRest.

Section Ending.
Variable clockAt : nat -> Z.
Variable randomAt : nat -> string.

(** What [handleEndSession] stores, in the form later proofs use. *)
Lemma handleEndSession_records_facts
  (s : F.State) (completed : bool) (w : World) :
  let endTime := clockAt (ticks w) in
  let w' := snd (FR.handleEndSession clockAt randomAt s completed w) in
  exists session,
    fst (FR.handleEndSession clockAt randomAt s completed w) = Returned session
    /\ listOf (focus_sessions (storage w'))
       = listOf (focus_sessions (storage w)) ++ [session]
    /\ Storage.startTime session = F.startTimeRef s
    /\ Storage.endTime session = endTime
    /\ Storage.duration session = (endTime - F.startTimeRef s) / 1000
    /\ Storage.completed session = completed
    /\ relapse_logs (storage w') = relapse_logs (storage w)
    /\ journal_entries (storage w') = journal_entries (storage w).
Proof.
  cbv zeta.
  cbv [FR.handleEndSession bind ret setItem freshId Date_now
       Math_random_suffix addFocusSession getFocusSessions].
  rewrite getList_returns. cbn.
  eexists. split; [reflexivity|]. repeat split.
Qed.

(** [handleEndSession] appends one focus session to the stored ones
    and returns it: it starts at the start instant of the screen, ends
    at the clock reading taken first, lasts the whole seconds between
    the two and carries the given [completed] flag; relapse logs and
    journal entries are untouched. *)
Theorem handleEndSession_records
  (s : F.State) (completed : bool) (w : World) :
  let endTime := clockAt (ticks w) in
  let w' := snd (FR.handleEndSession clockAt randomAt s completed w) in
  exists session,
    fst (FR.handleEndSession clockAt randomAt s completed w) = Returned session
    /\ listOf (focus_sessions (storage w'))
       = listOf (focus_sessions (storage w)) ++ [session]
    /\ Storage.startTime session = F.startTimeRef s
    /\ Storage.endTime session = endTime
    /\ Storage.duration session = (endTime - F.startTimeRef s) / 1000
    /\ Storage.completed session = completed
    /\ relapse_logs (storage w') = relapse_logs (storage w)
    /\ journal_entries (storage w') = journal_entries (storage w).
Proof.
  exact (handleEndSession_records_facts s completed w).
Qed.


End Ending.


(** ** The back button *)

(** On both timer screens the hardware back button is held back
    exactly until a tick has found the time run out: after any ticks it
    is swallowed if and only if none of them came at or after the end of
    the countdown. *)
Theorem back_blocked_until_complete
  (total start : Z) (action : Action) (nows : list Z) :
  FR.onBackPress (F.run total nows (F.mount total start))
  = negb (existsb (due total start) nows)
  /\ RR.onBackPress
       (R.run action nows (R.handleSelectAction action start R.initial))
     = negb (existsb (due (duration action) start) nows)
  /\ FR.onBackPress (F.mount total start) = true
  /\ RR.onBackPress R.initial = true.
Proof.
  unfold FR.onBackPress, RR.onBackPress.
  destruct (focus_session_run total start nows) as (_ & Hf & _).
  destruct (replacement_action_run action start nows) as (_ & Hr & _).
  rewrite Hf, Hr.
  split; [now destruct (existsb (due total start) nows)|].
  split; [now destruct (existsb (due (duration action) start) nows)|].
  split; reflexivity.
Qed.

(** ** The clock faces *)

Lemma below_by_cases (P : Z -> bool) (n : Z) :
  forallb (fun k => P (Z.of_nat k)) (seq 0 (Z.to_nat n)) = true ->
  forall s, 0 <= s < n -> P s = true.
Proof.
  intros H s Hs. rewrite forallb_forall in H.
  specialize (H (Z.to_nat s)). rewrite Z2Nat.id in H by lia.
  apply H, in_seq. lia.
Qed.

(** What the timers show.  Below 100 minutes the focus screen shows
    five characters, two digits of minutes, a colon and two digits of
    seconds; below 10 minutes the replacement screen shows four, with one
    digit of minutes.  Either face can be read back, so two remaining
    times never look alike. *)
Theorem formatTime_faces :
  (forall s, 0 <= s < 6000 ->
             FR.formatTime s = clockFace s
             /\ String.length (FR.formatTime s) = 5%nat
             /\ readFace (FR.formatTime s) = s)
  /\ (forall s, 0 <= s < 600 ->
                RR.formatTime s = shortFace s
                /\ String.length (RR.formatTime s) = 4%nat
                /\ readFace (RR.formatTime s) = s)
  /\ (forall a b, 0 <= a < 6000 -> 0 <= b < 6000 ->
                  FR.formatTime a = FR.formatTime b -> a = b)
  /\ (forall a b, 0 <= a < 600 -> 0 <= b < 600 ->
                  RR.formatTime a = RR.formatTime b -> a = b).
Proof.
  assert (forall s, 0 <= s < 6000 ->
                    (String.eqb (FR.formatTime s) (clockFace s)
                     && (readFace (clockFace s) =? s)) = true) as Hlong.
  { apply (below_by_cases
             (fun s => String.eqb (FR.formatTime s) (clockFace s)
                       && (readFace (clockFace s) =? s))).
    vm_compute. reflexivity. }
  assert (forall s, 0 <= s < 600 ->
                    (String.eqb (RR.formatTime s) (shortFace s)
                     && (readFace (shortFace s) =? s)) = true) as Hshort.
  { apply (below_by_cases
             (fun s => String.eqb (RR.formatTime s) (shortFace s)
                       && (readFace (shortFace s) =? s))).
    vm_compute. reflexivity. }
  assert (forall s, 0 <= s < 6000 ->
                    FR.formatTime s = clockFace s
                    /\ String.length (FR.formatTime s) = 5%nat
                    /\ readFace (FR.formatTime s) = s) as H1.
  { intros s Hs. specialize (Hlong s Hs).
    apply andb_prop in Hlong. destruct Hlong as [Hface Hread].
    apply String.eqb_eq in Hface. apply Z.eqb_eq in Hread.
    rewrite Hface. split; [reflexivity|]. split; [reflexivity|exact Hread]. }
  assert (forall s, 0 <= s < 600 ->
                    RR.formatTime s = shortFace s
                    /\ String.length (RR.formatTime s) = 4%nat
                    /\ readFace (RR.formatTime s) = s) as H2.
  { intros s Hs. specialize (Hshort s Hs).
    apply andb_prop in Hshort. destruct Hshort as [Hface Hread].
    apply String.eqb_eq in Hface. apply Z.eqb_eq in Hread.
    rewrite Hface. split; [reflexivity|]. split; [reflexivity|exact Hread]. }
  split; [exact H1|]. split; [exact H2|]. split.
  - intros a b Ha Hb E.
    destruct (H1 a Ha) as (_ & _ & Ra). destruct (H1 b Hb) as (_ & _ & Rb).
    rewrite <- Ra, <- Rb. now rewrite E.
  - intros a b Ha Hb E.
    destruct (H2 a Ha) as (_ & _ & Ra). destruct (H2 b Hb) as (_ & _ & Rb).
    rewrite <- Ra, <- Rb. now rewrite E.
Qed.

Lemma formatTime_faces_witness :
  FR.formatTime 1799 = "29:59"%string /\ RR.formatTime 90 = "1:30"%string
  /\ readFace (FR.formatTime 1799) = 1799.
Proof.
  split; [reflexivity|]. split; [reflexivity|].
  apply (proj1 formatTime_faces 1799). lia.
Defined.

(** ** The breathing exercise *)

Lemma breathe_add (a b : nat) (x : RR.Breath) :
  RR.breathe (a + b) x = RR.breathe b (RR.breathe a x).
Proof.
  revert x. induction a as [|a IH]; intros x; [reflexivity|].
  cbn [Nat.add RR.breathe]. apply IH.
Qed.

Lemma breathe_cycles (q : nat) :
  RR.breathe (14 * q) RR.startBreathingExercise = RR.startBreathingExercise.
Proof.
  induction q as [|q IH]; [reflexivity|].
  replace (14 * S q)%nat with (14 * q + 14)%nat by lia.
  rewrite breathe_add, IH. reflexivity.
Qed.

(** The breathing exercise runs in cycles of 14 seconds: inhale for 4,
    hold for 4, exhale for 4, rest for 2.  After [n] ticks the phase and
    the count shown are those of second [n] of the cycle, the count shown
    is between 1 and 4 and never 0, and what is shown agrees with the
    variables of the interval. *)
Theorem breathing_cycle (n : nat) :
  let b := RR.breathe n RR.startBreathingExercise in
  (RR.breathPhase b, RR.breathCount b) = breathAt (Z.of_nat n)
  /\ RR.phase b = RR.breathPhase b
  /\ RR.count b = RR.breathCount b
  /\ 1 <= RR.breathCount b <= 4
  /\ RR.breathe (n + 14) RR.startBreathingExercise = b.
Proof.
  cbv zeta.
  assert (forall r, (r < 14)%nat ->
                    let b := RR.breathe r RR.startBreathingExercise in
                    (RR.breathPhase b, RR.breathCount b)
                    = breathAt (Z.of_nat r)
                    /\ RR.phase b = RR.breathPhase b
                    /\ RR.count b = RR.breathCount b
                    /\ 1 <= RR.breathCount b <= 4) as Hcases.
  { intros r Hr. do 14 (destruct r as [|r]; [vm_compute; intuition discriminate|]).
    lia. }
  pose proof (Nat.div_mod_eq n 14) as Hn.
  pose proof (Nat.mod_upper_bound n 14 ltac:(discriminate)) as Hr.
  assert (RR.breathe n RR.startBreathingExercise
          = RR.breathe (n mod 14) RR.startBreathingExercise) as Hcycle.
  { rewrite Hn at 1. now rewrite breathe_add, breathe_cycles. }
  split; [|split; [|split; [|split]]].
  - rewrite Hcycle. destruct (Hcases _ Hr) as (H1 & _). cbv zeta in H1.
    rewrite H1. unfold breathAt.
    replace (Z.of_nat (n mod 14) mod 14) with (Z.of_nat n mod 14);
      [reflexivity|].
    rewrite Nat2Z.inj_mod. cbn [Z.of_nat]. now rewrite Z.mod_mod.
  - rewrite Hcycle. apply (Hcases _ Hr).
  - rewrite Hcycle. apply (Hcases _ Hr).
  - rewrite Hcycle. apply (Hcases _ Hr).
  - rewrite Nat.add_comm, breathe_add.
    change (RR.breathe 14 RR.startBreathingExercise)
      with RR.startBreathingExercise.
    reflexivity.
Qed.

(** ** The bars of the patterns screen *)

Module P := PatternsScreen.

Lemma Qfloor_scaled (count : Z) (max : positive) :
  Qfloor ((inject_Z count / inject_Z (Z.pos max)) * inject_Z 20)
  = count * 20 / Z.pos max.
Proof.
  unfold Qdiv, Qinv, Qmult, inject_Z, Qfloor. cbn [Qnum Qden].
  now rewrite Pos.mul_1_l, Pos.mul_1_r, Z.mul_1_r.
Qed.

Lemma barWidth_exact (count max : Z) :
  0 < max -> P.barWidth count max = Z.max 1 (count * 20 / max).
Proof.
  intros Hmax. destruct max as [|max|max]; try lia.
  unfold P.barWidth. now rewrite Qfloor_scaled.
Qed.

Lemma maxWithOne_bounds (counts : list Z) :
  1 <= P.maxWithOne counts
  /\ forall c, In c counts -> c <= P.maxWithOne counts.
Proof.
  unfold P.maxWithOne. induction counts as [|x counts [IH1 IH2]].
  - cbn. split; [lia|]. intros c [].
  - cbn [fold_right]. split; [lia|].
    intros c [<-|Hc]; [lia|]. specialize (IH2 c Hc). lia.
Qed.

Lemma repeatUnit_length (c : ascii) (n : nat) :
  String.length (repeatUnit c n) = n.
Proof. induction n as [|n IH]; cbn; [reflexivity|now rewrite IH]. Qed.

(** The bars of a chart whose counts are not negative: every bar has
    between 1 and 20 strokes, a count of 0 still draws one stroke, a
    larger count never draws a shorter bar, and a bar has all 20 strokes
    exactly when its count is the scale of the chart, which is the
    largest count or 1 when all counts are 0. *)
Theorem renderBar_strokes (counts : list Z) :
  Forall (fun c => 0 <= c) counts ->
  let scale := P.maxWithOne counts in
  1 <= scale
  /\ (forall c, In c counts ->
                1 <= P.barWidth c scale <= 20
                /\ String.length (P.renderBar c scale)
                   = Z.to_nat (P.barWidth c scale)
                /\ (P.barWidth c scale = 20 <-> c = scale)
                /\ (c = 0 -> P.barWidth c scale = 1))
  /\ (forall a b, In a counts -> In b counts -> a <= b ->
                  P.barWidth a scale <= P.barWidth b scale).
Proof.
  intros Hpos. cbv zeta.
  destruct (maxWithOne_bounds counts) as [Hone Hle].
  set (scale := P.maxWithOne counts) in *. clearbody scale.
  rewrite Forall_forall in Hpos.
  split; [exact Hone|]. split.
  - intros c Hc. specialize (Hpos c Hc). specialize (Hle c Hc).
    rewrite barWidth_exact by lia.
    assert (0 <= c * 20 / scale) as Hq0 by (apply Z.div_pos; lia).
    assert (c * 20 / scale <= 20) as Hq20
        by (apply Z.div_le_upper_bound; lia).
    split; [lia|]. split.
    { unfold P.renderBar, fillJoin. rewrite repeatUnit_length.
      now rewrite barWidth_exact by lia. }
    split.
    { split.
      - intros H20. assert (c * 20 / scale = 20) as Hq by lia.
        pose proof (Z.mul_div_le (c * 20) scale ltac:(lia)). nia.
      - intros ->. replace (scale * 20) with (20 * scale) by lia.
        rewrite Z.div_mul by lia. lia. }
    intros ->. cbn [Z.mul]. rewrite Z.div_0_l by lia. reflexivity.
  - intros a b Ha Hb Hab.
    pose proof (Hpos a Ha). rewrite !barWidth_exact by lia.
    assert (a * 20 / scale <= b * 20 / scale)
      by (apply Z.div_le_mono; lia).
    lia.
Qed.

Lemma renderBar_strokes_witness :
  P.renderBar 0 (P.maxWithOne [0; 3; 7]) = "|"%string
  /\ String.length (P.renderBar 7 (P.maxWithOne [0; 3; 7])) = 20%nat
  /\ P.barWidth 3 (P.maxWithOne [0; 3; 7]) = 8
  /\ 1 <= P.barWidth 3 (P.maxWithOne [0; 3; 7]) <= 20.
Proof.
  split; [reflexivity|]. split; [reflexivity|]. split; [reflexivity|].
  assert (Forall (fun c => 0 <= c) [0; 3; 7]) as Hpos
    by (repeat constructor; discriminate).
  destruct (renderBar_strokes [0; 3; 7] Hpos) as (_ & H & _).
  apply (H 3). right. now left.
Defined.

(** ** The export *)

Lemma countUnit_append (c : ascii) (a b : string) :
  countUnit c (a ++ b) = (countUnit c a + countUnit c b)%nat.
Proof.
  induction a as [|x a IH]; [reflexivity|].
  cbn [append countUnit]. rewrite IH. lia.
Qed.

Lemma countUnit_replaced (x y : ascii) (s : string) :
  x <> y -> countUnit x (replaceAll x y s) = 0%nat.
Proof.
  intros Hxy. induction s as [|a s IH]; [reflexivity|].
  cbn [replaceAll countUnit]. rewrite IH.
  destruct (Ascii.eqb a x) eqn:E.
  - replace (Ascii.eqb y x) with false; [reflexivity|].
    symmetry. apply Ascii.eqb_neq. congruence.
  - now rewrite E.
Qed.

Lemma countUnit_untouched (c x y : ascii) (s : string) :
  c <> x -> c <> y -> countUnit c (replaceAll x y s) = countUnit c s.
Proof.
  intros Hx Hy. induction s as [|a s IH]; [reflexivity|].
  cbn [replaceAll countUnit]. rewrite IH.
  destruct (Ascii.eqb a x) eqn:E; [|reflexivity].
  apply Ascii.eqb_eq in E. subst a.
  replace (Ascii.eqb y c) with false
    by (symmetry; apply Ascii.eqb_neq; congruence).
  replace (Ascii.eqb x c) with false
    by (symmetry; apply Ascii.eqb_neq; congruence).
  reflexivity.
Qed.

Lemma replaceAll_length (x y : ascii) (s : string) :
  String.length (replaceAll x y s) = String.length s.
Proof. induction s as [|a s IH]; cbn; [reflexivity|now rewrite IH]. Qed.

Lemma toString_one_line (n : Z) : countUnit lineFeed (toString n) = 0%nat.
Proof.
  unfold toString.
  assert (forall d, countUnit lineFeed (NilEmpty.string_of_uint d) = 0%nat)
    as Hd.
  { induction d as [|d IH|d IH|d IH|d IH|d IH|d IH|d IH|d IH|d IH|d IH];
      cbn [NilEmpty.string_of_uint countUnit]; rewrite ?IH; reflexivity. }
  assert (forall d, countUnit lineFeed (NilZero.string_of_uint d) = 0%nat)
    as Hz.
  { intros d. unfold NilZero.string_of_uint. destruct d; try apply Hd.
    reflexivity. }
  destruct (Z.to_int n) as [d|d]; cbn [NilZero.string_of_int countUnit];
    now rewrite Hz.
Qed.

Section ExportFacts.
Variable toLocaleDateString : Z -> string.
Variable toLocaleTimeString : Z -> string.
Hypothesis date_one_line :
  forall t, countUnit lineFeed (toLocaleDateString t) = 0%nat.
Hypothesis time_one_line :
  forall t, countUnit lineFeed (toLocaleTimeString t) = 0%nat.

Lemma appendLines_rows {A : Type} (line : A -> string) (l : list A)
  (csv : string) :
  (forall x, countUnit lineFeed (line x) = 1%nat) ->
  countUnit lineFeed (appendLines line l csv)
  = (countUnit lineFeed csv + List.length l)%nat
  /\ exists rest, appendLines line l csv = (csv ++ rest)%string.
Proof.
  intros Hline. unfold appendLines. revert csv.
  induction l as [|x l IH]; intros csv.
  - cbn. split; [lia|]. exists EmptyString. now rewrite append_empty_r.
  - cbn [fold_left List.length]. destruct (IH (csv ++ line x)%string)
      as [Hcount (rest & Hrest)].
    rewrite Hcount, countUnit_append, Hline. split; [lia|].
    exists (line x ++ rest)%string. now rewrite Hrest, append_assoc.
Qed.

Lemma relapseLine_one (log : RelapseLog) :
  countUnit lineFeed (relapseLine toLocaleDateString toLocaleTimeString log)
  = 1%nat.
Proof.
  unfold relapseLine. rewrite !countUnit_append, date_one_line, time_one_line.
  destruct (replacementAction log); reflexivity.
Qed.

Lemma sessionLine_one (session : FocusSession) :
  countUnit lineFeed (sessionLine toLocaleDateString toLocaleTimeString session)
  = 1%nat.
Proof.
  unfold sessionLine. cbv zeta.
  rewrite !countUnit_append, date_one_line, time_one_line, toString_one_line.
  destruct (completed session); reflexivity.
Qed.

Lemma journalLine_one (journal : JournalEntry) :
  countUnit lineFeed (journalLine toLocaleDateString toLocaleTimeString journal)
  = 1%nat.
Proof.
  unfold journalLine, csvContent.
  rewrite !countUnit_append, date_one_line, time_one_line.
  rewrite countUnit_replaced by discriminate. reflexivity.
Qed.

(** The export returns without touching the store.  Where the locale's
    dates and times hold no line feed, the text begins with the header
    line and has one line for the header and one for each stored log,
    session and journal entry, whatever the journal texts hold: in a
    journal text every comma has become a semicolon and every line feed a
    space, nothing else having changed length. *)
Theorem exportDataToCSV_rows (w : World) :
  exists csv,
    exportDataToCSV toLocaleDateString toLocaleTimeString w = (Returned csv, w)
    /\ startsWith csv ("Type,Date,Time,Details" ++ newline) = true
    /\ countUnit lineFeed csv
       = (1 + List.length (listOf (relapse_logs (storage w)))
          + List.length (listOf (focus_sessions (storage w)))
          + List.length (listOf (journal_entries (storage w))))%nat
    /\ (forall text,
          countUnit comma (csvContent text) = 0%nat
          /\ countUnit lineFeed (csvContent text) = 0%nat
          /\ String.length (csvContent text) = String.length text).
Proof.
  unfold exportDataToCSV, getRelapseLogs, getFocusSessions, getJournalEntries,
    bind.
  rewrite !getList_returns. cbn [cellOf RELAPSE_LOGS FOCUS_SESSIONS
                                 JOURNAL_ENTRIES].
  eexists. split; [reflexivity|].
  set (header := ("Type,Date,Time,Details" ++ newline)%string).
  set (logs := listOf (relapse_logs (storage w))).
  set (sessions := listOf (focus_sessions (storage w))).
  set (journals := listOf (journal_entries (storage w))).
  destruct (appendLines_rows
              (relapseLine toLocaleDateString toLocaleTimeString) logs header
              relapseLine_one) as [C1 (r1 & E1)].
  destruct (appendLines_rows
              (sessionLine toLocaleDateString toLocaleTimeString) sessions
              (appendLines (relapseLine toLocaleDateString toLocaleTimeString)
                           logs header)
              sessionLine_one) as [C2 (r2 & E2)].
  destruct (appendLines_rows
              (journalLine toLocaleDateString toLocaleTimeString) journals
              (appendLines
                 (sessionLine toLocaleDateString toLocaleTimeString) sessions
                 (appendLines
                    (relapseLine toLocaleDateString toLocaleTimeString)
                    logs header))
              journalLine_one) as [C3 (r3 & E3)].
  split; [|split].
  - rewrite E3, E2, E1, !append_assoc. apply startsWith_spec. eauto.
  - rewrite C3, C2, C1. reflexivity.
  - intros text. unfold csvContent. split; [|split].
    + rewrite countUnit_untouched by discriminate.
      apply countUnit_replaced. discriminate.
    + apply countUnit_replaced. discriminate.
    + now rewrite !replaceAll_length.
Qed.

End ExportFacts.

Lemma exportDataToCSV_rows_witness :
  let w := mkWorld (mkStorage (Holds (Some (Encoded [logAt 5])))
                      (Holds None)
                      (Holds (Some (Encoded
                         [mkJournalEntry "1" 10
                            (String "a" (String comma (String lineFeed
                               (String "b" EmptyString)))) "x"])))) 0 0 in
  fst (exportDataToCSV toString toString w)
  = Returned ("Type,Date,Time,Details" ++ newline
              ++ "Relapse,5,5,physical" ++ newline
              ++ "Journal,10,10," ++ quote ++ "a; b" ++ quote ++ newline)%string
  /\ exists csv,
       exportDataToCSV toString toString w = (Returned csv, w)
       /\ countUnit lineFeed csv = 3%nat.
Proof.
  cbv zeta. split; [reflexivity|].
  destruct (exportDataToCSV_rows toString toString
              toString_one_line toString_one_line
              (mkWorld (mkStorage (Holds (Some (Encoded [logAt 5])))
                          (Holds None)
                          (Holds (Some (Encoded
                             [mkJournalEntry "1" 10
                                (String "a" (String comma (String lineFeed
                                   (String "b" EmptyString)))) "x"])))) 0 0))
    as (csv & Hret & _ & Hrows & _).
  exists csv. split; [exact Hret|exact Hrows].
Defined.

(** ** The weekly pattern, whole *)

Lemma rev_seq (n : nat) :
  rev (seq 0 n) = map (fun k => (n - 1 - k)%nat) (seq 0 n).
Proof.
  induction n as [|n IH]; [reflexivity|].
  rewrite seq_S at 1. rewrite rev_app_distr. cbn [rev app Nat.add].
  cbn [seq map]. rewrite <- seq_shift, map_map, IH. f_equal; [lia|].
  apply map_ext. intros k. lia.
Qed.

Lemma weeklyLoop_entries
  (z : TimeZone) (now : Z) (logs : list RelapseLog) (weeks : Z) (n : nat)
  (result : list WeekCount) :
  weeklyLoop z now logs weeks n result
  = result ++ map (weekEntry z now logs weeks) (countdown n).
Proof.
  revert result. unfold countdown.
  induction n as [|n IH]; intros result.
  - cbn. now rewrite app_nil_r.
  - cbn [weeklyLoop]. rewrite IH, <- app_assoc. f_equal.
    rewrite seq_S, rev_app_distr. reflexivity.
Qed.

(** The weekly pattern for any number of weeks: one entry per week,
    labelled W1, W2, ... from the oldest on; and, where the offset from
    UTC never changes, the counts add up to the number of logs in the
    [7 * weeks] days that end at the midnight starting today, so that
    each log of those days is counted in one week only and a log made
    today in none. *)
Theorem getWeeklyPattern_whole
  (offset now : Z) (logs : list RelapseLog) (weeks : nat) :
  let fz := fixedZone offset in
  let today := localDay fz now in
  let pattern := getWeeklyPattern fz now logs (Z.of_nat weeks) in
  List.length pattern = weeks
  /\ map week pattern
     = map (fun k => ("W" ++ toString (Z.of_nat k + 1))%string) (seq 0 weeks)
  /\ sumZ (map weekCount pattern)
     = logsWithin (dateOf fz (today - 7 * Z.of_nat weeks)) (dateOf fz today)
                  logs
  /\ (forall l, In l logs -> dateOf fz today <= timestamp l ->
                logsWithin (dateOf fz (today - 7 * Z.of_nat weeks))
                           (dateOf fz today) [l] = 0).
Proof.
  cbv zeta. unfold getWeeklyPattern.
  rewrite weeklyLoop_entries, Nat2Z.id. cbn [app].
  split; [|split; [|split]].
  - unfold countdown. now rewrite !length_map, length_rev, length_seq.
  - unfold countdown. rewrite rev_seq, !map_map.
    apply map_ext_in. intros k Hk. apply in_seq in Hk.
    unfold weekEntry. cbn [week]. do 2 f_equal. lia.
  - unfold countdown. induction weeks as [|n IH].
    + cbn [seq rev map sumZ fold_right Z.of_nat].
      rewrite Z.mul_0_r, Z.sub_0_r. now rewrite logsWithin_empty.
    + rewrite seq_S, rev_app_distr. cbn [rev app map Nat.add].
      change (sumZ (?x :: ?l)) with (x + sumZ l).
      assert (map weekCount
                (map (weekEntry (fixedZone offset) now logs (Z.of_nat (S n)))
                     (map Z.of_nat (rev (seq 0 n))))
              = map weekCount
                  (map (weekEntry (fixedZone offset) now logs (Z.of_nat n))
                       (map Z.of_nat (rev (seq 0 n))))) as ->.
      { rewrite !map_map. apply map_ext. reflexivity. }
      rewrite IH.
      change (weekCount (weekEntry (fixedZone offset) now logs
                                   (Z.of_nat (S n)) (Z.of_nat n)))
        with (logsWithin
                (dateOf (fixedZone offset)
                        (localDay (fixedZone offset) now - Z.of_nat n * 7)
                 - 7 * 24 * 60 * 60 * 1000)
                (dateOf (fixedZone offset)
                        (localDay (fixedZone offset) now - Z.of_nat n * 7))
                logs).
      rewrite !fixed_dateOf.
      set (today := localDay (fixedZone offset) now).
      replace ((today - Z.of_nat n * 7) * msPerDay - offset
               - 7 * 24 * 60 * 60 * 1000)
        with ((today - 7 * Z.of_nat (S n)) * msPerDay - offset)
        by (unfold msPerDay; lia).
      replace (today - Z.of_nat n * 7) with (today - 7 * Z.of_nat n) by lia.
      apply logsWithin_split. pose proof msPerDay_pos. nia.
  - intros l _ Hlate. rewrite logsWithin_cons, logsWithin_nil.
    replace (inHalfOpen _ _ _) with false; [reflexivity|].
    symmetry. apply not_true_iff_false. rewrite inHalfOpen_spec. lia.
Qed.

Lemma getWeeklyPattern_whole_witness :
  map weekCount (getWeeklyPattern utc (12 * msPerHour)
                   [logAt msPerHour; logAt (- msPerHour)] 2) = [0; 1]
  /\ logsWithin (dateOf utc (localDay utc (12 * msPerHour) - 7 * 2))
                (dateOf utc (localDay utc (12 * msPerHour)))
                [logAt msPerHour] = 0.
Proof.
  split; [reflexivity|].
  destruct (getWeeklyPattern_whole 0 (12 * msPerHour)
              [logAt msPerHour; logAt (- msPerHour)] 2)
    as (_ & _ & _ & H).
  apply (H (logAt msPerHour)); [now left|].
  vm_compute. discriminate.
Defined.

(** The daily pattern where the offset from UTC never changes: the
    counts add up to the number of logs from the midnight that starts the
    oldest day shown to the midnight that ends today, each such log being
    counted on one day only; and the labels are the names of successive
    weekdays, the entry for [i] days ago carrying the weekday [i] days
    before today's. *)
Theorem getDailyPattern_calendar
  (offset now : Z) (logs : list RelapseLog) (days : Z) :
  let fz := fixedZone offset in
  let today := localDay fz now in
  sumZ (map dayCount (getDailyPattern fz now logs days))
  = logsWithin (dateOf fz (today + 1 - Z.max 0 days))
               (dateOf fz (today + 1)) logs
  /\ map date (getDailyPattern fz now logs days)
     = map (fun i => weekdayName (getDay fz now - i))
           (countdown (Z.to_nat days)).
Proof.
  cbv zeta. split.
  - apply getDailyPattern_partition.
  - apply getDailyPattern_weekdays.
Qed.

(** ** The order of the stored logs *)

Lemma countIf_perm {A : Type} (p : A -> bool) (a b : list A) :
  Permutation a b -> countIf p a = countIf p b.
Proof.
  unfold countIf. intros H. f_equal.
  induction H as [|x a b _ IH|x y a|a b c _ IH1 _ IH2].
  - reflexivity.
  - cbn [filter]. destruct (p x); cbn [List.length]; now rewrite IH.
  - cbn [filter]. destruct (p x), (p y); reflexivity.
  - congruence.
Qed.

Lemma mostRecent_perm (last : RelapseLog) (a b : list RelapseLog) :
  Permutation a b -> mostRecent last a -> mostRecent last b.
Proof.
  intros H [Hin Hmax]. split.
  - now apply (Permutation_in _ H).
  - intros l Hl. apply Hmax. apply (Permutation_in _ (Permutation_sym H) Hl).
Qed.

(** The figures do not depend on the order in which the logs are
    stored: two lists with the same logs give the same streak, the same
    count for today, the same daily and hourly patterns and the same risk
    windows. *)
Theorem figures_ignore_order
  (z : TimeZone) (now : Z) (a b : list RelapseLog) :
  Permutation a b ->
  getCurrentStreak z now a = getCurrentStreak z now b
  /\ getTodayRelapseCount z now a = getTodayRelapseCount z now b
  /\ (forall days, getDailyPattern z now a days = getDailyPattern z now b days)
  /\ getHourlyPattern z a = getHourlyPattern z b
  /\ getRiskWindows z a = getRiskWindows z b.
Proof.
  intros Hperm.
  assert (hourCountsOf z a = hourCountsOf z b) as Hhours.
  { apply (nth_ext _ _ 0 0).
    - now rewrite !hourCountsOf_length.
    - intros n Hn. rewrite hourCountsOf_length in Hn.
      pose proof (hourCountsOf_count z a (Z.of_nat n) ltac:(lia)) as Ha.
      pose proof (hourCountsOf_count z b (Z.of_nat n) ltac:(lia)) as Hb.
      unfold countAt in Ha, Hb. rewrite Nat2Z.id in Ha, Hb.
      rewrite Ha, Hb. now apply countIf_perm. }
  split; [|split; [|split; [|split]]].
  - destruct a as [|l a'].
    + apply Permutation_nil in Hperm. now subst b.
    + destruct (mostRecent_exists (l :: a') ltac:(discriminate))
        as [last Hlast].
      rewrite (getCurrentStreak_latest z now _ _ Hlast).
      now rewrite (getCurrentStreak_latest z now _ _
                     (mostRecent_perm _ _ _ Hperm Hlast)).
  - unfold getTodayRelapseCount. now apply countIf_perm.
  - intros days. rewrite !getDailyPattern_entries.
    apply map_ext. intros i. unfold dayEntry. f_equal.
    now apply countIf_perm.
  - unfold getHourlyPattern. now rewrite Hhours.
  - unfold getRiskWindows, getHourlyPattern.
    now rewrite Hhours, (Permutation_length Hperm).
Qed.

Lemma figures_ignore_order_witness :
  getCurrentStreak utc (3 * msPerDay) [logAt 5; logAt msPerDay]
  = getCurrentStreak utc (3 * msPerDay) [logAt msPerDay; logAt 5]
  /\ getCurrentStreak utc (3 * msPerDay) [logAt 5; logAt msPerDay] = 2.
Proof.
  split; [|reflexivity].
  apply (figures_ignore_order utc (3 * msPerDay)
           [logAt 5; logAt msPerDay] [logAt msPerDay; logAt 5]).
  apply perm_swap.
Defined.

(** ** The journal text that is stored *)

Lemma trimEnd_idempotent (s : string) : trimEnd (trimEnd s) = trimEnd s.
Proof.
  induction s as [|c s IH]; [reflexivity|].
  cbn [trimEnd]. destruct (trimEnd s) as [|k kept] eqn:E.
  - destruct (isWhiteSpace c) eqn:W; [reflexivity|].
    cbn [trimEnd]. now rewrite W.
  - cbn [trimEnd]. cbn [trimEnd] in IH.
    destruct (trimEnd kept) as [|k2 kept2] eqn:E2.
    + destruct (isWhiteSpace k) eqn:Wk; [discriminate IH|].
      injection IH as <-. reflexivity.
    + now rewrite IH.
Qed.

Lemma trimEnd_last (s : string) (c : ascii) :
  lastUnit (trimEnd s) = Some c -> isWhiteSpace c = false.
Proof.
  induction s as [|a s IH]; [discriminate|].
  cbn [trimEnd]. destruct (trimEnd s) as [|k kept] eqn:E.
  - destruct (isWhiteSpace a) eqn:W; [discriminate|].
    cbn. intros H. now injection H as <-.
  - intros H. apply IH. exact H.
Qed.

Lemma trimEnd_first (s : string) (c : ascii) :
  firstUnit s = Some c -> isWhiteSpace c = false ->
  firstUnit (trimEnd s) = Some c.
Proof.
  destruct s as [|a s]; [discriminate|].
  cbn [firstUnit]. intros H W. injection H as ->.
  cbn [trimEnd]. destruct (trimEnd s); [now rewrite W|reflexivity].
Qed.

Lemma trimStart_first (s : string) (c : ascii) :
  firstUnit (trimStart s) = Some c -> isWhiteSpace c = false.
Proof.
  induction s as [|a s IH]; [discriminate|].
  cbn [trimStart]. destruct (isWhiteSpace a) eqn:W; [exact IH|].
  cbn. intros H. now injection H as <-.
Qed.

Lemma trimStart_fixed (s : string) (c : ascii) :
  firstUnit s = Some c -> isWhiteSpace c = false -> trimStart s = s.
Proof.
  destruct s as [|a s]; [discriminate|].
  cbn [firstUnit]. intros H W. injection H as ->.
  cbn [trimStart]. now rewrite W.
Qed.

(** The journal text the replacement screen hands to the store: there
    is one only for the "writing" action and a text that is not all white
    space; it is the typed text without its leading and trailing white
    space, so it is not empty, neither begins nor ends with white space,
    and handing it in again changes nothing. *)
Theorem journalOf_trimmed (a : ActionType) (text journal : string) :
  R.journalOf a text = Some journal ->
  a = writing
  /\ whitespaceOnly text = false
  /\ journal = trim text
  /\ journal <> EmptyString
  /\ (exists c, firstUnit journal = Some c /\ isWhiteSpace c = false)
  /\ (exists c, lastUnit journal = Some c /\ isWhiteSpace c = false)
  /\ R.journalOf a journal = Some journal.
Proof.
  unfold R.journalOf. intros H.
  destruct a; cbn [R.isWriting andb] in H; try discriminate H.
  rewrite nonEmpty_trim in H.
  destruct (whitespaceOnly text) eqn:W; cbn [negb] in H; [discriminate H|].
  injection H as <-.
  assert (trim text <> EmptyString) as Hne.
  { intros E. apply trim_empty_iff in E. congruence. }
  assert (exists c, firstUnit (trim text) = Some c /\ isWhiteSpace c = false)
    as Hfirst.
  { unfold trim. destruct (trimStart text) as [|c rest] eqn:E.
    - exfalso. apply Hne. unfold trim. now rewrite E.
    - assert (isWhiteSpace c = false) as Wc
          by (apply (trimStart_first text); now rewrite E).
      exists c. split; [|exact Wc]. now apply trimEnd_first. }
  assert (exists c, lastUnit (trim text) = Some c /\ isWhiteSpace c = false)
    as Hlast.
  { destruct (lastUnit (trim text)) as [c|] eqn:E.
    - exists c. split; [reflexivity|]. now apply (trimEnd_last (trimStart text)).
    - exfalso. destruct (trim text) as [|x rest] eqn:T; [now apply Hne|].
      clear - E. revert x E. induction rest as [|y rest IH]; intros x E.
      + discriminate E.
      + apply (IH y). exact E. }
  assert (trim (trim text) = trim text) as Hidem.
  { destruct Hfirst as (c & Hc & Wc).
    unfold trim at 1. rewrite (trimStart_fixed _ _ Hc Wc).
    unfold trim. apply trimEnd_idempotent. }
  split; [reflexivity|]. split; [reflexivity|]. split; [reflexivity|].
  split; [exact Hne|]. split; [exact Hfirst|]. split; [exact Hlast|].
  cbn [R.isWriting andb]. rewrite Hidem.
  destruct (trim text); [contradiction|reflexivity].
Qed.

Lemma journalOf_trimmed_witness :
  R.journalOf writing "  trigger noted  " = Some "trigger noted"%string
  /\ R.journalOf writing "trigger noted" = Some "trigger noted"%string.
Proof.
  split; [reflexivity|].
  apply (journalOf_trimmed writing "  trigger noted  " "trigger noted").
  reflexivity.
Defined.

(** ** The windows the patterns screen lists *)

(** The patterns screen lists at most three risk windows, all of them
    risk windows of the logs, in descending order of count; no window it
    leaves out has a larger count than one it lists. *)
Theorem shownWindows_top_three (z : TimeZone) (logs : list RelapseLog) :
  let windows := getRiskWindows z logs in
  let shown := P.shownWindows windows in
  (List.length shown <= 3)%nat
  /\ (List.length windows <= 3 -> shown = windows)%nat
  /\ (forall w, In w shown -> In w windows)
  /\ StronglySorted (fun a b => count_ b <= count_ a) shown
  /\ (forall a b, In a shown -> In b (skipn 3 windows) -> count_ b <= count_ a).
Proof.
  cbv zeta. unfold P.shownWindows.
  pose proof (sort_descending count_
                (scanWindows (averageOf (List.length logs))
                             (getHourlyPattern z logs))) as Hsorted.
  change (sort _ _) with (getRiskWindows z logs) in Hsorted.
  set (windows := getRiskWindows z logs) in *. clearbody windows.
  unfold descending in Hsorted.
  split; [apply firstn_le_length|].
  split; [intros Hfew; now apply firstn_all2|].
  split.
  { intros w Hw. rewrite <- (firstn_skipn 3 windows).
    apply in_or_app. now left. }
  rewrite <- (firstn_skipn 3 windows) in Hsorted.
  split.
  - clear - Hsorted. revert Hsorted.
    generalize (firstn 3 windows) (skipn 3 windows). intros l1 l2.
    induction l1 as [|x l1 IH]; intros Hs; [constructor|].
    cbn [app] in Hs. inversion Hs as [|? ? Hl Hx]; subst.
    constructor; [now apply IH|].
    rewrite Forall_forall in *. intros y Hy. apply Hx.
    apply in_or_app. now left.
  - intros a b Ha Hb. clear - Hsorted Ha Hb. revert Hsorted Ha.
    generalize (firstn 3 windows). intros l1.
    induction l1 as [|x l1 IH]; intros Hs Ha; [destruct Ha|].
    cbn [app] in Hs. inversion Hs as [|? ? Hl Hx]; subst.
    destruct Ha as [<-|Ha].
    + rewrite Forall_forall in Hx. apply Hx. apply in_or_app. now right.
    + now apply IH.
Qed.

Lemma shownWindows_top_three_witness :
  P.shownWindows (getRiskWindows utc logsAtTwoAndThree) = [mkWindow 2 4 10]
  /\ P.shownWindows (getRiskWindows utc logsAtTwoAndThree)
     = getRiskWindows utc logsAtTwoAndThree.
Proof.
  split; [vm_compute; reflexivity|].
  destruct (shownWindows_top_three utc logsAtTwoAndThree) as (_ & H & _).
  apply H.
  replace (getRiskWindows utc logsAtTwoAndThree) with [mkWindow 2 4 10]
    by (vm_compute; reflexivity).
  cbn. lia.
Defined.

Lemma getFocusPresets_builtins_first_witness :
  let d := mkDevice (mkWorld (mkStorage (Holds None) (Holds None) (Holds None))
                             0 0)
                    (Kept None) (Holds (Some Garbled)) in
  getFocusPresets d = (Returned DEFAULT_PRESETS, d)
  /\ exists customs,
       getFocusPresets d = (Returned (DEFAULT_PRESETS ++ customs), d)
       /\ customs = [].
Proof.
  cbv zeta. split; [reflexivity|].
  destruct (getFocusPresets_builtins_first
              (mkDevice (mkWorld (mkStorage (Holds None) (Holds None)
                                            (Holds None)) 0 0)
                        (Kept None) (Holds (Some Garbled))))
    as (customs & Hret & _ & _ & _ & Hnone).
  exists customs. split; [exact Hret|]. apply Hnone. reflexivity.
Defined.
